(** * Verification of the AWS CloudWatch metricset of Metricbeat

    Shallow embedding of
    [x-pack/metricbeat/module/aws/cloudwatch/cloudwatch.go].

    Modelling conventions.
    - Go strings are [String.string] over ASCII characters.
    - A Go slice whose [nil]-ness the code tests ([config.MetricName],
      [config.Dimensions], [config.Statistic], [NamespaceDetail.Names],
      [NamespaceDetail.Dimensions]) is an [option (list _)]: [None] is the
      nil slice, [Some l] a non-nil slice (possibly empty).  Slices whose
      nil-ness the code never tests are plain lists.
    - Go maps are stdpp [gmap]s; [range] over a map is [map_fold] or
      [map_to_list], whose order is fixed but unspecified, as in Go.
    - [mb.Event.RootFields] (a [mapstr.M]) is a map whose values may be
      nested maps; [Put] and [GetValue] follow [mapstr.M]: a dotted key
      names a path through the nested maps.
    - A [float64] metric value is only carried, never computed with: it is
      represented by a [Z].
    - A Go runtime panic (index out of range) is [None] in an [option]
      result.
    - Functions of the [aws] helper package and of libbeat ([InitEvent],
      [FindTimestamp], [CheckTimestampInArray], [CheckTagFiltersExist],
      [FindShortIdentifierFromARN], [common.DeDot], [addMetadata]) are
      section variables: every theorem holds for every implementation. *)

From Stdlib Require Import String Ascii ZArith Lia DecimalNat FinFun.
From stdpp Require Import base list gmap strings.

Open Scope string_scope.

(** stdpp makes [String.append] opaque to [simpl]; the proofs below compute
    with it. *)
Arguments String.append : simpl nomatch.

(** ** Data model *)

(** [Dimension] / [types.Dimension] (pointers are never nil here). *)
Record Dimension := mkDimension { Name : string; Value : string }.

Global Instance Dimension_eq_dec : EqDecision Dimension.
Proof. solve_decision. Defined.

(** [types.Metric]. *)
Record Metric := mkMetric {
  Namespace : string;
  MetricName : string;
  Dimensions : list Dimension
}.

(** [MetricsWithStatistics]. *)
Record MetricsWithStatistics := mkMWS {
  CloudwatchMetric : Metric;
  Statistic : list string
}.

(** [aws.Tag] and [resourcegroupstaggingapitypes.Tag]. *)
Record Tag := mkTag { Key : string; TagValue : string }.

(** [Config]. *)
Record Config := mkConfig {
  cfg_Namespace : string;
  cfg_MetricName : option (list string);
  cfg_Dimensions : option (list Dimension);
  cfg_ResourceType : string;
  cfg_Statistic : option (list string)
}.

(** [NamespaceDetail]. *)
Record NamespaceDetail := mkNamespaceDetail {
  ResourceTypeFilter : string;
  Names : option (list string);
  Tags : list Tag;
  Statistics : list string;
  nd_Dimensions : option (list Dimension)
}.

(** [ListMetricWithDetail]. *)
Record ListMetricWithDetail := mkListMetricWithDetail {
  MetricsWithStats : list MetricsWithStatistics;
  ResourceTypeFilters : gmap string (list Tag)
}.

(** ** Constants of the package *)

Definition metricNameIdx := 0%nat.
Definition namespaceIdx := 1%nat.
Definition statisticIdx := 2%nat.
Definition identifierNameIdx := 3%nat.
Definition identifierValueIdx := 4%nat.
Definition defaultStatistics : list string :=
  ["Average"; "Maximum"; "Minimum"; "Sum"; "SampleCount"].
Definition labelSeparator : ascii := "|"%char.
Definition dimensionSeparator : ascii := ","%char.
Definition dimensionValueWildcard := "*".

(** ** Go standard library: [strings] and [strconv] *)

(** [strings.Split(s, sep)] for a one-byte separator: [n] occurrences of
    the separator give [n + 1] fields; [Split("", sep) = [""]]. *)
Fixpoint Split (c : ascii) (s : string) : list string :=
  match s with
  | EmptyString => [""]
  | String a s' =>
      let rest := Split c s' in
      if ascii_dec a c then "" :: rest
      else match rest with
           | [] => [String a ""]
           | h :: t => String a h :: t
           end
  end.

(** [strings.HasPrefix(s, p)]. *)
Definition HasPrefix (s p : string) : bool := String.prefix p s.

(** [strings.ToLower] on ASCII letters. *)
Definition lower_ascii (a : ascii) : ascii :=
  let n := nat_of_ascii a in
  if (65 <=? n)%nat && (n <=? 90)%nat then ascii_of_nat (n + 32) else a.

Fixpoint ToLower (s : string) : string :=
  match s with
  | EmptyString => EmptyString
  | String a s' => String (lower_ascii a) (ToLower s')
  end.

(** Decimal digits of a [Decimal.uint]. *)
Fixpoint uint_digits (u : Decimal.uint) : string :=
  match u with
  | Decimal.Nil => ""
  | Decimal.D0 u' => String "0" (uint_digits u')
  | Decimal.D1 u' => String "1" (uint_digits u')
  | Decimal.D2 u' => String "2" (uint_digits u')
  | Decimal.D3 u' => String "3" (uint_digits u')
  | Decimal.D4 u' => String "4" (uint_digits u')
  | Decimal.D5 u' => String "5" (uint_digits u')
  | Decimal.D6 u' => String "6" (uint_digits u')
  | Decimal.D7 u' => String "7" (uint_digits u')
  | Decimal.D8 u' => String "8" (uint_digits u')
  | Decimal.D9 u' => String "9" (uint_digits u')
  end.

(** [strconv.Itoa] on the non-negative loop indices it is applied to. *)
Definition Itoa (n : nat) : string := uint_digits (Nat.to_uint n).

(** ** [ConstructLabel] *)

(** The [for i, dim := range metric.Dimensions] loop of [ConstructLabel]:
    [i] is the index, [n] is [len(metric.Dimensions)]. *)
Fixpoint label_dims_loop (dims : list Dimension) (i n : nat)
    (dimNames dimValues : string) : string * string :=
  match dims with
  | [] => (dimNames, dimValues)
  | dim :: rest =>
      let dimNames := dimNames +:+ Name dim in
      let dimValues := dimValues +:+ Value dim in
      if negb (Nat.eqb i (n - 1))
      then label_dims_loop rest (S i) n
             (dimNames +:+ String dimensionSeparator "")
             (dimValues +:+ String dimensionSeparator "")
      else label_dims_loop rest (S i) n dimNames dimValues
  end.

Definition ConstructLabel (metric : Metric) (statistic : string) : string :=
  let sep := String labelSeparator "" in
  let label := MetricName metric +:+ sep +:+ Namespace metric +:+ sep +:+ statistic in
  let '(dimNames, dimValues) :=
    label_dims_loop (Dimensions metric) 0 (length (Dimensions metric)) "" "" in
  if negb (String.eqb dimNames "") && negb (String.eqb dimValues "")
  then (label +:+ (sep +:+ dimNames)) +:+ (sep +:+ dimValues)
  else label.

(** ** [StatisticLookup] *)

Definition statisticLookupTable (stat : string) : option string :=
  if String.eqb stat "Average" then Some "avg"
  else if String.eqb stat "Sum" then Some "sum"
  else if String.eqb stat "Maximum" then Some "max"
  else if String.eqb stat "Minimum" then Some "min"
  else if String.eqb stat "SampleCount" then Some "count"
  else None.

Definition StatisticLookup (stat : string) : string * bool :=
  match statisticLookupTable stat with
  | Some statMethod => (statMethod, true)
  | None => (stat, HasPrefix stat "p")
  end.

(** ** [CreateMetricDataQueries] *)

(** [types.MetricDataQuery] with its [types.MetricStat]. *)
Record MetricDataQuery := mkMetricDataQuery {
  Id : string;
  Period : Z;
  Stat : string;
  QMetric : Metric;
  Label : string
}.

(** The identifier [id := "cw" + strconv.Itoa(i) + "stats" + strconv.Itoa(j)]. *)
Definition query_id (i j : nat) : string :=
  "cw" +:+ Itoa i +:+ "stats" +:+ Itoa j.

(** Inner loop [for j, statistic := range listMetric.Statistic]. *)
Fixpoint cmdq_inner (periodInSec : Z) (i j : nat) (metric : Metric)
    (stats : list string) : list MetricDataQuery :=
  match stats with
  | [] => []
  | statistic :: rest =>
      mkMetricDataQuery (query_id i j) periodInSec statistic metric
        (ConstructLabel metric statistic)
      :: cmdq_inner periodInSec i (S j) metric rest
  end.

(** Outer loop [for i, listMetric := range listMetricsTotal]. *)
Fixpoint cmdq_outer (periodInSec : Z) (i : nat)
    (listMetricsTotal : list MetricsWithStatistics) : list MetricDataQuery :=
  match listMetricsTotal with
  | [] => []
  | listMetric :: rest =>
      (cmdq_inner periodInSec i 0 (CloudwatchMetric listMetric) (Statistic listMetric)
       ++ cmdq_outer periodInSec (S i) rest)%list
  end.

(** [periodInSec] is [int32(period.Seconds())]. *)
Definition CreateMetricDataQueries (listMetricsTotal : list MetricsWithStatistics)
    (periodInSec : Z) : list MetricDataQuery :=
  cmdq_outer periodInSec 0 listMetricsTotal.

(** ** [CompareAWSDimensions] *)

(** The loop [for i := range dim2] filling both name-to-value maps. *)
Fixpoint name_to_value_loop (dim1 dim2 : list Dimension)
    (m1 m2 : gmap string string) : gmap string string * gmap string string :=
  match dim1, dim2 with
  | d1 :: rest1, d2 :: rest2 =>
      name_to_value_loop rest1 rest2 (<[Name d1 := Value d1]> m1) (<[Name d2 := Value d2]> m2)
  | _, _ => (m1, m2)
  end.

(** Body of [for name, v1 := range dim1NameToValue]. *)
Definition wildcard_subst (name v1 : string) (m2 : gmap string string)
    : gmap string string :=
  match m2 !! name with
  | Some v2 => if String.eqb v2 dimensionValueWildcard then <[name := v1]> m2 else m2
  | None => m2
  end.

Definition CompareAWSDimensions (dim1 dim2 : list Dimension) : bool :=
  if negb (Nat.eqb (length dim1) (length dim2)) then false
  else
    let '(dim1NameToValue, dim2NameToValue) := name_to_value_loop dim1 dim2 ∅ ∅ in
    let dim2NameToValue := map_fold wildcard_subst dim2NameToValue dim1NameToValue in
    bool_decide (dim1NameToValue = dim2NameToValue).

(** ** [readCloudwatchConfig] *)

Definition ConfigDimensionValueContainsWildcard (dim : list Dimension) : bool :=
  existsb (fun d => String.eqb (Value d) dimensionValueWildcard) dim.

(** [cloudwatchDimensions]: built by [append] from a nil slice, so nil when
    the configuration has no dimension. *)
Definition cloudwatchDimensions_of (dims : option (list Dimension))
    : option (list Dimension) :=
  match dims with
  | None | Some [] => None
  | Some ds => Some ds
  end.

(** The state threaded through the loop over [m.CloudwatchConfigs]:
    [metricsWithStatsTotal], [resourceTypesWithTags], [namespaceDetailTotal]. *)
Record RccState := mkRccState {
  metricsWithStatsTotal : list MetricsWithStatistics;
  resourceTypesWithTags : gmap string (list Tag);
  namespaceDetailTotal : gmap string (list NamespaceDetail)
}.

(** [config.Statistic] after [if config.Statistic == nil { ... = defaultStatistics }]. *)
Definition statistic_with_default (stat : option (list string)) : list string :=
  match stat with
  | None => defaultStatistics
  | Some s => s
  end.

(** [config.MetricName != nil && config.Dimensions != nil &&
    !ConfigDimensionValueContainsWildcard(config.Dimensions)]. *)
Definition is_exact_mode (config : Config) : bool :=
  bool_decide (is_Some (cfg_MetricName config)) && bool_decide (is_Some (cfg_Dimensions config))
  && negb (ConfigDimensionValueContainsWildcard (default [] (cfg_Dimensions config))).

(** One iteration of [for _, config := range m.CloudwatchConfigs];
    [tagsFilter] is [m.MetricSet.TagsFilter]. *)
Definition rcc_step (tagsFilter : list Tag) (st : RccState) (config : Config) : RccState :=
  let statistic := statistic_with_default (cfg_Statistic config) in
  let cloudwatchDimensions := cloudwatchDimensions_of (cfg_Dimensions config) in
  if is_exact_mode config then
    let namespace := cfg_Namespace config in
    let mws := map (fun name =>
                 mkMWS (mkMetric namespace name (default [] cloudwatchDimensions)) statistic)
               (default [] (cfg_MetricName config)) in
    let rtt := if String.eqb (cfg_ResourceType config) "" then resourceTypesWithTags st
               else <[cfg_ResourceType config := tagsFilter]> (resourceTypesWithTags st) in
    mkRccState ((metricsWithStatsTotal st ++ mws)%list) rtt (namespaceDetailTotal st)
  else
    let configPerNamespace :=
      mkNamespaceDetail (cfg_ResourceType config) (cfg_MetricName config) tagsFilter
        statistic cloudwatchDimensions in
    let ns := cfg_Namespace config in
    mkRccState (metricsWithStatsTotal st) (resourceTypesWithTags st)
      (<[ns := (default [] (namespaceDetailTotal st !! ns) ++ [configPerNamespace])%list]>
         (namespaceDetailTotal st)).

Definition readCloudwatchConfig (tagsFilter : list Tag) (configs : list Config)
    : ListMetricWithDetail * gmap string (list NamespaceDetail) :=
  let st := fold_left (rcc_step tagsFilter) configs (mkRccState [] ∅ ∅) in
  (mkListMetricWithDetail (metricsWithStatsTotal st) (resourceTypesWithTags st),
   namespaceDetailTotal st).

(** [checkStatistics]: the first invalid statistic, if any, is the error. *)
Definition checkStatistics (configs : list Config) : option string :=
  let stats := concat (map (fun c => default [] (cfg_Statistic c)) configs) in
  match List.find (fun stat => negb (snd (StatisticLookup stat))) stats with
  | Some stat => Some ("statistic method specified is not valid: " +:+ stat)
  | None => None
  end.

(** ** [FilterListMetricsOutput] and [ConstructTagsFilters] *)

(** Modelled from the spec: [aws.StringInSlice] (helper package, not in this
    source tree), "keep iff metric name is in the set". *)
Definition StringInSlice (s : string) (l : list string) : bool :=
  existsb (String.eqb s) l.

Definition filter_one (listMetric : Metric) (configPerNamespace : NamespaceDetail)
    : list MetricsWithStatistics :=
  let keep := [mkMWS listMetric (Statistics configPerNamespace)] in
  match Names configPerNamespace, nd_Dimensions configPerNamespace with
  | Some names, None => if StringInSlice (MetricName listMetric) names then keep else []
  | None, Some dims => if CompareAWSDimensions (Dimensions listMetric) dims then keep else []
  | Some names, Some dims =>
      if StringInSlice (MetricName listMetric) names
      then if CompareAWSDimensions (Dimensions listMetric) dims then keep else []
      else []
  | None, None => keep
  end.

Definition FilterListMetricsOutput (listMetricsOutput : list Metric)
    (namespaceDetails : list NamespaceDetail) : list MetricsWithStatistics :=
  concat (map (fun listMetric => concat (map (filter_one listMetric) namespaceDetails))
            listMetricsOutput).

Definition ConstructTagsFilters (namespaceDetails : list NamespaceDetail)
    : gmap string (list Tag) :=
  fold_left (fun rttf configPerNamespace =>
      let rt := ResourceTypeFilter configPerNamespace in
      if String.eqb rt "" then rttf
      else match rttf !! rt with
           | Some tags => <[rt := (tags ++ Tags configPerNamespace)%list]> rttf
           | None => <[rt := Tags configPerNamespace]> rttf
           end)
    namespaceDetails ∅.

(** ** Reading labels back *)

(** [strings.Contains(s, string(c))] for one byte [c]. *)
Fixpoint has_char (c : ascii) (s : string) : bool :=
  match s with
  | EmptyString => false
  | String a s' => if ascii_dec a c then true else has_char c s'
  end.

(** Number of occurrences of the byte [c] in [s]. *)
Fixpoint count_char (c : ascii) (s : string) : nat :=
  match s with
  | EmptyString => 0
  | String a s' => if ascii_dec a c then S (count_char c s') else count_char c s'
  end.

(** [strings.Join(l, ",")]: the comma-joined list of the spec. *)
Definition join (l : list string) : string := String.concat (String dimensionSeparator "") l.

(** The fields a label is meant to carry: [metricName|namespace|statistic],
    followed by [|dimNames|dimValues] when both joins are non-empty. *)
Definition label_fields (metric : Metric) (statistic : string) : list string :=
  let jn := join (map Name (Dimensions metric)) in
  let jv := join (map Value (Dimensions metric)) in
  if negb (String.eqb jn "") && negb (String.eqb jv "")
  then [MetricName metric; Namespace metric; statistic; jn; jv]
  else [MetricName metric; Namespace metric; statistic].

(** ** Dimension matching as the spec words it *)

(** The value a name-to-value mapping built from [d] gives to [name]: a
    later pair for the same name replaces an earlier one. *)
Fixpoint last_value (d : list Dimension) (name : string) : option string :=
  match d with
  | [] => None
  | x :: rest =>
      match last_value rest name with
      | Some v => Some v
      | None => if String.eqb (Name x) name then Some (Value x) else None
      end
  end.

(** Wildcard resolution: a wildcard value of the spec's (second) mapping is
    replaced by the discovered (first) mapping's value for that name. *)
Definition resolve_lookup (o1 o2 : option string) : option string :=
  match o2 with
  | Some v2 =>
      if String.eqb v2 dimensionValueWildcard
      then match o1 with Some v1 => Some v1 | None => Some v2 end
      else Some v2
  | None => None
  end.

(** Spec: "two dimension sets match iff they have equal cardinality and,
    after resolving wildcards, produce identical name-to-value mappings". *)
Definition spec_dimensions_match (dim1 dim2 : list Dimension) : Prop :=
  length dim1 = length dim2 /\
  forall name, last_value dim1 name = resolve_lookup (last_value dim1 name) (last_value dim2 name).

(** ** Events *)

(** A value stored in [RootFields]: a metric value, a string or a nested
    [mapstr.M]. *)
Inductive FVal :=
| VNum (v : Z)
| VStr (s : string)
| VMap (m : gmap string FVal).

(** [mb.Event]: its [RootFields] and its [Timestamp]. *)
Record Event := mkEvent {
  RootFields : gmap string FVal;
  Timestamp : Z
}.

(** [idx := strings.IndexRune(key, '.')] and the pair [key[:idx]],
    [key[idx+1:]]; [None] when [idx < 0]. *)
Fixpoint split_dot (key : string) : option (string * string) :=
  match key with
  | EmptyString => None
  | String a rest =>
      if ascii_dec a "." then Some ("", rest)
      else match split_dot rest with
           | Some (k, r) => Some (String a k, r)
           | None => None
           end
  end.

(** [mapstr.M.Put(key, value)]: [mapFind(key, data, true)] then
    [d[k] = value].  At each level an existing entry named by the whole
    remaining key is replaced; otherwise the key is split at its first
    ['.'], a missing map is created and the search descends; a non-map
    value in the way is the error ([None]).  Each level consumes one ['.'],
    so [fuel] = [len(key)] never runs out. *)
Fixpoint map_put (fuel : nat) (data : gmap string FVal) (key : string) (value : FVal)
    : option (gmap string FVal) :=
  match data !! key with
  | Some _ => Some (<[key := value]> data)
  | None =>
      match split_dot key with
      | None => Some (<[key := value]> data)
      | Some (k, rest) =>
          match fuel with
          | O => None
          | S fuel' =>
              match data !! k with
              | None => sub ← map_put fuel' ∅ rest value; Some (<[k := VMap sub]> data)
              | Some (VMap d) => sub ← map_put fuel' d rest value; Some (<[k := VMap sub]> data)
              | Some _ => None
              end
          end
      end
  end.

Definition MapPut (data : gmap string FVal) (key : string) (value : FVal)
    : option (gmap string FVal) :=
  map_put (String.length key) data key value.

(** [mapstr.M.GetValue(key)]: [mapFind(key, data, false)]; [None] is
    [ErrKeyNotFound] or a non-map value in the way. *)
Fixpoint map_get (fuel : nat) (data : gmap string FVal) (key : string) : option FVal :=
  match data !! key with
  | Some v => Some v
  | None =>
      match split_dot key with
      | None => None
      | Some (k, rest) =>
          match fuel with
          | O => None
          | S fuel' =>
              match data !! k with
              | Some (VMap d) => map_get fuel' d rest
              | _ => None
              end
          end
      end
  end.

Definition GetValue (data : gmap string FVal) (key : string) : option FVal :=
  map_get (String.length key) data key.

(** [_, _ = event.RootFields.Put(key, value)]: the error is discarded, and
    a failed [Put] leaves the map as it was. *)
Definition Put (key : string) (value : FVal) (event : Event) : Event :=
  match MapPut (RootFields event) key value with
  | Some m => mkEvent m (Timestamp event)
  | None => event
  end.

(** Maps whose keys, at every level, contain no ['.']: the maps [Put]
    builds from maps of this kind. *)
Inductive wf_val : FVal -> Prop :=
| wf_num v : wf_val (VNum v)
| wf_str s : wf_val (VStr s)
| wf_vmap m : (forall k v, m !! k = Some v -> has_char "." k = false /\ wf_val v) ->
              wf_val (VMap m).

Definition wf_map (m : gmap string FVal) : Prop :=
  forall k v, m !! k = Some v -> has_char "." k = false /\ wf_val v.

Definition is_map (v : FVal) : bool :=
  match v with
  | VMap _ => true
  | _ => false
  end.

(** [Put] and [GetValue] on such maps, over the list of the ['.']-separated
    segments [k :: ks] of the key. *)
Fixpoint put_path (m : gmap string FVal) (k : string) (ks : list string) (v : FVal)
    : option (gmap string FVal) :=
  match ks with
  | [] => Some (<[k := v]> m)
  | k' :: ks' =>
      match m !! k with
      | None => sub ← put_path ∅ k' ks' v; Some (<[k := VMap sub]> m)
      | Some (VMap d) => sub ← put_path d k' ks' v; Some (<[k := VMap sub]> m)
      | Some _ => None
      end
  end.

Fixpoint get_path (m : gmap string FVal) (k : string) (ks : list string) : option FVal :=
  match ks with
  | [] => m !! k
  | k' :: ks' =>
      match m !! k with
      | Some (VMap d) => get_path d k' ks'
      | _ => None
      end
  end.

(** No value other than a map sits at the path [k :: ks]: a [Put] below it
    can go through. *)
Definition no_leaf_at (m : gmap string FVal) (k : string) (ks : list string) : Prop :=
  forall x, get_path m k ks = Some x -> is_map x = true.

(** Fields that can take [aws.cloudwatch.namespace]: dot-free keys and
    nothing but maps at [aws] and [aws.cloudwatch]. *)
Definition fields_ready (m : gmap string FVal) : Prop :=
  wf_map m /\ no_leaf_at m "aws" [] /\ no_leaf_at m "aws" ["cloudwatch"].

(** ... and that carry it, as a string. *)
Definition has_namespace (m : gmap string FVal) : Prop :=
  fields_ready m /\ exists ns, get_path m "aws" ["cloudwatch"; "namespace"] = Some (VStr ns).

(** [types.MetricDataResult]. *)
Record MetricDataResult := mkMetricDataResult {
  ResultLabel : string;
  Timestamps : list Z;
  Values : list Z
}.

(** Outcome of a Go function returning an error, or panicking. *)
Inductive GoResult (A : Type) :=
| Ok (a : A)
| Err (msg : string)
| Panic.
Arguments Ok {A} a.
Arguments Err {A} msg.
Arguments Panic {A}.

Global Instance GoResult_ret : MRet GoResult := fun _ a => Ok a.
Global Instance GoResult_bind : MBind GoResult := fun A B f m =>
  match m with
  | Ok a => f a
  | Err e => Err e
  | Panic => Panic
  end.

(** An index expression of Go: out of range is a panic. *)
Definition index {A} (o : option A) : GoResult A :=
  match o with
  | Some a => Ok a
  | None => Panic
  end.

(** The loop [for _, x := range xs { ... }] threading [acc]. *)
Fixpoint go_fold {A B} (body : B -> A -> GoResult B) (xs : list A) (acc : B)
    : GoResult B :=
  match xs with
  | [] => Ok acc
  | x :: rest => acc' ← body acc x; go_fold body rest acc'
  end.

Section Metricset.

(** [aws.InitEvent(regionName, accountName, accountID, timestamp)]. *)
Variable InitEvent : string -> string -> string -> Z -> Event.
(** [aws.FindTimestamp]; the zero time is [0]. *)
Variable FindTimestamp : list MetricDataResult -> Z.
(** [aws.CheckTimestampInArray(timestamp, timestamps)]. *)
Variable CheckTimestampInArray : Z -> list Z -> bool * nat.
(** [aws.CheckTagFiltersExist(tagsFilter, tags)]. *)
Variable CheckTagFiltersExist : list Tag -> list Tag -> bool.
(** [aws.FindShortIdentifierFromARN]; [None] is a non-nil error. *)
Variable FindShortIdentifierFromARN : string -> option string.
(** [common.DeDot]. *)
Variable DeDot : string -> string.
(** [addMetadata(namespace, regionName, ..., events)] (its error is only
    logged by [Fetch]). *)
Variable addMetadata : string -> string -> gmap string Event -> gmap string Event.
(** [m.AccountID], [m.AccountName] and [int32(m.Period.Seconds())]. *)
Variable AccountID AccountName : string.
Variable periodInSec : Z.

(** *** [GenerateFieldName], [StripNamespace], [InsertRootFields] *)

Definition StripNamespace (namespace : string) : string :=
  let parts := Split "/"%char namespace in
  ToLower (default "" (last parts)).

Definition GenerateFieldName (namespace : string) (labels : list string)
    : option string :=
  stat ← labels !! statisticIdx;
  let statMethod := fst (StatisticLookup stat) in
  metricName ← labels !! metricNameIdx;
  Some ("aws." +:+ StripNamespace namespace +:+ ".metrics." +:+ DeDot metricName
        +:+ "." +:+ statMethod).

(** [for i := 0; i < len(dimNames); i++ { Put(..dimNames[i], dimValues[i]) }]. *)
Fixpoint insert_dimensions_loop (dimNames : list string) (i : nat)
    (dimValues : list string) (event : Event) : option Event :=
  match dimNames with
  | [] => Some event
  | dimName :: rest =>
      dimValue ← dimValues !! i;
      insert_dimensions_loop rest (S i) dimValues
        (Put ("aws.dimensions." +:+ dimName) (VStr dimValue) event)
  end.

Definition InsertRootFields (event : Event) (metricValue : Z) (labels : list string)
    : option Event :=
  namespace ← labels !! namespaceIdx;
  fieldName ← GenerateFieldName namespace labels;
  let event := Put fieldName (VNum metricValue) event in
  let event := Put "aws.cloudwatch.namespace" (VStr namespace) event in
  if Nat.eqb (length labels) 3 then Some event
  else
    names ← labels !! identifierNameIdx;
    values ← labels !! identifierValueIdx;
    let dimNames := Split ","%char names in
    let dimValues := Split ","%char values in
    insert_dimensions_loop dimNames 0 dimValues event.

(** *** [InsertTags] *)

(** [resourceTagMap[v]]: a missing key reads as a nil slice. *)
Definition tags_of (resourceTagMap : gmap string (list Tag)) (v : string) : list Tag :=
  default [] (resourceTagMap !! v).

(** The tags found for one sub-identifier, with the ARN fallback. *)
Definition sub_identifier_tags (resourceTagMap : gmap string (list Tag)) (v : string)
    : list Tag :=
  let tags := tags_of resourceTagMap v in
  if Nat.eqb (length tags) 0 && HasPrefix v "arn:" then
    match FindShortIdentifierFromARN v with
    | Some resourceID => tags_of resourceTagMap resourceID
    | None => tags
    end
  else tags.

(** [events[identifier].RootFields.Put(key, value)]: the map inside the
    stored event is updated in place; a missing event has a nil
    [RootFields], and writing into it panics. *)
Definition put_event (identifier key : string) (value : FVal)
    (events : gmap string Event) : option (gmap string Event) :=
  match events !! identifier with
  | Some ev => Some (<[identifier := Put key value ev]> events)
  | None => None
  end.

Fixpoint put_tags (identifier : string) (tags : list Tag) (events : gmap string Event)
    : option (gmap string Event) :=
  match tags with
  | [] => Some events
  | tag :: rest =>
      events' ← put_event identifier ("aws.tags." +:+ DeDot (Key tag)) (VStr (TagValue tag)) events;
      put_tags identifier rest events'
  end.

Fixpoint insert_tags_loop (identifier : string) (resourceTagMap : gmap string (list Tag))
    (subIdentifiers : list string) (events : gmap string Event)
    : option (gmap string Event) :=
  match subIdentifiers with
  | [] => Some events
  | v :: rest =>
      let tags := sub_identifier_tags resourceTagMap v in
      events' ← (if negb (Nat.eqb (length tags) 0) then put_tags identifier tags events
                 else Some events);
      insert_tags_loop identifier resourceTagMap rest events'
  end.

Definition InsertTags (events : gmap string Event) (identifier : string)
    (resourceTagMap : gmap string (list Tag)) : option (gmap string Event) :=
  insert_tags_loop identifier resourceTagMap (Split dimensionSeparator identifier) events.

(** *** [createEvents] *)

(** The fallback identity [regionName + m.AccountID + labels[namespaceIdx]]. *)
Definition fallback_identifier (regionName namespace : string) : string :=
  regionName +:+ AccountID +:+ namespace.

(** [if _, ok := events[id]; !ok { events[id] = aws.InitEvent(...) }] then
    [events[id] = InsertRootFields(events[id], value, labels)]. *)
Definition upsert_event (regionName : string) (timestamp : Z) (identifier : string)
    (value : Z) (labels : list string) (events : gmap string Event)
    : GoResult (gmap string Event) :=
  let event := match events !! identifier with
               | Some ev => ev
               | None => InitEvent regionName AccountName AccountID timestamp
               end in
  event' ← index (InsertRootFields event value labels);
  Ok (<[identifier := event']> events).

(** Body of the loop over [metricDataResults] when no resource type or tag
    filter is given. *)
Definition step_nofilter (regionName : string) (timestamp : Z)
    (events : gmap string Event) (metricDataResult : MetricDataResult)
    : GoResult (gmap string Event) :=
  if Nat.eqb (length (Values metricDataResult)) 0 then Ok events
  else
    let '(exists_, timestampIdx) :=
      CheckTimestampInArray timestamp (Timestamps metricDataResult) in
    if negb exists_ then Ok events
    else
      let labels := Split labelSeparator (ResultLabel metricDataResult) in
      if negb (Nat.eqb (length labels) 5) then
        namespace ← index (labels !! namespaceIdx);
        let identifier := fallback_identifier regionName namespace in
        value ← index (Values metricDataResult !! timestampIdx);
        upsert_event regionName timestamp identifier value labels events
      else
        identifierValue ← index (labels !! identifierValueIdx);
        value ← index (Values metricDataResult !! timestampIdx);
        upsert_event regionName timestamp identifierValue value labels events.

(** Body of the loop over [metricDataResults] inside the pass of one
    resource type with its [tagsFilter]. *)
Definition step_tags (regionName : string) (timestamp : Z) (tagsFilter : list Tag)
    (resourceTagMap : gmap string (list Tag))
    (events : gmap string Event) (output : MetricDataResult)
    : GoResult (gmap string Event) :=
  if Nat.eqb (length (Values output)) 0 then Ok events
  else
    let '(exists_, timestampIdx) := CheckTimestampInArray timestamp (Timestamps output) in
    if negb exists_ then Ok events
    else
      let labels := Split labelSeparator (ResultLabel output) in
      if negb (Nat.eqb (length labels) 5) then
        if negb (Nat.eqb (length tagsFilter) 0) then Ok events
        else
          namespace ← index (labels !! namespaceIdx);
          let identifier := fallback_identifier regionName namespace in
          value ← index (Values output !! timestampIdx);
          upsert_event regionName timestamp identifier value labels events
      else
        identifierValue ← index (labels !! identifierValueIdx);
        if bool_decide (events !! identifierValue = None)
           && negb (Nat.eqb (length tagsFilter) 0)
           && bool_decide (resourceTagMap !! identifierValue = None)
        then Ok events
        else
          value ← index (Values output !! timestampIdx);
          events' ← upsert_event regionName timestamp identifierValue value labels events;
          index (InsertTags events' identifierValue resourceTagMap).

(** One iteration of [for resourceType, tagsFilter := range resourceTypeTagFilters];
    [getResourcesTags] is [aws.GetResourcesTags] on the region's client: its
    error is only logged. *)
Definition tags_pass (regionName : string) (timestamp : Z)
    (metricDataResults : list MetricDataResult)
    (getResourcesTags : string -> gmap string (list Tag) * option string)
    (events : gmap string Event) (rt_filter : string * list Tag)
    : GoResult (gmap string Event) :=
  let '(resourceType, tagsFilter) := rt_filter in
  let '(resourceTagMap, _) := getResourcesTags resourceType in
  if negb (Nat.eqb (length tagsFilter) 0) && Nat.eqb (size resourceTagMap) 0 then Ok events
  else
    let resourceTagMap :=
      filter (fun kv : string * list Tag => CheckTagFiltersExist tagsFilter kv.2 = true)
        resourceTagMap in
    go_fold (step_tags regionName timestamp tagsFilter resourceTagMap) metricDataResults events.

(** [m.createEvents]; [getMetricData] is [aws.GetMetricDataResults] on the
    region's client, returning the results or an error. *)
Definition createEvents
    (getMetricData : list MetricDataQuery -> list MetricDataResult + string)
    (getResourcesTags : string -> gmap string (list Tag) * option string)
    (listMetricWithStatsTotal : list MetricsWithStatistics)
    (resourceTypeTagFilters : gmap string (list Tag)) (regionName : string)
    : GoResult (gmap string Event) :=
  let metricDataQueries := CreateMetricDataQueries listMetricWithStatsTotal periodInSec in
  if Nat.eqb (length metricDataQueries) 0 then Ok ∅
  else
    match getMetricData metricDataQueries with
    | inr e => Err ("getMetricDataResults failed: " +:+ e)
    | inl metricDataResults =>
        let timestamp := FindTimestamp metricDataResults in
        if Z.eqb timestamp 0 then Ok ∅
        else if Nat.eqb (size resourceTypeTagFilters) 0 then
          go_fold (step_nofilter regionName timestamp) metricDataResults ∅
        else
          go_fold (tags_pass regionName timestamp metricDataResults getResourcesTags)
            (map_to_list resourceTypeTagFilters) ∅
    end.

(** *** [Fetch] *)

(** The external calls of one invocation, per region:
    [aws.GetMetricDataResults], [aws.GetResourcesTags] and
    [aws.GetListMetricsOutput]. *)
Record Remote := mkRemote {
  getMetricData : string -> list MetricDataQuery -> list MetricDataResult + string;
  getResourcesTags : string -> string -> gmap string (list Tag) * option string;
  listMetrics : string -> string -> list Metric + string
}.

(** [for _, event := range eventsWithIdentifier { report.Event(event) }]. *)
Definition report (emitted : list Event) (events : gmap string Event) : list Event :=
  (emitted ++ (map snd (map_to_list events)))%list.

(** The loop over regions for [listMetricDetailTotal]. *)
Fixpoint exact_loop (remote : Remote) (lmd : ListMetricWithDetail)
    (regions : list string) (emitted : list Event) : list Event * GoResult unit :=
  match regions with
  | [] => (emitted, Ok tt)
  | regionName :: rest =>
      match createEvents (getMetricData remote regionName) (getResourcesTags remote regionName)
              (MetricsWithStats lmd) (ResourceTypeFilters lmd) regionName with
      | Ok eventsWithIdentifier => exact_loop remote lmd rest (report emitted eventsWithIdentifier)
      | Err e => (emitted, Err ("createEvents failed for region " +:+ regionName +:+ ": " +:+ e))
      | Panic => (emitted, Panic)
      end
  end.

(** The loop [for namespace, namespaceDetails := range namespaceDetailTotal]
    inside one region. *)
Fixpoint namespace_loop (remote : Remote) (regionName : string)
    (nss : list (string * list NamespaceDetail)) (emitted : list Event)
    : list Event * GoResult unit :=
  match nss with
  | [] => (emitted, Ok tt)
  | (namespace, namespaceDetails) :: rest =>
      match listMetrics remote regionName namespace with
      | inr _ => namespace_loop remote regionName rest emitted
      | inl listMetricsOutput =>
          if Nat.eqb (length listMetricsOutput) 0 then namespace_loop remote regionName rest emitted
          else
            let filteredMetricWithStatsTotal :=
              FilterListMetricsOutput listMetricsOutput namespaceDetails in
            let resourceTypeTagFilters := ConstructTagsFilters namespaceDetails in
            match createEvents (getMetricData remote regionName)
                    (getResourcesTags remote regionName)
                    filteredMetricWithStatsTotal resourceTypeTagFilters regionName with
            | Ok eventsWithIdentifier =>
                let events := addMetadata namespace regionName eventsWithIdentifier in
                namespace_loop remote regionName rest (report emitted events)
            | Err e =>
                (emitted, Err ("createEvents failed for region " +:+ regionName +:+ ": " +:+ e))
            | Panic => (emitted, Panic)
            end
      end
  end.

(** The loop over regions for [namespaceDetailTotal]. *)
Fixpoint region_loop (remote : Remote) (namespaceDetailTotal : gmap string (list NamespaceDetail))
    (regions : list string) (emitted : list Event) : list Event * GoResult unit :=
  match regions with
  | [] => (emitted, Ok tt)
  | regionName :: rest =>
      match namespace_loop remote regionName (map_to_list namespaceDetailTotal) emitted with
      | (emitted', Ok _) => region_loop remote namespaceDetailTotal rest emitted'
      | r => r
      end
  end.

(** [m.Fetch]: the events reported, in order, and the returned error. *)
Definition Fetch (remote : Remote) (regions : list string) (tagsFilter : list Tag)
    (configs : list Config) : list Event * GoResult unit :=
  match checkStatistics configs with
  | Some e => ([], Err ("checkStatistics failed: " +:+ e))
  | None =>
      let '(listMetricDetailTotal, namespaceDetailTotal) :=
        readCloudwatchConfig tagsFilter configs in
      let exact :=
        if negb (Nat.eqb (length (MetricsWithStats listMetricDetailTotal)) 0)
        then exact_loop remote listMetricDetailTotal regions []
        else ([], Ok tt) in
      match exact with
      | (emitted, Ok _) => region_loop remote namespaceDetailTotal regions emitted
      | r => r
      end
  end.

(** *** Relating two sets of external calls *)

(** Two answers of [aws.GetListMetricsOutput] that lead [Fetch] the same
    way: an error is handled as an empty list. *)
Definition lm_equiv (x y : list Metric + string) : Prop :=
  match x, y with
  | inl a, inl b => a = b
  | inl a, inr _ => a = []
  | inr _, inl b => b = []
  | inr _, inr _ => True
  end.

(** The same metric data, the same tag maps whatever the error component of
    [GetResourcesTags], and equivalent metric lists. *)
Definition remote_equiv (r1 r2 : Remote) : Prop :=
  (forall regionName, getMetricData r1 regionName = getMetricData r2 regionName) /\
  (forall regionName resourceType,
     fst (getResourcesTags r1 regionName resourceType)
     = fst (getResourcesTags r2 regionName resourceType)) /\
  (forall regionName namespace,
     lm_equiv (listMetrics r1 regionName namespace) (listMetrics r2 regionName namespace)).

(** [remote] with the [ListMetrics] answer for one region and namespace
    replaced by [v]. *)
Definition with_listMetrics (remote : Remote) (regionName namespace : string)
    (v : list Metric + string) : Remote :=
  mkRemote (getMetricData remote) (getResourcesTags remote)
    (fun r ns => if String.eqb r regionName && String.eqb ns namespace then v
                 else listMetrics remote r ns).

(** [remote] whose [GetResourcesTags] never reports an error. *)
Definition drop_tag_errors (remote : Remote) : Remote :=
  mkRemote (getMetricData remote)
    (fun r rt => (fst (getResourcesTags remote r rt), None))
    (listMetrics remote).

(** *** Sample instances of the external calls, for concrete runs *)

Fixpoint sample_index_of (t : Z) (ts : list Z) (i : nat) : bool * nat :=
  match ts with
  | [] => (false, 0%nat)
  | x :: rest => if Z.eqb x t then (true, i) else sample_index_of t rest (S i)
  end.

Definition sample_InitEvent (regionName accountName accountID : string) (timestamp : Z)
    : Event :=
  Put "cloud.account.id" (VStr accountID)
    (Put "cloud.region" (VStr regionName)
       (Put "cloud.provider" (VStr "aws") (mkEvent ∅ timestamp))).

Definition sample_FindTimestamp (results : list MetricDataResult) : Z :=
  match results with
  | r :: _ => match Timestamps r with t :: _ => t | [] => 0%Z end
  | [] => 0%Z
  end.

Definition sample_CheckTimestampInArray (t : Z) (ts : list Z) : bool * nat :=
  sample_index_of t ts 0.

Definition sample_CheckTagFiltersExist (tagsFilter tags : list Tag) : bool :=
  forallb (fun f => existsb (fun t => String.eqb (Key t) (Key f)
                                      && String.eqb (TagValue t) (TagValue f)) tags)
    tagsFilter.

Definition sample_FindShortIdentifierFromARN (arn : string) : option string := None.

Definition sample_DeDot (s : string) : string := s.

Definition sample_addMetadata (namespace regionName : string) (events : gmap string Event)
    : gmap string Event := events.

(** Every query answered with one value at time 100, except in
    us-east-1, where [GetMetricData] fails. *)
Definition sample_remote : Remote :=
  mkRemote
    (fun regionName queries =>
       if String.eqb regionName "us-east-1" then inr "throttled"
       else inl (map (fun q => mkMetricDataResult (Label q) [100%Z] [42%Z]) queries))
    (fun _ _ => (∅, None))
    (fun _ _ => inl []).

Definition sample_configs : list Config :=
  [mkConfig "AWS/EC2" (Some ["CPUUtilization"]) (Some [mkDimension "InstanceId" "i-1"]) ""
     (Some ["Average"])].

(** ** Lemmas on strings *)

Lemma string_app_assoc (a b c : string) : (a +:+ b) +:+ c = a +:+ (b +:+ c).
Proof. induction a as [|x a IH]; simpl; [reflexivity | now rewrite IH]. Qed.

Lemma string_app_nil_r (a : string) : a +:+ "" = a.
Proof. induction a as [|x a IH]; simpl; [reflexivity | now rewrite IH]. Qed.

Lemma has_char_app (c : ascii) (a b : string) :
  has_char c (a +:+ b) = has_char c a || has_char c b.
Proof.
  induction a as [|x a IH]; simpl; [reflexivity|].
  destruct (ascii_dec x c); [reflexivity | exact IH].
Qed.

Lemma count_char_app (c : ascii) (a b : string) :
  count_char c (a +:+ b) = (count_char c a + count_char c b)%nat.
Proof.
  induction a as [|x a IH]; simpl; [reflexivity|].
  destruct (ascii_dec x c); rewrite IH; reflexivity.
Qed.

Lemma Split_nochar (c : ascii) (s : string) :
  has_char c s = false -> Split c s = [s].
Proof.
  induction s as [|a s IH]; simpl; [reflexivity|].
  destruct (ascii_dec a c); [discriminate|].
  intros H. rewrite (IH H). reflexivity.
Qed.

Lemma Split_app_sep (c : ascii) (a b : string) :
  has_char c a = false -> Split c (a +:+ String c b) = a :: Split c b.
Proof.
  induction a as [|x a IH]; simpl.
  - intros _. destruct (ascii_dec c c); [reflexivity | congruence].
  - destruct (ascii_dec x c); [discriminate|].
    intros H. rewrite (IH H). reflexivity.
Qed.

Lemma Split_length (c : ascii) (s : string) :
  length (Split c s) = S (count_char c s).
Proof.
  induction s as [|a s IH]; simpl; [reflexivity|].
  destruct (ascii_dec a c); simpl; [now rewrite IH|].
  destruct (Split c s) as [|h t]; simpl in *; congruence.
Qed.

Lemma Split_concat (c : ascii) (l : list string) :
  l <> [] -> Forall (fun s => has_char c s = false) l ->
  Split c (String.concat (String c "") l) = l.
Proof.
  induction l as [|x l IH]; [congruence|].
  intros _ Hl. inversion Hl as [|? ? Hx Hrest]; subst.
  destruct l as [|y l].
  - simpl. now apply Split_nochar.
  - change (String.concat (String c "") (x :: y :: l))
      with (x +:+ String c (String.concat (String c "") (y :: l))).
    rewrite (Split_app_sep c x _ Hx). f_equal. apply IH; [congruence | exact Hrest].
Qed.

Lemma has_char_concat (c : ascii) (sep : string) (l : list string) :
  has_char c sep = false -> Forall (fun s => has_char c s = false) l ->
  has_char c (String.concat sep l) = false.
Proof.
  intros Hsep. induction l as [|x l IH]; intros Hl; [reflexivity|].
  inversion Hl as [|? ? Hx Hrest]; subst.
  destruct l as [|y l]; [exact Hx|].
  change (String.concat sep (x :: y :: l)) with (x +:+ (sep +:+ String.concat sep (y :: l))).
  rewrite !has_char_app, Hx, Hsep, (IH Hrest). reflexivity.
Qed.

Lemma count_char_concat (c : ascii) (l : list string) :
  l <> [] -> (length l <= S (count_char c (String.concat (String c "") l)))%nat.
Proof.
  induction l as [|x l IH]; [congruence|]. intros _.
  destruct l as [|y l]; [simpl; lia|].
  change (length (x :: y :: l)) with (S (length (y :: l))).
  change (String.concat (String c "") (x :: y :: l))
    with (x +:+ String c (String.concat (String c "") (y :: l))).
  rewrite count_char_app. simpl. destruct (ascii_dec c c); [|congruence].
  specialize (IH ltac:(congruence)). simpl in IH. lia.
Qed.

(** ** [mapstr.M.Put] and [GetValue] on maps with dot-free keys *)

Lemma split_dot_none (s : string) : split_dot s = None -> has_char "." s = false.
Proof.
  induction s as [|a s IH]; simpl; [reflexivity|].
  destruct (ascii_dec a "."); [discriminate|].
  destruct (split_dot s) as [[k r]|]; [discriminate|]. intros _. apply IH. reflexivity.
Qed.

Lemma split_dot_some (s k r : string) :
  split_dot s = Some (k, r) -> s = k +:+ String "." r /\ has_char "." k = false.
Proof.
  revert k. induction s as [|a s IH]; intros k; simpl; [discriminate|].
  destruct (ascii_dec a "."); [intros [= <- <-]; subst; split; reflexivity|].
  destruct (split_dot s) as [[k' r']|] eqn:E; [|discriminate]. intros [= <- <-].
  destruct (IH k' eq_refl) as [-> H]. simpl. split; [reflexivity|].
  destruct (ascii_dec a "."); [contradiction | exact H].
Qed.

Lemma Split_elems_nochar (c : ascii) (s : string) :
  Forall (fun p => has_char c p = false) (Split c s).
Proof.
  induction s as [|a s IH]; simpl; [repeat constructor|].
  destruct (ascii_dec a c); [constructor; [reflexivity | exact IH]|].
  destruct (Split c s) as [|h t]; [repeat constructor; simpl; destruct (ascii_dec a c); congruence|].
  inversion IH as [|? ? Hh Ht]; subst. constructor; [|exact Ht].
  simpl. destruct (ascii_dec a c); [congruence | exact Hh].
Qed.

Lemma count_char_le_length (c : ascii) (s : string) : (count_char c s <= String.length s)%nat.
Proof. induction s as [|a s IH]; simpl; [lia|]. destruct (ascii_dec a c); lia. Qed.

Lemma wf_map_empty : wf_map ∅.
Proof. intros k v H. rewrite lookup_empty in H. discriminate. Qed.

Lemma wf_map_insert (m : gmap string FVal) (k : string) (v : FVal) :
  wf_map m -> has_char "." k = false -> wf_val v -> wf_map (<[k := v]> m).
Proof.
  intros Hm Hk Hv k' v' H. destruct (decide (k = k')) as [<-|Hne].
  - rewrite lookup_insert_eq in H. injection H as <-. split; assumption.
  - rewrite lookup_insert_ne in H by exact Hne. apply Hm, H.
Qed.

Lemma wf_map_sub (m d : gmap string FVal) (k : string) :
  wf_map m -> m !! k = Some (VMap d) -> wf_map d.
Proof. intros Hm Hk. destruct (Hm k _ Hk) as [_ Hv]. inversion Hv; subst. assumption. Qed.

Lemma Split_nonempty (c : ascii) (s : string) : Split c s <> [].
Proof.
  destruct s as [|a s]; simpl; [discriminate|].
  destruct (ascii_dec a c); [discriminate|]. destruct (Split c s); discriminate.
Qed.

Lemma map_put_path (fuel : nat) (m : gmap string FVal) (key : string) (v : FVal)
    (k : string) (ks : list string) :
  wf_map m -> (count_char "." key <= fuel)%nat -> Split "." key = k :: ks ->
  map_put fuel m key v = put_path m k ks v.
Proof.
  revert m key k ks. induction fuel as [|fuel IH]; intros m key k ks Hm Hf Hs; simpl.
  all: destruct (m !! key) as [x|] eqn:Ex.
  all: try (destruct (Hm key x Ex) as [Hdot _];
            rewrite (Split_nochar _ _ Hdot) in Hs; injection Hs as <- <-; reflexivity).
  all: destruct (split_dot key) as [[k0 r]|] eqn:Esd.
  all: try (apply split_dot_none in Esd; rewrite (Split_nochar _ _ Esd) in Hs;
            injection Hs as <- <-; reflexivity).
  all: apply split_dot_some in Esd as [-> Hk0];
       rewrite (Split_app_sep _ _ _ Hk0) in Hs; injection Hs as <- <-;
       rewrite count_char_app in Hf; simpl in Hf.
  - lia.
  - destruct (Split "." r) as [|k1 ks1] eqn:Er; [exfalso; exact (Split_nonempty _ _ Er)|].
    simpl. destruct (m !! k0) as [[z|s|d]|] eqn:Ek; try reflexivity.
    + rewrite (IH d r k1 ks1 (wf_map_sub _ _ _ Hm Ek)) by (first [lia | exact Er]). reflexivity.
    + rewrite (IH ∅ r k1 ks1 wf_map_empty) by (first [lia | exact Er]). reflexivity.
Qed.

Lemma map_get_path (fuel : nat) (m : gmap string FVal) (key : string)
    (k : string) (ks : list string) :
  wf_map m -> (count_char "." key <= fuel)%nat -> Split "." key = k :: ks ->
  map_get fuel m key = get_path m k ks.
Proof.
  revert m key k ks. induction fuel as [|fuel IH]; intros m key k ks Hm Hf Hs; simpl.
  all: destruct (m !! key) as [x|] eqn:Ex.
  all: try (destruct (Hm key x Ex) as [Hdot _];
            rewrite (Split_nochar _ _ Hdot) in Hs; injection Hs as <- <-; simpl; rewrite Ex; reflexivity).
  all: destruct (split_dot key) as [[k0 r]|] eqn:Esd.
  all: try (apply split_dot_none in Esd; rewrite (Split_nochar _ _ Esd) in Hs;
            injection Hs as <- <-; simpl; rewrite Ex; reflexivity).
  all: apply split_dot_some in Esd as [-> Hk0];
       rewrite (Split_app_sep _ _ _ Hk0) in Hs; injection Hs as <- <-;
       rewrite count_char_app in Hf; simpl in Hf.
  - lia.
  - destruct (Split "." r) as [|k1 ks1] eqn:Er; [exfalso; exact (Split_nonempty _ _ Er)|].
    simpl. destruct (m !! k0) as [[z|s|d]|] eqn:Ek; try reflexivity.
    apply (IH d r k1 ks1 (wf_map_sub _ _ _ Hm Ek)); [lia | exact Er].
Qed.

Lemma get_path_empty (k : string) (ks : list string) : get_path ∅ k ks = None.
Proof. destruct ks; simpl; rewrite lookup_empty; reflexivity. Qed.

Lemma get_path_insert_ne (m : gmap string FVal) (k p : string) (x : FVal) (ps : list string) :
  k <> p -> get_path (<[k := x]> m) p ps = get_path m p ps.
Proof. intros Hne. destruct ps; simpl; rewrite lookup_insert_ne by exact Hne; reflexivity. Qed.

Lemma put_path_wf (m m' : gmap string FVal) (k : string) (ks : list string) (v : FVal) :
  wf_map m -> Forall (fun s => has_char "." s = false) (k :: ks) -> wf_val v ->
  put_path m k ks v = Some m' -> wf_map m'.
Proof.
  revert m m' k. induction ks as [|k' ks IH]; intros m m' k Hm Hks Hv; simpl.
  - intros [= <-]. apply Forall_cons in Hks as [Hk _]. apply wf_map_insert; assumption.
  - apply Forall_cons in Hks as [Hk Hks].
    destruct (m !! k) as [[z|s|d]|] eqn:Ek; try discriminate.
    + destruct (put_path d k' ks v) as [sub|] eqn:Es; [|discriminate]. simpl. intros [= <-].
      apply wf_map_insert; [assumption | assumption |].
      constructor. apply (IH d sub k'); [exact (wf_map_sub _ _ _ Hm Ek) | exact Hks | exact Hv | exact Es].
    + destruct (put_path ∅ k' ks v) as [sub|] eqn:Es; [|discriminate]. simpl. intros [= <-].
      apply wf_map_insert; [assumption | assumption |].
      constructor. apply (IH ∅ sub k'); [exact wf_map_empty | exact Hks | exact Hv | exact Es].
Qed.

Lemma get_put_path_same (m m' : gmap string FVal) (k : string) (ks : list string) (v : FVal) :
  put_path m k ks v = Some m' -> get_path m' k ks = Some v.
Proof.
  revert m m' k. induction ks as [|k' ks IH]; intros m m' k; simpl.
  - intros [= <-]. apply lookup_insert_eq.
  - destruct (m !! k) as [[z|s|d]|]; try discriminate.
    + destruct (put_path d k' ks v) as [sub|] eqn:Es; [|discriminate]. simpl. intros [= <-].
      rewrite lookup_insert_eq. exact (IH _ _ _ Es).
    + destruct (put_path ∅ k' ks v) as [sub|] eqn:Es; [|discriminate]. simpl. intros [= <-].
      rewrite lookup_insert_eq. exact (IH _ _ _ Es).
Qed.

Lemma get_put_path_other (m m' : gmap string FVal) (k : string) (ks : list string) (v : FVal)
    (p : string) (ps : list string) :
  put_path m k ks v = Some m' ->
  ~ (k :: ks) `prefix_of` (p :: ps) -> ~ (p :: ps) `prefix_of` (k :: ks) ->
  get_path m' p ps = get_path m p ps.
Proof.
  revert m m' k p ps. induction ks as [|k' ks IH]; intros m m' k p ps; simpl.
  - intros [= <-] H1 H2. destruct (decide (k = p)) as [<-|Hne].
    + exfalso. apply H1. apply prefix_cons, prefix_nil.
    + apply get_path_insert_ne, Hne.
  - intros Hput H1 H2. destruct (decide (k = p)) as [<-|Hne].
    2: { destruct (m !! k) as [[z|s|d]|]; try discriminate.
         all: destruct (put_path _ k' ks v); simpl in Hput; [|discriminate].
         all: injection Hput as <-; apply get_path_insert_ne, Hne. }
    destruct ps as [|p' ps]; [exfalso; apply H2, prefix_cons, prefix_nil|].
    assert (H1' : ~ (k' :: ks) `prefix_of` (p' :: ps)) by (intros H; apply H1, prefix_cons, H).
    assert (H2' : ~ (p' :: ps) `prefix_of` (k' :: ks)) by (intros H; apply H2, prefix_cons, H).
    simpl. destruct (m !! k) as [[z|s|d]|] eqn:Ek; try discriminate.
    + destruct (put_path d k' ks v) as [sub|] eqn:Es; [|discriminate]. simpl in Hput.
      injection Hput as <-. rewrite lookup_insert_eq. exact (IH _ _ _ _ _ Es H1' H2').
    + destruct (put_path ∅ k' ks v) as [sub|] eqn:Es; [|discriminate]. simpl in Hput.
      injection Hput as <-. rewrite lookup_insert_eq. rewrite (IH _ _ _ _ _ Es H1' H2').
      apply get_path_empty.
Qed.

(** A put through a non-map value fails. *)
Lemma put_path_blocked (m : gmap string FVal) (k : string) (ks : list string) (v : FVal)
    (j : nat) (x : FVal) :
  (j < length ks)%nat -> get_path m k (take j ks) = Some x -> is_map x = false ->
  put_path m k ks v = None.
Proof.
  revert m k j. induction ks as [|k' ks IH]; intros m k j Hj Hx Hnm; simpl in *; [lia|].
  destruct j as [|j]; simpl in Hx.
  - rewrite Hx. destruct x; [reflexivity | reflexivity | discriminate].
  - destruct (m !! k) as [[z|s|d]|]; try discriminate.
    rewrite (IH d k' j) by (first [lia | exact Hx | exact Hnm]). reflexivity.
Qed.

(** A put succeeds when no proper prefix holds a non-map value. *)
Lemma put_path_ok (m : gmap string FVal) (k : string) (ks : list string) (v : FVal) :
  (forall j x, (j < length ks)%nat -> get_path m k (take j ks) = Some x -> is_map x = true) ->
  is_Some (put_path m k ks v).
Proof.
  revert m k. induction ks as [|k' ks IH]; intros m k Hok; simpl; [eauto|].
  destruct (m !! k) as [[z|s|d]|] eqn:Ek.
  - specialize (Hok 0 (VNum z)). simpl in Hok. rewrite Ek in Hok.
    discriminate (Hok ltac:(lia) eq_refl).
  - specialize (Hok 0 (VStr s)). simpl in Hok. rewrite Ek in Hok.
    discriminate (Hok ltac:(lia) eq_refl).
  - destruct (IH d k') as [sub ->]; [|simpl; eauto].
    intros j x Hj Hx. apply (Hok (S j) x); simpl; [lia|]. rewrite Ek. exact Hx.
  - destruct (IH ∅ k') as [sub ->]; [|simpl; eauto].
    intros j x Hj Hx. rewrite get_path_empty in Hx. discriminate.
Qed.

(** After a put, every proper prefix of its path holds a map. *)
Lemma put_path_prefix_map (m m' : gmap string FVal) (k : string) (ks : list string) (v : FVal)
    (j : nat) :
  put_path m k ks v = Some m' -> (j < length ks)%nat ->
  exists d, get_path m' k (take j ks) = Some (VMap d).
Proof.
  revert m m' k j. induction ks as [|k' ks IH]; intros m m' k j Hput Hj; simpl in *; [lia|].
  destruct (m !! k) as [[z|s|d]|]; try discriminate.
  all: destruct (put_path _ k' ks v) as [sub|] eqn:Es; simpl in Hput; [|discriminate].
  all: injection Hput as <-; destruct j as [|j]; simpl; rewrite lookup_insert_eq; [eauto|].
  all: apply (IH _ _ _ j Es); lia.
Qed.


Lemma prefix_same_length {A} (l1 l2 : list A) :
  l1 `prefix_of` l2 -> length l1 = length l2 -> l1 = l2.
Proof.
  intros [r ->] Hlen. rewrite length_app in Hlen.
  destruct r; [rewrite app_nil_r; reflexivity | simpl in Hlen; lia].
Qed.

Lemma no_leaf_put_path (m m' : gmap string FVal) (k : string) (ks : list string) (v : FVal)
    (p : string) (ps : list string) :
  put_path m k ks v = Some m' -> ~ (k :: ks) `prefix_of` (p :: ps) ->
  no_leaf_at m p ps -> no_leaf_at m' p ps.
Proof.
  intros Hput H1 Hn. destruct (decide ((p :: ps) `prefix_of` (k :: ks))) as [H2|H2].
  - pose proof (prefix_cons_inv_1 _ _ _ _ H2) as <-.
    apply prefix_cons_inv_2 in H2.
    assert (Hlt : (length ps < length ks)%nat).
    { pose proof (prefix_length _ _ H2) as Hle.
      destruct (decide (length ps = length ks)) as [Heq|]; [|lia].
      exfalso. apply H1. rewrite (prefix_same_length _ _ H2 Heq). reflexivity. }
    destruct H2 as [r ->].
    destruct (put_path_prefix_map _ _ _ _ _ (length ps) Hput) as [d Hd];
      [rewrite length_app in Hlt |- *; lia|].
    rewrite take_app_length in Hd. intros x Hx. rewrite Hd in Hx. injection Hx as <-. reflexivity.
  - intros x Hx. apply Hn. rewrite <- (get_put_path_other _ _ _ _ _ _ _ Hput H1 H2). exact Hx.
Qed.

Lemma Put_path (key : string) (v : FVal) (e : Event) (k : string) (ks : list string) :
  wf_map (RootFields e) -> Split "." key = k :: ks ->
  Put key v e = match put_path (RootFields e) k ks v with
                | Some m => mkEvent m (Timestamp e)
                | None => e
                end.
Proof.
  intros Hw Hs. unfold Put, MapPut.
  rewrite (map_put_path _ _ _ _ k ks Hw (count_char_le_length _ _) Hs). reflexivity.
Qed.

Lemma GetValue_path (m : gmap string FVal) (key : string) (k : string) (ks : list string) :
  wf_map m -> Split "." key = k :: ks -> GetValue m key = get_path m k ks.
Proof. intros Hw Hs. apply (map_get_path _ _ _ _ _ Hw (count_char_le_length _ _) Hs). Qed.

Lemma Put_Timestamp (key : string) (v : FVal) (e : Event) : Timestamp (Put key v e) = Timestamp e.
Proof. unfold Put. destruct (MapPut _ _ _); reflexivity. Qed.

Lemma Put_wf (key : string) (v : FVal) (e : Event) :
  wf_map (RootFields e) -> wf_val v -> wf_map (RootFields (Put key v e)).
Proof.
  intros Hw Hv. destruct (Split "." key) as [|k ks] eqn:Es; [exfalso; exact (Split_nonempty _ _ Es)|].
  rewrite (Put_path _ _ _ _ _ Hw Es).
  destruct (put_path _ k ks v) as [m|] eqn:E; [|exact Hw].
  apply (put_path_wf _ _ k ks v Hw); [rewrite <- Es; apply Split_elems_nochar | exact Hv | exact E].
Qed.

(** A [Put] whose path is longer than [p :: ps] leaves no non-map value
    there. *)
Lemma Put_no_leaf (key : string) (v : FVal) (e : Event) (p : string) (ps : list string) :
  wf_map (RootFields e) -> (length ps < length (Split "." key) - 1)%nat ->
  no_leaf_at (RootFields e) p ps -> no_leaf_at (RootFields (Put key v e)) p ps.
Proof.
  intros Hw Hlen Hn. destruct (Split "." key) as [|k ks] eqn:Es; [exfalso; exact (Split_nonempty _ _ Es)|].
  rewrite (Put_path _ _ _ _ _ Hw Es).
  destruct (put_path _ k ks v) as [m|] eqn:E; [|exact Hn].
  apply (no_leaf_put_path _ _ _ _ _ _ _ E); [|exact Hn].
  intros Hp. apply prefix_length in Hp. simpl in Hp, Hlen. lia.
Qed.

Lemma Split_three (a b n : string) :
  has_char "." a = false -> has_char "." b = false -> has_char "." n = false ->
  Split "." (a +:+ String "." (b +:+ String "." n)) = [a; b; n].
Proof.
  intros Ha Hb Hn. rewrite (Split_app_sep _ _ _ Ha), (Split_app_sep _ _ _ Hb), (Split_nochar _ _ Hn).
  reflexivity.
Qed.

(** Writes [pre + f x := g x] for the [x] of [xs] in order, where every
    [pre + n] (for [n] without ['.']) is the path [a.b.n]: each write goes
    through when nothing but maps sits at [a] and [a.b]; afterwards each
    [a.b.f x] holds the value of the last [x'] with the same name, and the
    paths away from all of them are unchanged. *)
Lemma fold_puts_under {A} (pre a b : string) (f : A -> string) (g : A -> FVal)
    (xs : list A) (ev : Event) :
  (forall n, has_char "." n = false -> Split "." (pre +:+ n) = [a; b; n]) ->
  Forall (fun x => has_char "." (f x) = false /\ wf_val (g x)) xs ->
  wf_map (RootFields ev) -> no_leaf_at (RootFields ev) a [] -> no_leaf_at (RootFields ev) a [b] ->
  let ev' := fold_left (fun e x => Put (pre +:+ f x) (g x) e) xs ev in
  wf_map (RootFields ev') /\ no_leaf_at (RootFields ev') a [] /\
  no_leaf_at (RootFields ev') a [b] /\
  (forall p ps, (forall x, In x xs ->
       ~ [a; b; f x] `prefix_of` (p :: ps) /\ ~ (p :: ps) `prefix_of` [a; b; f x]) ->
     get_path (RootFields ev') p ps = get_path (RootFields ev) p ps) /\
  (forall x, In x xs -> exists x', In x' xs /\ f x' = f x /\
     get_path (RootFields ev') a [b; f x] = Some (g x')).
Proof.
  intros Hpre. revert ev. induction xs as [|x xs IH]; intros ev Hxs Hw Ha Hb; cbv zeta.
  { simpl. split_and!; [exact Hw | exact Ha | exact Hb | reflexivity | intros x []]. }
  apply Forall_cons in Hxs as [[Hfx Hgx] Hxs]. simpl fold_left.
  rewrite (Put_path _ _ _ _ _ Hw (Hpre _ Hfx)).
  destruct (put_path_ok (RootFields ev) a [b; f x] (g x)) as [m1 Hm1].
  { intros [|[|j]] y Hj Hy; simpl in Hj; [exact (Ha y Hy) | exact (Hb y Hy) | lia]. }
  rewrite Hm1.
  set (ev1 := mkEvent m1 (Timestamp ev)).
  assert (Hw1 : wf_map (RootFields ev1)).
  { apply (put_path_wf _ _ a [b; f x] (g x) Hw); [rewrite <- (Hpre _ Hfx); apply Split_elems_nochar | exact Hgx | exact Hm1]. }
  assert (Ha1 : no_leaf_at (RootFields ev1) a []).
  { destruct (put_path_prefix_map _ _ _ _ _ 0 Hm1) as [d Hd]; [simpl; lia|].
    intros y Hy. simpl in Hd, Hy. rewrite Hd in Hy. injection Hy as <-. reflexivity. }
  assert (Hb1 : no_leaf_at (RootFields ev1) a [b]).
  { destruct (put_path_prefix_map _ _ _ _ _ 1 Hm1) as [d Hd]; [simpl; lia|].
    intros y Hy. simpl in Hd, Hy |- *. rewrite Hd in Hy. injection Hy as <-. reflexivity. }
  destruct (IH ev1 Hxs Hw1 Ha1 Hb1) as (Hw' & Ha' & Hb' & Hframe & Hlast).
  split_and!; [exact Hw' | exact Ha' | exact Hb' | |].
  - intros p ps Hps. rewrite Hframe by (intros y Hy; apply Hps; right; exact Hy).
    destruct (Hps x (or_introl eq_refl)) as [H1 H2].
    exact (get_put_path_other _ _ _ _ _ _ _ Hm1 H1 H2).
  - intros y Hy.
    destruct (decide (Exists (fun x' => f x' = f y) xs)) as [Hex|Hno].
    + apply Exists_exists in Hex as (x' & Hx' & Ef). apply list_elem_of_In in Hx'.
      destruct (Hlast x' Hx') as (x'' & Hx'' & Ef' & Hl).
      exists x''. split_and!; [right; exact Hx'' | congruence | rewrite <- Ef; exact Hl].
    + assert (x = y) as <-.
      { destruct Hy as [->|Hy]; [reflexivity|]. exfalso. apply Hno, Exists_exists.
        exists y. split; [apply list_elem_of_In; exact Hy | reflexivity]. }
      exists x. split_and!; [left; reflexivity | reflexivity |].
      rewrite Hframe.
      * exact (get_put_path_same _ _ _ _ _ Hm1).
      * intros z Hz. assert (Hne : f z <> f x).
        { intros E. apply Hno, Exists_exists. exists z. split; [apply list_elem_of_In; exact Hz | exact E]. }
        split; intros Hp; apply prefix_same_length in Hp; try reflexivity;
          injection Hp as Hp; congruence.
Qed.

(** ** [ConstructLabel] as a join of its fields *)

Lemma label_dims_loop_join (dims : list Dimension) (i : nat) (a b : string) :
  label_dims_loop dims i (i + length dims) a b
  = (a +:+ join (map Name dims), b +:+ join (map Value dims)).
Proof.
  revert i a b. induction dims as [|d ds IH]; intros i a b; simpl.
  - now rewrite !string_app_nil_r.
  - replace (i + S (length ds) - 1)%nat with (i + length ds)%nat by lia.
    destruct ds as [|d' ds].
    + simpl. rewrite Nat.add_0_r, Nat.eqb_refl. reflexivity.
    + assert (Hne : Nat.eqb i (i + length (d' :: ds)) = false)
        by (apply Nat.eqb_neq; simpl; lia).
      rewrite Hne. simpl negb. cbv iota.
      replace (i + S (length (d' :: ds)))%nat with (S i + length (d' :: ds))%nat by lia.
      rewrite IH. unfold join.
      change (String.concat (String dimensionSeparator "") (Name d :: map Name (d' :: ds)))
        with (Name d +:+ String dimensionSeparator
                (String.concat (String dimensionSeparator "") (map Name (d' :: ds)))).
      change (String.concat (String dimensionSeparator "") (Value d :: map Value (d' :: ds)))
        with (Value d +:+ String dimensionSeparator
                (String.concat (String dimensionSeparator "") (map Value (d' :: ds)))).
      rewrite !string_app_assoc. reflexivity.
Qed.

Lemma ConstructLabel_join (metric : Metric) (statistic : string) :
  ConstructLabel metric statistic
  = String.concat (String labelSeparator "") (label_fields metric statistic).
Proof.
  unfold ConstructLabel, label_fields.
  pose proof (label_dims_loop_join (Dimensions metric) 0 "" "") as H.
  simpl Nat.add in H. rewrite H. simpl String.append.
  destruct (negb _ && negb _); do 4 (simpl; rewrite ?string_app_assoc); reflexivity.
Qed.

(** ** Query identifiers *)

Lemma uint_digits_no_s (u : Decimal.uint) : has_char "s"%char (uint_digits u) = false.
Proof. induction u; simpl; assumption || reflexivity. Qed.

Lemma uint_digits_inj (u u' : Decimal.uint) : uint_digits u = uint_digits u' -> u = u'.
Proof.
  revert u'. induction u; intros u' H; destruct u'; simpl in H;
    try discriminate; try reflexivity; injection H as H; f_equal; auto.
Qed.

Lemma app_sep_cancel (c : ascii) (a a' b b' : string) :
  has_char c a = false -> has_char c a' = false ->
  a +:+ String c b = a' +:+ String c b' -> a = a' /\ b = b'.
Proof.
  revert a'. induction a as [|x a IH]; intros a' Ha Ha' H; destruct a' as [|x' a']; simpl in *.
  - injection H as H. auto.
  - injection H as Hc _. subst. destruct (ascii_dec x' x'); [discriminate | congruence].
  - injection H as Hc _. subst. destruct (ascii_dec c c); [discriminate | congruence].
  - injection H as Hx H. subst.
    destruct (ascii_dec x' c); [discriminate|].
    destruct (IH a' Ha Ha' H). split; congruence.
Qed.

Lemma query_id_inj (i j i' j' : nat) : query_id i j = query_id i' j' -> i = i' /\ j = j'.
Proof.
  unfold query_id. simpl. intros H. injection H as H.
  change ("stats" +:+ Itoa j) with (String "s" ("tats" +:+ Itoa j)) in H.
  change ("stats" +:+ Itoa j') with (String "s" ("tats" +:+ Itoa j')) in H.
  apply app_sep_cancel in H; [|apply uint_digits_no_s | apply uint_digits_no_s].
  destruct H as [Hi Hj]. simpl in Hj. injection Hj as Hj.
  unfold Itoa in *. apply uint_digits_inj in Hi, Hj.
  split; apply DecimalNat.Unsigned.to_uint_inj; assumption.
Qed.

Lemma cmdq_inner_ids (p : Z) (i j : nat) (m : Metric) (stats : list string) :
  map Id (cmdq_inner p i j m stats) = map (query_id i) (seq j (length stats)).
Proof.
  revert j. induction stats as [|s stats IH]; intros j; simpl; [reflexivity|].
  f_equal. apply IH.
Qed.

Lemma cmdq_outer_ids_in (p : Z) (i : nat) (L : list MetricsWithStatistics) (x : string) :
  In x (map Id (cmdq_outer p i L)) -> exists i' j, (i <= i')%nat /\ x = query_id i' j.
Proof.
  revert i. induction L as [|lm L IH]; intros i H; simpl in H; [contradiction|].
  rewrite map_app in H. apply in_app_or in H as [H|H].
  - rewrite cmdq_inner_ids in H. apply in_map_iff in H as (j & <- & _).
    exists i, j. auto.
  - destruct (IH (S i) H) as (i' & j & Hle & ->). exists i', j. split; [lia | reflexivity].
Qed.

Lemma cmdq_outer_nodup (p : Z) (i : nat) (L : list MetricsWithStatistics) :
  NoDup (map Id (cmdq_outer p i L)).
Proof.
  revert i. induction L as [|lm L IH]; intros i; simpl; [constructor|].
  rewrite map_app. apply NoDup_app. split_and!.
  - rewrite cmdq_inner_ids. apply NoDup_ListNoDup, Injective_map_NoDup; [|apply seq_NoDup].
    intros j j' H. apply query_id_inj in H. exact (proj2 H).
  - intros x Hx Hx'. apply list_elem_of_In in Hx, Hx'.
    rewrite cmdq_inner_ids in Hx. apply in_map_iff in Hx as (j & <- & _).
    destruct (cmdq_outer_ids_in p (S i) L _ Hx') as (i' & j' & Hle & H).
    apply query_id_inj in H. lia.
  - apply IH.
Qed.

(** ** Lemmas on [CompareAWSDimensions] *)

Lemma name_to_value_loop_lookup (d1 d2 : list Dimension) (m1 m2 : gmap string string) (k : string) :
  length d1 = length d2 ->
  (name_to_value_loop d1 d2 m1 m2).1 !! k
    = match last_value d1 k with Some v => Some v | None => m1 !! k end /\
  (name_to_value_loop d1 d2 m1 m2).2 !! k
    = match last_value d2 k with Some v => Some v | None => m2 !! k end.
Proof.
  revert d2 m1 m2. induction d1 as [|x r IH]; intros d2 m1 m2 Hlen;
    destruct d2 as [|y r']; simpl in Hlen; try discriminate; simpl; [auto|].
  injection Hlen as Hlen. destruct (IH r' (<[Name x := Value x]> m1) (<[Name y := Value y]> m2) Hlen)
    as [H1 H2].
  rewrite H1, H2. split.
  - destruct (last_value r k); [reflexivity|].
    destruct (String.eqb_spec (Name x) k) as [<-|Hne];
      [apply lookup_insert_eq | now apply lookup_insert_ne].
  - destruct (last_value r' k); [reflexivity|].
    destruct (String.eqb_spec (Name y) k) as [<-|Hne];
      [apply lookup_insert_eq | now apply lookup_insert_ne].
Qed.

Lemma wildcard_subst_fold (m1 m2 : gmap string string) (k : string) :
  map_fold wildcard_subst m2 m1 !! k = resolve_lookup (m1 !! k) (m2 !! k).
Proof.
  revert k.
  apply (map_fold_weak_ind (fun r m => forall k, r !! k = resolve_lookup (m !! k) (m2 !! k))).
  - intros k. rewrite lookup_empty. unfold resolve_lookup.
    destruct (m2 !! k) as [v|]; [destruct (String.eqb v _)|]; reflexivity.
  - intros i x m r Hmi IH k. unfold wildcard_subst.
    assert (Hri : r !! i = m2 !! i).
    { rewrite IH, Hmi. unfold resolve_lookup.
      destruct (m2 !! i) as [v|]; [destruct (String.eqb v _)|]; reflexivity. }
    destruct (String.eqb_spec i k) as [<-|Hne].
    + rewrite lookup_insert_eq, Hri. unfold resolve_lookup.
      destruct (m2 !! i) as [v2|]; [|exact Hri].
      destruct (String.eqb v2 dimensionValueWildcard); [apply lookup_insert_eq | exact Hri].
    + rewrite lookup_insert_ne by exact Hne.
      destruct (r !! i) as [v2|]; [destruct (String.eqb v2 dimensionValueWildcard)|];
        rewrite ?lookup_insert_ne by exact Hne; apply IH.
Qed.

Lemma CompareAWSDimensions_iff (dim1 dim2 : list Dimension) :
  CompareAWSDimensions dim1 dim2 = true <-> spec_dimensions_match dim1 dim2.
Proof.
  unfold CompareAWSDimensions, spec_dimensions_match.
  destruct (Nat.eqb_spec (length dim1) (length dim2)) as [Hlen|Hlen]; simpl.
  2: { split; [discriminate | intros [H _]; contradiction]. }
  pose proof (fun k => name_to_value_loop_lookup dim1 dim2 ∅ ∅ k Hlen) as Hl.
  destruct (name_to_value_loop dim1 dim2 ∅ ∅) as [m1 m2]. simpl in Hl.
  assert (H1 : forall k, m1 !! k = last_value dim1 k).
  { intros k. destruct (Hl k) as [H _]. rewrite H, lookup_empty. now destruct (last_value dim1 k). }
  assert (H2 : forall k, m2 !! k = last_value dim2 k).
  { intros k. destruct (Hl k) as [_ H]. rewrite H, lookup_empty. now destruct (last_value dim2 k). }
  rewrite bool_decide_eq_true, map_eq_iff.
  split.
  - intros H. split; [exact Hlen|]. intros k. rewrite <- H1, <- H2, <- wildcard_subst_fold. apply H.
  - intros [_ H] k. rewrite wildcard_subst_fold, H1, H2. apply H.
Qed.

Lemma last_value_no_wildcard (d : list Dimension) (k v : string) :
  ConfigDimensionValueContainsWildcard d = false -> last_value d k = Some v ->
  String.eqb v dimensionValueWildcard = false.
Proof.
  induction d as [|x r IH]; simpl; [discriminate|].
  intros Hw. apply orb_false_iff in Hw as [Hx Hr].
  destruct (last_value r k) as [v'|]; [intros [= <-]; now apply IH|].
  destruct (String.eqb (Name x) k); [intros [= <-]; exact Hx | discriminate].
Qed.

Lemma resolve_lookup_no_wildcard (d1 d2 : list Dimension) (k : string) :
  ConfigDimensionValueContainsWildcard d2 = false ->
  resolve_lookup (last_value d1 k) (last_value d2 k) = last_value d2 k.
Proof.
  intros Hw. unfold resolve_lookup.
  destruct (last_value d2 k) as [v2|] eqn:E; [|reflexivity].
  now rewrite (last_value_no_wildcard d2 k v2 Hw E).
Qed.

Lemma Forall_map_has_char (c : ascii) (f : Dimension -> string) (dims : list Dimension) :
  Forall (fun d => has_char c (f d) = false) dims ->
  Forall (fun s => has_char c s = false) (map f dims).
Proof. induction 1; simpl; constructor; assumption. Qed.

(** ** Claims *)

(** C6: [StatisticLookup] maps exactly Average, Sum, Maximum, Minimum and
    SampleCount to avg, sum, max, min and count with ok = true; any other
    string starting with "p" is returned unchanged with ok = true; every
    remaining string gets ok = false. *)
Theorem StatisticLookup_spec (s : string) :
  StatisticLookup "Average" = ("avg", true) /\
  StatisticLookup "Sum" = ("sum", true) /\
  StatisticLookup "Maximum" = ("max", true) /\
  StatisticLookup "Minimum" = ("min", true) /\
  StatisticLookup "SampleCount" = ("count", true) /\
  (~ In s ["Average"; "Sum"; "Maximum"; "Minimum"; "SampleCount"] ->
   forall rest, s = String "p" rest -> StatisticLookup s = (s, true)) /\
  (~ In s ["Average"; "Sum"; "Maximum"; "Minimum"; "SampleCount"] ->
   (forall rest, s <> String "p" rest) -> snd (StatisticLookup s) = false).
Proof.
  assert (Hnone : ~ In s ["Average"; "Sum"; "Maximum"; "Minimum"; "SampleCount"] ->
                  StatisticLookup s = (s, HasPrefix s "p")).
  { intros Hin. unfold StatisticLookup, statisticLookupTable.
    repeat match goal with
           | |- context [String.eqb ?x ?y] =>
               destruct (String.eqb_spec x y) as [->|]; [exfalso; apply Hin; simpl; auto 6|]
           end.
    reflexivity. }
  split_and!; try reflexivity.
  - intros Hin rest ->. rewrite (Hnone Hin). unfold HasPrefix. simpl.
    destruct (ascii_dec "p" "p"); [destruct rest; reflexivity | congruence].
  - intros Hin Hp. rewrite (Hnone Hin). cbn [snd].
    destruct s as [|a rest]; [reflexivity|]. unfold HasPrefix.
    change (String.prefix "p" (String a rest))
      with (if ascii_dec "p" a then String.prefix "" rest else false).
    destruct (ascii_dec "p" a) as [<-|]; [|reflexivity].
    exfalso. exact (Hp rest eq_refl).
Qed.

(** C2 (amended): when the metric name, namespace, statistic and the
    dimension names and values contain no '|', splitting the label on '|'
    gives back [metricName; namespace; statistic] when the dimension list is
    empty, and [metricName; namespace; statistic; comma-joined names;
    comma-joined values], in the list's order, when it is non-empty and
    both joins are non-empty (in general exactly [label_fields]). *)
Theorem ConstructLabel_roundtrip (metric : Metric) (statistic : string)
    (Hname : has_char labelSeparator (MetricName metric) = false)
    (Hns : has_char labelSeparator (Namespace metric) = false)
    (Hstat : has_char labelSeparator statistic = false)
    (Hdims : Forall (fun d => has_char labelSeparator (Name d) = false /\
                              has_char labelSeparator (Value d) = false) (Dimensions metric)) :
  Split labelSeparator (ConstructLabel metric statistic) = label_fields metric statistic /\
  (Dimensions metric = [] ->
   Split labelSeparator (ConstructLabel metric statistic)
   = [MetricName metric; Namespace metric; statistic]) /\
  (Dimensions metric <> [] ->
   join (map Name (Dimensions metric)) <> "" ->
   join (map Value (Dimensions metric)) <> "" ->
   Split labelSeparator (ConstructLabel metric statistic)
   = [MetricName metric; Namespace metric; statistic;
      join (map Name (Dimensions metric)); join (map Value (Dimensions metric))]).
Proof.
  assert (Hsplit : Split labelSeparator (ConstructLabel metric statistic)
                   = label_fields metric statistic).
  { rewrite ConstructLabel_join. apply Split_concat.
    - unfold label_fields. destruct (negb _ && negb _); discriminate.
    - assert (Hn : has_char labelSeparator (join (map Name (Dimensions metric))) = false).
      { apply has_char_concat; [reflexivity|]. apply Forall_map_has_char.
        eapply Forall_impl; [exact Hdims|]. intros d [? ?]. assumption. }
      assert (Hv : has_char labelSeparator (join (map Value (Dimensions metric))) = false).
      { apply has_char_concat; [reflexivity|]. apply Forall_map_has_char.
        eapply Forall_impl; [exact Hdims|]. intros d [? ?]. assumption. }
      unfold label_fields. destruct (negb _ && negb _); repeat constructor; assumption. }
  split_and!; [exact Hsplit| |].
  - intros Hnil. rewrite Hsplit. unfold label_fields. rewrite Hnil. reflexivity.
  - intros _ Hn Hv. rewrite Hsplit. unfold label_fields.
    apply String.eqb_neq in Hn, Hv. rewrite Hn, Hv. reflexivity.
Qed.

(** C8: the identifiers of [CreateMetricDataQueries] are pairwise distinct
    in the returned batch: distinct (metric index, statistic index) pairs
    give distinct [query_id] strings. *)
Theorem CreateMetricDataQueries_ids_unique (listMetricsTotal : list MetricsWithStatistics)
    (p : Z) :
  (forall i j i' j', (i, j) <> (i', j') -> query_id i j <> query_id i' j') /\
  NoDup (map Id (CreateMetricDataQueries listMetricsTotal p)).
Proof.
  split.
  - intros i j i' j' Hne Heq. apply query_id_inj in Heq as [-> ->]. congruence.
  - apply cmdq_outer_nodup.
Qed.

(** C4: [CompareAWSDimensions] returns true iff both lists have the same
    length and, once each wildcard value of the second list is replaced by
    the first list's value for that name, both name-to-value mappings are
    equal; without wildcards the comparison is symmetric; and
    compare({A:"x"}, {A:"*"}) = true, compare({A:"x"}, {A:"y"}) = false,
    compare({A:"x",B:"y"}, {A:"x"}) = false. *)
Theorem CompareAWSDimensions_spec :
  (forall dim1 dim2,
     CompareAWSDimensions dim1 dim2 = true <-> spec_dimensions_match dim1 dim2) /\
  (forall dim1 dim2,
     ConfigDimensionValueContainsWildcard dim1 = false ->
     ConfigDimensionValueContainsWildcard dim2 = false ->
     CompareAWSDimensions dim1 dim2 = CompareAWSDimensions dim2 dim1) /\
  CompareAWSDimensions [mkDimension "A" "x"] [mkDimension "A" "*"] = true /\
  CompareAWSDimensions [mkDimension "A" "x"] [mkDimension "A" "y"] = false /\
  CompareAWSDimensions [mkDimension "A" "x"; mkDimension "B" "y"] [mkDimension "A" "x"] = false.
Proof.
  split_and!; [exact CompareAWSDimensions_iff| | reflexivity | reflexivity | reflexivity].
  intros dim1 dim2 Hw1 Hw2. apply Bool.eq_iff_eq_true.
  rewrite !CompareAWSDimensions_iff. unfold spec_dimensions_match.
  split; intros [Hlen H]; split; [congruence| |congruence|]; intros k;
    rewrite resolve_lookup_no_wildcard by assumption;
    specialize (H k); rewrite resolve_lookup_no_wildcard in H by assumption; congruence.
Qed.

(** C5 (amended): one iteration of [readCloudwatchConfig]'s loop
    ([rcc_step]) routes an entry to exact mode iff its metric-name list and
    its dimension list are both non-nil (present, possibly empty) and no
    dimension value is the wildcard; exact mode appends one
    [MetricsWithStatistics] per metric name with the entry's namespace,
    dimensions and statistics, and records the global tag filters under the
    resource type when one is set; otherwise exactly one [NamespaceDetail]
    is appended to that namespace's list, the others left as they were. *)
Theorem readCloudwatchConfig_routing (tagsFilter : list Tag) (st : RccState) (config : Config) :
  let st' := rcc_step tagsFilter st config in
  let statistic := statistic_with_default (cfg_Statistic config) in
  let ns := cfg_Namespace config in
  (is_Some (cfg_MetricName config) /\ is_Some (cfg_Dimensions config) /\
   ConfigDimensionValueContainsWildcard (default [] (cfg_Dimensions config)) = false ->
   metricsWithStatsTotal st'
   = (metricsWithStatsTotal st
      ++ map (fun name => mkMWS (mkMetric ns name (default [] (cfg_Dimensions config))) statistic)
             (default [] (cfg_MetricName config)))%list /\
   resourceTypesWithTags st'
   = (if String.eqb (cfg_ResourceType config) "" then resourceTypesWithTags st
      else <[cfg_ResourceType config := tagsFilter]> (resourceTypesWithTags st)) /\
   namespaceDetailTotal st' = namespaceDetailTotal st) /\
  (~ (is_Some (cfg_MetricName config) /\ is_Some (cfg_Dimensions config) /\
      ConfigDimensionValueContainsWildcard (default [] (cfg_Dimensions config)) = false) ->
   metricsWithStatsTotal st' = metricsWithStatsTotal st /\
   resourceTypesWithTags st' = resourceTypesWithTags st /\
   namespaceDetailTotal st' !! ns
   = Some (default [] (namespaceDetailTotal st !! ns)
           ++ [mkNamespaceDetail (cfg_ResourceType config) (cfg_MetricName config) tagsFilter
                 statistic (cloudwatchDimensions_of (cfg_Dimensions config))])%list /\
   forall ns', ns' <> ns -> namespaceDetailTotal st' !! ns' = namespaceDetailTotal st !! ns').
Proof.
  cbv zeta. unfold rcc_step, is_exact_mode.
  assert (Hdims : default [] (cloudwatchDimensions_of (cfg_Dimensions config))
                  = default [] (cfg_Dimensions config)).
  { destruct (cfg_Dimensions config) as [[|d ds]|]; reflexivity. }
  split.
  - intros (Hn & Hd & Hw). rewrite (bool_decide_eq_true_2 _ Hn), (bool_decide_eq_true_2 _ Hd), Hw.
    simpl. rewrite Hdims. split_and!; reflexivity.
  - intros Hnot.
    destruct (bool_decide (is_Some (cfg_MetricName config))) eqn:E1;
    destruct (bool_decide (is_Some (cfg_Dimensions config))) eqn:E2;
    destruct (ConfigDimensionValueContainsWildcard (default [] (cfg_Dimensions config))) eqn:E3;
    simpl;
    try (exfalso; apply Hnot; apply bool_decide_eq_true_1 in E1, E2; split_and!; first [assumption | reflexivity]);
    (split_and!; [reflexivity | reflexivity | apply lookup_insert_eq |
                  intros ns' Hne; apply lookup_insert_ne; congruence]).
Qed.

Lemma cmdq_inner_stats (p : Z) (i j : nat) (m : Metric) (stats : list string) :
  map Stat (cmdq_inner p i j m stats) = stats.
Proof. revert j. induction stats as [|s stats IH]; intros j; simpl; [|rewrite IH]; reflexivity. Qed.

(** C7 (amended): for an entry whose statistics list is nil (absent from the
    configuration), [readCloudwatchConfig]'s loop substitutes the default set
    [Average, Maximum, Minimum, Sum, SampleCount]: every
    [MetricsWithStatistics] it adds carries exactly those statistics and
    yields one query per default statistic, and a [NamespaceDetail] it
    appends carries them too. *)
Theorem readCloudwatchConfig_default_statistics (tagsFilter : list Tag) (st : RccState)
    (config : Config) (p : Z) (Hnil : cfg_Statistic config = None) :
  let st' := rcc_step tagsFilter st config in
  Forall (fun mws => Statistic mws = defaultStatistics /\
                     map Stat (CreateMetricDataQueries [mws] p) = defaultStatistics)
    (drop (length (metricsWithStatsTotal st)) (metricsWithStatsTotal st')) /\
  (is_exact_mode config = false ->
   exists l nd, namespaceDetailTotal st' !! cfg_Namespace config = Some l /\
                last l = Some nd /\ Statistics nd = defaultStatistics).
Proof.
  cbv zeta. unfold rcc_step. rewrite Hnil. unfold statistic_with_default.
  destruct (is_exact_mode config) eqn:Hmode; simpl.
  - split; [|discriminate].
    rewrite drop_app_length. apply Forall_forall. intros mws Hin.
    apply list_elem_of_In, in_map_iff in Hin as (name & <- & _). simpl.
    split; [reflexivity|]. unfold CreateMetricDataQueries. simpl.
    rewrite ?app_nil_r. reflexivity.
  - split.
    + rewrite drop_all. constructor.
    + intros _. eexists _, _. split_and!; [apply lookup_insert_eq | apply last_snoc | reflexivity].
Qed.

(** C3: for a query result whose label splits into 3 fields, the only event
    [createEvents] may create or update is the one under the fallback
    identity [regionName + AccountID + namespace]; in a resource-type pass
    whose tag filter is non-empty the result changes nothing at all, and in
    a pass with an empty tag filter it is handled as without filters. *)
Theorem createEvents_fallback_identity (regionName : string) (timestamp : Z)
    (events : gmap string Event) (output : MetricDataResult)
    (H3 : length (Split labelSeparator (ResultLabel output)) = 3) :
  let namespace := Split labelSeparator (ResultLabel output) !!! namespaceIdx in
  fallback_identifier regionName namespace = regionName +:+ AccountID +:+ namespace /\
  (forall events', step_nofilter regionName timestamp events output = Ok events' ->
     events' = events \/
     exists ev, events' = <[fallback_identifier regionName namespace := ev]> events) /\
  (forall tagsFilter resourceTagMap, tagsFilter <> [] ->
     step_tags regionName timestamp tagsFilter resourceTagMap events output = Ok events) /\
  (forall resourceTagMap,
     step_tags regionName timestamp [] resourceTagMap events output
     = step_nofilter regionName timestamp events output).
Proof.
  cbv zeta. unfold step_nofilter, step_tags.
  destruct (Split labelSeparator (ResultLabel output)) as [|l0 [|l1 [|l2 [|l3 l]]]];
    simpl in H3; try discriminate. clear H3.
  split_and!; [reflexivity | | |].
  - intros events'.
    destruct (Nat.eqb (length (Values output)) 0); [intros [= <-]; now left|].
    destruct (CheckTimestampInArray timestamp (Timestamps output)) as [[|] idx]; simpl;
      [|intros [= <-]; now left].
    destruct (Values output !! idx) as [v|]; simpl; [|discriminate].
    unfold upsert_event. simpl. intros [= <-]. right. eexists. reflexivity.
  - intros tagsFilter resourceTagMap Hne.
    destruct (Nat.eqb (length (Values output)) 0); [reflexivity|].
    destruct (CheckTimestampInArray timestamp (Timestamps output)) as [[|] idx]; simpl;
      [|reflexivity].
    destruct tagsFilter; [congruence|]. reflexivity.
  - intros resourceTagMap. reflexivity.
Qed.

Lemma string_app_cancel_l (p a b : string) : p +:+ a = p +:+ b -> a = b.
Proof. induction p as [|x p IH]; simpl; [auto|]. intros H. injection H as H. auto. Qed.

Lemma put_tags_some (identifier : string) (tags : list Tag) (events : gmap string Event)
    (ev : Event) :
  events !! identifier = Some ev ->
  put_tags identifier tags events
  = Some (<[identifier := fold_left (fun e tag =>
             Put ("aws.tags." +:+ DeDot (Key tag)) (VStr (TagValue tag)) e) tags ev]> events).
Proof.
  revert events ev. induction tags as [|tag tags IH]; intros events ev Hev; simpl.
  - rewrite insert_id; auto.
  - unfold put_event. rewrite Hev. simpl.
    rewrite (IH _ (Put ("aws.tags." +:+ DeDot (Key tag)) (VStr (TagValue tag)) ev)).
    + rewrite insert_insert_eq. reflexivity.
    + apply lookup_insert_eq.
Qed.

Lemma insert_tags_loop_some (identifier : string) (resourceTagMap : gmap string (list Tag))
    (subs : list string) (events : gmap string Event) (ev : Event) :
  events !! identifier = Some ev ->
  insert_tags_loop identifier resourceTagMap subs events
  = Some (<[identifier := fold_left (fun e tag =>
             Put ("aws.tags." +:+ DeDot (Key tag)) (VStr (TagValue tag)) e)
             (concat (map (sub_identifier_tags resourceTagMap) subs)) ev]> events).
Proof.
  revert events ev. induction subs as [|v subs IH]; intros events ev Hev; simpl.
  - rewrite insert_id; auto.
  - destruct (sub_identifier_tags resourceTagMap v) as [|tag tags] eqn:Etags; simpl.
    + apply IH; exact Hev.
    + pose proof (put_tags_some _ (tag :: tags) _ ev Hev) as Hp. simpl in Hp |- *.
      rewrite Hp. simpl.
      rewrite (IH _ (fold_left (fun e tag =>
             Put ("aws.tags." +:+ DeDot (Key tag)) (VStr (TagValue tag)) e) tags
             (Put ("aws.tags." +:+ DeDot (Key tag)) (VStr (TagValue tag)) ev))).
      * rewrite insert_insert_eq, fold_left_app. reflexivity.
      * apply lookup_insert_eq.
Qed.

Lemma fold_puts_Timestamp {A} (h : A -> string) (g : A -> FVal) (xs : list A) (ev : Event) :
  Timestamp (fold_left (fun e x => Put (h x) (g x) e) xs ev) = Timestamp ev.
Proof.
  revert ev. induction xs as [|x xs IH]; intros ev; simpl; [reflexivity|].
  rewrite IH. apply Put_Timestamp.
Qed.


Lemma Split_aws (b n : string) :
  has_char "." b = false -> has_char "." n = false ->
  Split "." ("aws." +:+ b +:+ String "." n) = ["aws"; b; n].
Proof. apply (Split_three "aws"). reflexivity. Qed.


Lemma insert_dimensions_loop_fold (names : list string) (i : nat) (values : list string)
    (ev : Event) :
  (i + length names <= length values)%nat ->
  insert_dimensions_loop names i values ev
  = Some (fold_left (fun e nv => Put ("aws.dimensions." +:+ nv.1) (VStr nv.2) e)
            (zip names (drop i values)) ev).
Proof.
  revert i ev. induction names as [|n names IH]; intros i ev Hlen; simpl in *; [reflexivity|].
  destruct (lookup_lt_is_Some_2 values i) as [v Hv]; [lia|]. rewrite Hv. simpl.
  rewrite (drop_S _ _ _ Hv). simpl. apply IH. lia.
Qed.

Lemma insert_dimensions_loop_short (names : list string) (i : nat) (values : list string)
    (ev : Event) :
  (i <= length values)%nat -> (length values < i + length names)%nat ->
  insert_dimensions_loop names i values ev = None.
Proof.
  revert i ev. induction names as [|n names IH]; intros i ev Hi Hlen; simpl in *; [lia|].
  destruct (values !! i) as [v|] eqn:Hv; simpl; [|reflexivity].
  apply lookup_lt_Some in Hv. apply IH; lia.
Qed.

Lemma Forall_zip_fst {A B} (P : A -> Prop) (l1 : list A) (l2 : list B) :
  Forall P l1 -> Forall (fun x => P x.1) (zip l1 l2).
Proof.
  revert l2. induction l1 as [|x l1 IH]; intros l2 Hl; [constructor|].
  destruct l2 as [|y l2]; [constructor|]. apply Forall_cons in Hl as [Hx Hl].
  constructor; [exact Hx | apply IH, Hl].
Qed.

Lemma In_zip_fst {A B} (l1 : list A) (l2 : list B) (x : A) :
  (length l1 <= length l2)%nat -> In x l1 -> exists y, In (x, y) (zip l1 l2).
Proof.
  revert l2. induction l1 as [|a l1 IH]; intros l2 Hlen Hx; [destruct Hx|].
  destruct l2 as [|b l2]; simpl in Hlen; [lia|].
  destruct Hx as [<-|Hx]; [exists b; left; reflexivity|].
  destruct (IH l2 ltac:(lia) Hx) as [y Hy]. exists y. right. exact Hy.
Qed.

Lemma GenerateFieldName_segments (namespace : string) (labels : list string) (fieldName : string) :
  GenerateFieldName namespace labels = Some fieldName ->
  (5 <= length (Split "." fieldName))%nat.
Proof.
  unfold GenerateFieldName.
  destruct (labels !! statisticIdx); simpl; [|discriminate].
  destruct (labels !! metricNameIdx); simpl; [|discriminate].
  intros [= <-]. rewrite Split_length. simpl. repeat (rewrite !count_char_app; simpl). lia.
Qed.

(** The first two [Put]s of [InsertRootFields] keep the fields' keys dot-free
    and put no non-map value at a path of one or two segments. *)
Lemma InsertRootFields_head (event : Event) (fieldName : string) (v : Z) (namespace : string)
    (p : string) (ps : list string) :
  (5 <= length (Split "." fieldName))%nat -> (length ps <= 1)%nat ->
  wf_map (RootFields event) -> no_leaf_at (RootFields event) p ps ->
  let event0 := Put "aws.cloudwatch.namespace" (VStr namespace) (Put fieldName (VNum v) event) in
  wf_map (RootFields event0) /\ no_leaf_at (RootFields event0) p ps.
Proof.
  intros H5 Hps Hw Hn. cbv zeta.
  assert (Hw1 : wf_map (RootFields (Put fieldName (VNum v) event))) by (apply Put_wf; [exact Hw | constructor]).
  split; [apply Put_wf; [exact Hw1 | constructor]|].
  apply Put_no_leaf; [exact Hw1 | simpl; lia|].
  apply Put_no_leaf; [exact Hw | lia | exact Hn].
Qed.

Lemma count_char_zero (c : ascii) (s : string) : count_char c s = 0 -> has_char c s = false.
Proof.
  induction s as [|a s IH]; simpl; [reflexivity|].
  destruct (ascii_dec a c); [discriminate | exact IH].
Qed.

Lemma concat_five (c : ascii) (a b d e f : string) :
  String.concat (String c "") [a; b; d; e; f]
  = a +:+ String c (b +:+ String c (d +:+ String c (e +:+ String c f))).
Proof. reflexivity. Qed.

(** C10 (amended): [InsertRootFields] on a 5-field label whose
    comma-separated names part has no more entries than its values part
    succeeds: after the metric-value and namespace [Put]s it makes one
    [Put] of [aws.dimensions.<name>] := value per name part, pairing the
    i-th name with the i-th value, so the values are only indexed in
    range.  When the event's fields have dot-free keys, nothing but a map
    sits at [aws] and at [aws.dimensions], and the name parts contain no
    ['.'], each name's field then reads a value paired with that name.
    Labels built by [ConstructLabel] from a name, namespace and statistic
    free of ['|'] and from dimension names free of [','] meet the
    condition whenever they split into 5 fields; every 5-field label with
    more names than values (possible once a statistic carries ['|'] and
    [',']) makes it panic on the index [dimValues[i]]. *)
Theorem InsertRootFields_in_range :
  (forall (event : Event) (metricValue : Z) (labels : list string),
     length labels = 5 ->
     let names := Split ","%char (labels !!! identifierNameIdx) in
     let values := Split ","%char (labels !!! identifierValueIdx) in
     (length names <= length values)%nat ->
     exists fieldName,
       GenerateFieldName (labels !!! namespaceIdx) labels = Some fieldName /\
       let event0 := Put "aws.cloudwatch.namespace" (VStr (labels !!! namespaceIdx))
                       (Put fieldName (VNum metricValue) event) in
       let event' := fold_left (fun e nv => Put ("aws.dimensions." +:+ nv.1) (VStr nv.2) e)
                       (zip names values) event0 in
       InsertRootFields event metricValue labels = Some event' /\
       (wf_map (RootFields event) ->
        (forall x, GetValue (RootFields event) "aws" = Some x -> is_map x = true) ->
        (forall x, GetValue (RootFields event) "aws.dimensions" = Some x -> is_map x = true) ->
        Forall (fun name => has_char "." name = false) names ->
        forall name, In name names ->
          exists value, In (name, value) (zip names values) /\
            GetValue (RootFields event') ("aws.dimensions." +:+ name) = Some (VStr value))) /\
  (forall (metric : Metric) (statistic : string),
     has_char labelSeparator (MetricName metric) = false ->
     has_char labelSeparator (Namespace metric) = false ->
     has_char labelSeparator statistic = false ->
     Forall (fun d => has_char ","%char (Name d) = false) (Dimensions metric) ->
     let labels := Split labelSeparator (ConstructLabel metric statistic) in
     length labels = 5 ->
     (length (Split ","%char (labels !!! identifierNameIdx))
      <= length (Split ","%char (labels !!! identifierValueIdx)))%nat) /\
  (forall (event : Event) (metricValue : Z) (labels : list string),
     length labels = 5 ->
     (length (Split ","%char (labels !!! identifierValueIdx))
      < length (Split ","%char (labels !!! identifierNameIdx)))%nat ->
     InsertRootFields event metricValue labels = None).
Proof.
  split_and!.
  - intros event v labels H5. cbv zeta. intros Hle.
    destruct labels as [|l0 [|l1 [|l2 [|l3 [|l4 [|l5 l]]]]]]; simpl in H5; try discriminate.
    simpl in Hle |- *.
    destruct (GenerateFieldName l1 [l0; l1; l2; l3; l4]) as [fn|] eqn:Efn;
      [|unfold GenerateFieldName in Efn; discriminate].
    exists fn. split; [reflexivity|].
    pose proof (GenerateFieldName_segments _ _ _ Efn) as Hfn.
    split.
    + unfold InsertRootFields. change ([l0; l1; l2; l3; l4] !! namespaceIdx) with (Some l1).
      cbn [mbind option_bind]. rewrite Efn. simpl.
      rewrite insert_dimensions_loop_fold by (simpl; exact Hle). reflexivity.
    + intros Hw Ha Hb Hdots name Hin.
      assert (Ha' : no_leaf_at (RootFields event) "aws" []).
      { intros x Hx. apply Ha. rewrite (GetValue_path _ _ "aws" [] Hw) by reflexivity. exact Hx. }
      assert (Hb' : no_leaf_at (RootFields event) "aws" ["dimensions"]).
      { intros x Hx. apply Hb. rewrite (GetValue_path _ _ "aws" ["dimensions"] Hw) by reflexivity.
        exact Hx. }
      destruct (InsertRootFields_head event fn v l1 "aws" [] Hfn ltac:(simpl; lia) Hw Ha')
        as [Hw0 Ha0].
      destruct (InsertRootFields_head event fn v l1 "aws" ["dimensions"] Hfn ltac:(simpl; lia)
                  Hw Hb') as [_ Hb0].
      assert (Hpre : forall n, has_char "." n = false ->
                     Split "." ("aws.dimensions." +:+ n) = ["aws"; "dimensions"; n])
        by (intros n Hn; exact (Split_aws "dimensions" n eq_refl Hn)).
      assert (Hf : Forall (fun nv : string * string => has_char "." nv.1 = false /\
                                                      wf_val (VStr nv.2))
                     (zip (Split ","%char l3) (Split ","%char l4))).
      { eapply Forall_impl; [exact (Forall_zip_fst _ _ (Split ","%char l4) Hdots)|].
        intros nv Hnv. split; [exact Hnv | constructor]. }
      destruct (fold_puts_under "aws.dimensions." "aws" "dimensions" (fun nv => nv.1)
                  (fun nv => VStr nv.2) _ _ Hpre Hf Hw0 Ha0 Hb0)
        as (Hw' & _ & _ & _ & Hlast).
      cbv beta in Hw', Hlast.
      destruct (In_zip_fst _ (Split ","%char l4) _ Hle Hin) as [y Hy].
      destruct (Hlast (name, y) Hy) as ([n' v'] & Hin' & En & Hv). simpl in En, Hv. subst n'.
      exists v'. split; [exact Hin'|].
      rewrite (GetValue_path _ _ "aws" ["dimensions"; name] Hw'); [exact Hv|].
      apply Hpre. rewrite Forall_forall in Hdots. apply Hdots, list_elem_of_In, Hin.
  - intros metric statistic Hn Hns Hst Hdims. cbv zeta.
    rewrite ConstructLabel_join. unfold label_fields.
    set (jn := join (map Name (Dimensions metric))).
    set (jv := join (map Value (Dimensions metric))).
    destruct (negb (String.eqb jn "") && negb (String.eqb jv "")) eqn:E.
    + apply andb_prop in E as [E1 E2]. apply negb_true_iff, String.eqb_neq in E1, E2.
      rewrite concat_five, !Split_app_sep by assumption.
      intros H5. simpl in H5. injection H5 as H2.
      rewrite Split_length, count_char_app in H2. simpl in H2.
      destruct (ascii_dec labelSeparator labelSeparator) as [_|]; [|congruence].
      assert (Hjn : has_char labelSeparator jn = false) by (apply count_char_zero; lia).
      assert (Hjv : has_char labelSeparator jv = false) by (apply count_char_zero; lia).
      rewrite (Split_app_sep _ _ _ Hjn), (Split_nochar _ _ Hjv). simpl.
      assert (Hne : Dimensions metric <> []).
      { intros Hd. apply E1. unfold jn. rewrite Hd. reflexivity. }
      unfold jn, join. rewrite Split_concat.
      * rewrite length_map. unfold jv, join.
        rewrite <- (length_map Value (Dimensions metric)), Split_length. apply count_char_concat.
        destruct (Dimensions metric); [congruence | discriminate].
      * destruct (Dimensions metric); [congruence | discriminate].
      * apply Forall_forall. intros x Hx. apply list_elem_of_In, in_map_iff in Hx as (d & <- & Hd).
        rewrite Forall_forall in Hdims. apply Hdims, list_elem_of_In, Hd.
    + rewrite Split_concat.
      * discriminate.
      * discriminate.
      * repeat constructor; assumption.
  - intros event v labels H5 Hlt.
    destruct labels as [|l0 [|l1 [|l2 [|l3 [|l4 [|l5 l]]]]]]; simpl in H5; try discriminate.
    simpl in Hlt. unfold InsertRootFields.
    change ([l0; l1; l2; l3; l4] !! namespaceIdx) with (Some l1). cbn [mbind option_bind].
    destruct (GenerateFieldName l1 [l0; l1; l2; l3; l4]) as [fn|] eqn:Efn;
      [|unfold GenerateFieldName in Efn; discriminate].
    simpl. apply insert_dimensions_loop_short; simpl; lia.
Qed.

(** ** Lemmas on [Fetch] and the external calls *)

Lemma go_fold_ext {A B} (f g : B -> A -> GoResult B) (xs : list A) (acc : B) :
  (forall a x, f a x = g a x) -> go_fold f xs acc = go_fold g xs acc.
Proof.
  intros Hfg. revert acc. induction xs as [|x xs IH]; intros acc; simpl; [reflexivity|].
  rewrite Hfg. destruct (g acc x); simpl; [apply IH | reflexivity | reflexivity].
Qed.

Lemma createEvents_equiv getMetricData_ getResourcesTags1 getResourcesTags2 L rttf regionName :
  (forall resourceType, fst (getResourcesTags1 resourceType) = fst (getResourcesTags2 resourceType)) ->
  createEvents getMetricData_ getResourcesTags1 L rttf regionName
  = createEvents getMetricData_ getResourcesTags2 L rttf regionName.
Proof.
  intros Hg. unfold createEvents.
  destruct (Nat.eqb _ 0); [reflexivity|].
  destruct (getMetricData_ _) as [results|e]; [|reflexivity].
  destruct (Z.eqb _ 0); [reflexivity|]. destruct (Nat.eqb (size rttf) 0); [reflexivity|].
  apply go_fold_ext. intros events [rt tf]. unfold tags_pass.
  specialize (Hg rt). destruct (getResourcesTags1 rt), (getResourcesTags2 rt).
  simpl in Hg. subst. reflexivity.
Qed.

Lemma lm_equiv_refl (x : list Metric + string) : lm_equiv x x.
Proof. destruct x; simpl; auto. Qed.

Lemma exact_loop_equiv (r1 r2 : Remote) lmd regions emitted :
  remote_equiv r1 r2 -> exact_loop r1 lmd regions emitted = exact_loop r2 lmd regions emitted.
Proof.
  intros (Hgmd & Hgrt & _). revert emitted.
  induction regions as [|reg regions IH]; intros emitted; simpl; [reflexivity|].
  rewrite Hgmd, (createEvents_equiv _ (getResourcesTags r1 reg) (getResourcesTags r2 reg))
    by (intros; apply Hgrt).
  destruct (createEvents _ _ _ _ _); [apply IH | reflexivity | reflexivity].
Qed.

Lemma namespace_loop_equiv (r1 r2 : Remote) regionName nss emitted :
  remote_equiv r1 r2 ->
  namespace_loop r1 regionName nss emitted = namespace_loop r2 regionName nss emitted.
Proof.
  intros (Hgmd & Hgrt & Hlm). revert emitted.
  induction nss as [|[ns details] nss IH]; intros emitted; simpl; [reflexivity|].
  specialize (Hlm regionName ns).
  destruct (listMetrics r1 regionName ns) as [a|e1], (listMetrics r2 regionName ns) as [b|e2];
    simpl in Hlm; subst; simpl; try apply IH.
  destruct (Nat.eqb (length b) 0); [apply IH|].
  rewrite Hgmd, (createEvents_equiv _ (getResourcesTags r1 regionName)
                   (getResourcesTags r2 regionName)) by (intros; apply Hgrt).
  destruct (createEvents _ _ _ _ _); [apply IH | reflexivity | reflexivity].
Qed.

Lemma region_loop_equiv (r1 r2 : Remote) nsd regions emitted :
  remote_equiv r1 r2 -> region_loop r1 nsd regions emitted = region_loop r2 nsd regions emitted.
Proof.
  intros Heq. revert emitted.
  induction regions as [|reg regions IH]; intros emitted; simpl; [reflexivity|].
  rewrite (namespace_loop_equiv r1 r2 _ _ _ Heq).
  destruct (namespace_loop r2 reg _ emitted) as [em [u|e|]]; [apply IH | reflexivity | reflexivity].
Qed.

Lemma Fetch_equiv (r1 r2 : Remote) regions tagsFilter configs :
  remote_equiv r1 r2 ->
  Fetch r1 regions tagsFilter configs = Fetch r2 regions tagsFilter configs.
Proof.
  intros Heq. unfold Fetch.
  destruct (checkStatistics configs); [reflexivity|].
  destruct (readCloudwatchConfig tagsFilter configs) as [lmd nsd].
  rewrite (exact_loop_equiv r1 r2 _ _ _ Heq).
  destruct (if negb _ then _ else _) as [em [u|e|]]; try reflexivity.
  apply region_loop_equiv. exact Heq.
Qed.

(** C1 (corrected): in [Fetch], a [ListMetrics] error for a region and
    namespace only skips that namespace there (the run is the same as with
    an empty answer), and the error reported by [GetResourcesTags] never
    matters; but a [GetMetricData] error for a non-empty batch of queries,
    in the exact-mode loop or in the loop over namespaces, makes [Fetch]
    stop and return the error: no later namespace or region is processed,
    and only the events reported before it stay reported. *)
Theorem Fetch_failure_handling :
  (forall remote regions tagsFilter configs regionName namespace e,
     listMetrics remote regionName namespace = inr e ->
     Fetch remote regions tagsFilter configs
     = Fetch (with_listMetrics remote regionName namespace (inl [])) regions tagsFilter configs) /\
  (forall remote regions tagsFilter configs,
     Fetch remote regions tagsFilter configs
     = Fetch (drop_tag_errors remote) regions tagsFilter configs) /\
  (forall remote lmd regionName rest emitted e,
     CreateMetricDataQueries (MetricsWithStats lmd) periodInSec <> [] ->
     getMetricData remote regionName (CreateMetricDataQueries (MetricsWithStats lmd) periodInSec)
     = inr e ->
     exact_loop remote lmd (regionName :: rest) emitted
     = (emitted, Err ("createEvents failed for region " +:+ regionName +:+ ": "
                      +:+ ("getMetricDataResults failed: " +:+ e)))) /\
  (forall remote regionName namespace details rest emitted listMetricsOutput e,
     listMetrics remote regionName namespace = inl listMetricsOutput ->
     listMetricsOutput <> [] ->
     CreateMetricDataQueries (FilterListMetricsOutput listMetricsOutput details) periodInSec <> [] ->
     getMetricData remote regionName
       (CreateMetricDataQueries (FilterListMetricsOutput listMetricsOutput details) periodInSec)
     = inr e ->
     namespace_loop remote regionName ((namespace, details) :: rest) emitted
     = (emitted, Err ("createEvents failed for region " +:+ regionName +:+ ": "
                      +:+ ("getMetricDataResults failed: " +:+ e)))) /\
  (forall remote nsd regionName rest emitted emitted' msg,
     namespace_loop remote regionName (map_to_list nsd) emitted = (emitted', Err msg) ->
     region_loop remote nsd (regionName :: rest) emitted = (emitted', Err msg)).
Proof.
  split_and!.
  - intros remote regions tagsFilter configs regionName namespace e He.
    apply Fetch_equiv. split_and!; [reflexivity | reflexivity |].
    intros r ns. unfold with_listMetrics. simpl.
    destruct (String.eqb r regionName && String.eqb ns namespace) eqn:E.
    + apply andb_prop in E as [E1 E2]. apply String.eqb_eq in E1, E2. subst.
      rewrite He. reflexivity.
    + apply lm_equiv_refl.
  - intros remote regions tagsFilter configs.
    apply Fetch_equiv. split_and!; [reflexivity | reflexivity | intros; apply lm_equiv_refl].
  - intros remote lmd regionName rest emitted e Hne He. simpl. unfold createEvents.
    destruct (Nat.eqb (length (CreateMetricDataQueries (MetricsWithStats lmd) periodInSec)) 0) eqn:E.
    + apply Nat.eqb_eq, nil_length_inv in E. congruence.
    + rewrite He. reflexivity.
  - intros remote regionName namespace details rest emitted lmo e Hlm Hlmo Hne He.
    simpl. rewrite Hlm. destruct lmo as [|m lmo]; [congruence|]. simpl. unfold createEvents.
    destruct (Nat.eqb (length (CreateMetricDataQueries
                (FilterListMetricsOutput (m :: lmo) details) periodInSec)) 0) eqn:E.
    + apply Nat.eqb_eq, nil_length_inv in E. congruence.
    + rewrite He. reflexivity.
  - intros remote nsd regionName rest emitted emitted' msg H. simpl. rewrite H. reflexivity.
Qed.

(** ** Further properties of the metricset *)

(** *** [StripNamespace], [GenerateFieldName], [InsertRootFields] *)

Lemma Split_app_sep_prefix (c : ascii) (a b : string) :
  exists x xs, Split c (a +:+ String c b) = (x :: xs ++ Split c b)%list.
Proof.
  induction a as [|y a IH]; simpl.
  - destruct (ascii_dec c c) as [_|]; [|congruence]. exists "", []. reflexivity.
  - destruct IH as (x & xs & ->). destruct (ascii_dec y c).
    + exists "", (x :: xs). reflexivity.
    + exists (String y x), xs. reflexivity.
Qed.

Lemma lower_ascii_slash (a : ascii) :
  (if ascii_dec (lower_ascii a) "/" then true else false)
  = (if ascii_dec a "/" then true else false).
Proof. destruct a as [[] [] [] [] [] [] [] []]; reflexivity. Qed.

Lemma ToLower_has_slash (s : string) : has_char "/" (ToLower s) = has_char "/" s.
Proof.
  induction s as [|a s IH]; simpl; [reflexivity|].
  pose proof (lower_ascii_slash a) as H.
  destruct (ascii_dec (lower_ascii a) "/"), (ascii_dec a "/"); congruence.
Qed.

(** [StripNamespace] keeps the lower-cased text after the last ['/'] of
    the namespace ([AWS/EC2] gives [ec2]), the whole namespace when it has
    no ['/']; its result never contains ['/']. *)
Theorem StripNamespace_last_segment (prefix segment : string)
    (Hseg : has_char "/" segment = false) :
  StripNamespace (prefix +:+ String "/" segment) = ToLower segment /\
  StripNamespace segment = ToLower segment /\
  forall namespace, has_char "/" (StripNamespace namespace) = false.
Proof.
  split_and!.
  - unfold StripNamespace. destruct (Split_app_sep_prefix "/" prefix segment) as (x & xs & ->).
    rewrite (Split_nochar _ _ Hseg). change (x :: xs ++ [segment])%list with ((x :: xs) ++ [segment])%list.
    rewrite last_snoc. reflexivity.
  - unfold StripNamespace. rewrite (Split_nochar _ _ Hseg). reflexivity.
  - intros namespace. unfold StripNamespace. rewrite ToLower_has_slash.
    destruct (last (Split "/" namespace)) as [p|] eqn:E; [|reflexivity]. simpl.
    apply last_Some in E as (l' & El).
    pose proof (Split_elems_nochar "/" namespace) as HF. rewrite El in HF.
    apply Forall_app in HF as [_ HF]. inversion HF. assumption.
Qed.

(** The fields [Split labelSeparator] recovers from a label whose parts
    carry no ['|']. *)
Lemma Split_ConstructLabel (metric : Metric) (statistic : string) :
  has_char labelSeparator (MetricName metric) = false ->
  has_char labelSeparator (Namespace metric) = false ->
  has_char labelSeparator statistic = false ->
  Forall (fun d => has_char labelSeparator (Name d) = false /\
                   has_char labelSeparator (Value d) = false) (Dimensions metric) ->
  Split labelSeparator (ConstructLabel metric statistic) = label_fields metric statistic.
Proof.
  intros Hn Hns Hst Hdims.
  rewrite ConstructLabel_join. apply Split_concat.
  - unfold label_fields. destruct (negb _ && negb _); discriminate.
  - assert (Hjn : has_char labelSeparator (join (map Name (Dimensions metric))) = false).
    { apply has_char_concat; [reflexivity|]. apply Forall_map_has_char.
      eapply Forall_impl; [exact Hdims|]. intros d [? ?]. assumption. }
    assert (Hjv : has_char labelSeparator (join (map Value (Dimensions metric))) = false).
    { apply has_char_concat; [reflexivity|]. apply Forall_map_has_char.
      eapply Forall_impl; [exact Hdims|]. intros d [? ?]. assumption. }
    unfold label_fields. destruct (negb _ && negb _); repeat constructor; assumption.
Qed.

(** For a label built by [ConstructLabel] from parts without ['|'], the
    metric field is [aws.<StripNamespace ns>.metrics.<DeDot name>.<stat>]
    with the statistic's short form from [StatisticLookup]; a label of
    fewer than 3 fields has no field name (indexing it panics). *)
Theorem GenerateFieldName_ConstructLabel (metric : Metric) (statistic : string)
    (Hn : has_char labelSeparator (MetricName metric) = false)
    (Hns : has_char labelSeparator (Namespace metric) = false)
    (Hst : has_char labelSeparator statistic = false)
    (Hdims : Forall (fun d => has_char labelSeparator (Name d) = false /\
                              has_char labelSeparator (Value d) = false) (Dimensions metric)) :
  GenerateFieldName (Namespace metric) (Split labelSeparator (ConstructLabel metric statistic))
  = Some ("aws." +:+ StripNamespace (Namespace metric) +:+ ".metrics."
          +:+ DeDot (MetricName metric) +:+ "." +:+ fst (StatisticLookup statistic)) /\
  (forall namespace labels, (length labels < 3)%nat -> GenerateFieldName namespace labels = None).
Proof.
  split.
  - rewrite (Split_ConstructLabel metric statistic Hn Hns Hst Hdims).
    unfold label_fields. destruct (negb _ && negb _); reflexivity.
  - intros namespace labels Hlen. unfold GenerateFieldName.
    rewrite (proj2 (lookup_ge_None labels statisticIdx)); [reflexivity|]. unfold statisticIdx. lia.
Qed.

Lemma Put_get_same (key : string) (v : FVal) (e : Event) (k : string) (ks : list string) :
  wf_map (RootFields e) -> Split "." key = k :: ks ->
  (forall j x, (j < length ks)%nat -> get_path (RootFields e) k (take j ks) = Some x ->
     is_map x = true) ->
  get_path (RootFields (Put key v e)) k ks = Some v.
Proof.
  intros Hw Hs Hok. rewrite (Put_path _ _ _ _ _ Hw Hs).
  destruct (put_path_ok _ _ _ v Hok) as [m Hm]. rewrite Hm.
  exact (get_put_path_same _ _ _ _ _ Hm).
Qed.

(** With nothing but maps at [aws] and [aws.cloudwatch], the namespace
    [Put] goes through. *)
Lemma Put_namespace (e : Event) (namespace : string) :
  wf_map (RootFields e) -> no_leaf_at (RootFields e) "aws" [] ->
  no_leaf_at (RootFields e) "aws" ["cloudwatch"] ->
  get_path (RootFields (Put "aws.cloudwatch.namespace" (VStr namespace) e))
    "aws" ["cloudwatch"; "namespace"] = Some (VStr namespace).
Proof.
  intros Hw Ha Hc. apply Put_get_same; [exact Hw | reflexivity|].
  intros [|[|j]] x Hj Hx; simpl in Hj; [exact (Ha x Hx) | exact (Hc x Hx) | lia].
Qed.

(** [InsertRootFields] panics (here [None]) on a label of fewer than 3
    fields or of exactly 4; on a 3-field label it makes exactly two
    [Put]s, the metric value under the generated field name and then the
    label's namespace under [aws.cloudwatch.namespace], and keeps the
    timestamp; when the event's fields have dot-free keys and nothing but a
    map sits at [aws] and at [aws.cloudwatch], the namespace field then
    reads the label's namespace. *)
Theorem InsertRootFields_short_labels (event : Event) (metricValue : Z) (labels : list string) :
  ((length labels < 3)%nat \/ length labels = 4%nat ->
   InsertRootFields event metricValue labels = None) /\
  (length labels = 3%nat ->
   exists fieldName,
     GenerateFieldName (labels !!! namespaceIdx) labels = Some fieldName /\
     let event' := Put "aws.cloudwatch.namespace" (VStr (labels !!! namespaceIdx))
                     (Put fieldName (VNum metricValue) event) in
     InsertRootFields event metricValue labels = Some event' /\
     Timestamp event' = Timestamp event /\
     (wf_map (RootFields event) ->
      (forall x, GetValue (RootFields event) "aws" = Some x -> is_map x = true) ->
      (forall x, GetValue (RootFields event) "aws.cloudwatch" = Some x -> is_map x = true) ->
      GetValue (RootFields event') "aws.cloudwatch.namespace"
      = Some (VStr (labels !!! namespaceIdx)))).
Proof.
  split.
  - destruct labels as [|l0 [|l1 [|l2 [|l3 [|l4 l]]]]]; simpl; intros [H|H];
      try lia; reflexivity.
  - intros H3. destruct labels as [|l0 [|l1 [|l2 [|l3 l]]]]; simpl in H3; try discriminate.
    clear H3. cbv zeta. simpl.
    destruct (GenerateFieldName l1 [l0; l1; l2]) as [fn|] eqn:Efn;
      [|unfold GenerateFieldName in Efn; discriminate].
    exists fn. split; [reflexivity|].
    pose proof (GenerateFieldName_segments _ _ _ Efn) as Hfn.
    split_and!.
    + unfold InsertRootFields. change ([l0; l1; l2] !! namespaceIdx) with (Some l1).
      cbn [mbind option_bind]. rewrite Efn. reflexivity.
    + rewrite !Put_Timestamp. reflexivity.
    + intros Hw Ha Hc.
      assert (Ha' : no_leaf_at (RootFields event) "aws" []).
      { intros x Hx. apply Ha. rewrite (GetValue_path _ _ "aws" [] Hw) by reflexivity. exact Hx. }
      assert (Hc' : no_leaf_at (RootFields event) "aws" ["cloudwatch"]).
      { intros x Hx. apply Hc. rewrite (GetValue_path _ _ "aws" ["cloudwatch"] Hw) by reflexivity.
        exact Hx. }
      assert (Hw1 : wf_map (RootFields (Put fn (VNum metricValue) event)))
        by (apply Put_wf; [exact Hw | constructor]).
      rewrite (GetValue_path _ _ "aws" ["cloudwatch"; "namespace"]);
        [| apply Put_wf; [exact Hw1 | constructor] | reflexivity].
      apply Put_namespace; [exact Hw1 | |].
      * apply Put_no_leaf; [exact Hw | simpl; lia | exact Ha'].
      * apply Put_no_leaf; [exact Hw | simpl; lia | exact Hc'].
Qed.

Lemma insert_dimensions_loop_zip (ds : list Dimension) (pre : list string) (ev : Event) :
  insert_dimensions_loop (map Name ds) (length pre) (pre ++ map Value ds)%list ev
  = Some (fold_left (fun e d => Put ("aws.dimensions." +:+ Name d) (VStr (Value d)) e) ds ev).
Proof.
  revert pre ev. induction ds as [|d ds IH]; intros pre ev; simpl; [reflexivity|].
  rewrite lookup_app_r, Nat.sub_diag by lia. simpl.
  pose proof (IH (pre ++ [Value d])%list (Put ("aws.dimensions." +:+ Name d) (VStr (Value d)) ev))
    as H.
  rewrite length_app, <- app_assoc in H. simpl in H. rewrite Nat.add_1_r in H. exact H.
Qed.

Lemma NoDup_map_In_eq {A B} (f : A -> B) (l : list A) (x y : A) :
  NoDup (map f l) -> In x l -> In y l -> f x = f y -> x = y.
Proof.
  induction l as [|a l IH]; intros Hnd Hx Hy E; [destruct Hx|]. simpl in Hnd.
  apply NoDup_cons in Hnd as [Ha Hnd].
  destruct Hx as [<-|Hx], Hy as [<-|Hy]; try reflexivity.
  - exfalso. apply Ha. rewrite E. apply list_elem_of_In, in_map, Hy.
  - exfalso. apply Ha. rewrite <- E. apply list_elem_of_In, in_map, Hx.
  - apply IH; assumption.
Qed.

(** After the metric-value and namespace [Put]s the namespace field reads
    the namespace. *)
Lemma InsertRootFields_head_namespace (event : Event) (fieldName : string) (v : Z)
    (namespace : string) :
  (5 <= length (Split "." fieldName))%nat ->
  wf_map (RootFields event) -> no_leaf_at (RootFields event) "aws" [] ->
  no_leaf_at (RootFields event) "aws" ["cloudwatch"] ->
  get_path (RootFields (Put "aws.cloudwatch.namespace" (VStr namespace)
                          (Put fieldName (VNum v) event)))
    "aws" ["cloudwatch"; "namespace"] = Some (VStr namespace).
Proof.
  intros Hfn Hw Ha Hc.
  assert (Hw1 : wf_map (RootFields (Put fieldName (VNum v) event)))
    by (apply Put_wf; [exact Hw | constructor]).
  apply Put_namespace; [exact Hw1 | |].
  - apply Put_no_leaf; [exact Hw | simpl; lia | exact Ha].
  - apply Put_no_leaf; [exact Hw | simpl; lia | exact Hc].
Qed.

Lemma join_nonempty (l : list string) (x : string) :
  x <> "" -> join (x :: l) <> "".
Proof.
  intros Hx. destruct l as [|y l]; simpl; [exact Hx|].
  destruct x; [congruence | discriminate].
Qed.

(** Round trip of a metric through its label: reading back the label
    [ConstructLabel] builds (parts without ['|'], dimension names and
    values non-empty and without [','], dimension names without ['.'] and
    distinct), [InsertRootFields] succeeds and keeps the event's timestamp;
    when the event's fields have dot-free keys and nothing but a map sits at
    [aws], [aws.cloudwatch] or [aws.dimensions], it sets
    [aws.cloudwatch.namespace] to the metric's namespace and
    [aws.dimensions.<name>] to that dimension's value for every
    dimension. *)
Theorem InsertRootFields_ConstructLabel (event : Event) (metricValue : Z) (metric : Metric)
    (statistic : string)
    (Hn : has_char labelSeparator (MetricName metric) = false)
    (Hns : has_char labelSeparator (Namespace metric) = false)
    (Hst : has_char labelSeparator statistic = false)
    (Hdims : Forall (fun d => has_char labelSeparator (Name d) = false /\
                              has_char labelSeparator (Value d) = false /\
                              has_char ","%char (Name d) = false /\
                              has_char ","%char (Value d) = false /\
                              Name d <> "" /\ Value d <> "" /\
                              has_char "." (Name d) = false) (Dimensions metric))
    (Hnodup : NoDup (map Name (Dimensions metric)))
    (Hw : wf_map (RootFields event))
    (Ha : forall x, GetValue (RootFields event) "aws" = Some x -> is_map x = true)
    (Hc : forall x, GetValue (RootFields event) "aws.cloudwatch" = Some x -> is_map x = true)
    (Hd : forall x, GetValue (RootFields event) "aws.dimensions" = Some x -> is_map x = true) :
  exists event',
    InsertRootFields event metricValue (Split labelSeparator (ConstructLabel metric statistic))
    = Some event' /\
    GetValue (RootFields event') "aws.cloudwatch.namespace" = Some (VStr (Namespace metric)) /\
    (forall d, In d (Dimensions metric) ->
       GetValue (RootFields event') ("aws.dimensions." +:+ Name d) = Some (VStr (Value d))) /\
    Timestamp event' = Timestamp event.
Proof.
  assert (Ha' : no_leaf_at (RootFields event) "aws" []).
  { intros x Hx. apply Ha. rewrite (GetValue_path _ _ "aws" [] Hw) by reflexivity. exact Hx. }
  assert (Hc' : no_leaf_at (RootFields event) "aws" ["cloudwatch"]).
  { intros x Hx. apply Hc. rewrite (GetValue_path _ _ "aws" ["cloudwatch"] Hw) by reflexivity.
    exact Hx. }
  assert (Hd' : no_leaf_at (RootFields event) "aws" ["dimensions"]).
  { intros x Hx. apply Hd. rewrite (GetValue_path _ _ "aws" ["dimensions"] Hw) by reflexivity.
    exact Hx. }
  rewrite Split_ConstructLabel; try assumption.
  2: { eapply Forall_impl; [exact Hdims|]. intros d (? & ? & _). split; assumption. }
  unfold label_fields.
  destruct (GenerateFieldName (Namespace metric)
              [MetricName metric; Namespace metric; statistic]) as [fn|] eqn:Efn;
    [|unfold GenerateFieldName in Efn; discriminate].
  pose proof (GenerateFieldName_segments _ _ _ Efn) as Hfn.
  pose proof (InsertRootFields_head_namespace event fn metricValue (Namespace metric)
                Hfn Hw Ha' Hc') as Hns0.
  destruct (InsertRootFields_head event fn metricValue (Namespace metric) "aws" [] Hfn
              ltac:(simpl; lia) Hw Ha') as [Hw0 Ha0].
  destruct (InsertRootFields_head event fn metricValue (Namespace metric) "aws" ["dimensions"]
              Hfn ltac:(simpl; lia) Hw Hd') as [_ Hd0].
  cbv zeta in Hw0, Ha0, Hd0.
  set (event0 := Put "aws.cloudwatch.namespace" (VStr (Namespace metric))
                   (Put fn (VNum metricValue) event)) in *.
  assert (Hts0 : Timestamp event0 = Timestamp event) by (unfold event0; rewrite !Put_Timestamp; reflexivity).
  destruct (Dimensions metric) as [|d0 ds] eqn:Ed.
  - exists event0. split_and!.
    + unfold InsertRootFields. cbn [map join String.concat String.eqb negb andb].
      change ([MetricName metric; Namespace metric; statistic] !! namespaceIdx)
        with (Some (Namespace metric)).
      cbn [mbind option_bind]. rewrite Efn. reflexivity.
    + rewrite (GetValue_path _ _ "aws" ["cloudwatch"; "namespace"] Hw0) by reflexivity.
      exact Hns0.
    + intros d [].
    + exact Hts0.
  - inversion Hdims as [|? ? (_ & _ & _ & _ & Hn0 & Hv0 & _) _]; subst.
    assert (E1 : String.eqb (join (map Name (d0 :: ds))) "" = false)
      by (apply String.eqb_neq, join_nonempty, Hn0).
    assert (E2 : String.eqb (join (map Value (d0 :: ds))) "" = false)
      by (apply String.eqb_neq, join_nonempty, Hv0).
    assert (S1 : Split ","%char (join (map Name (d0 :: ds))) = map Name (d0 :: ds)).
    { apply Split_concat; [discriminate|]. apply Forall_map_has_char.
      eapply Forall_impl; [exact Hdims|]. intros d (_ & _ & ? & _); assumption. }
    assert (S2 : Split ","%char (join (map Value (d0 :: ds))) = map Value (d0 :: ds)).
    { apply Split_concat; [discriminate|]. apply Forall_map_has_char.
      eapply Forall_impl; [exact Hdims|]. intros d (_ & _ & _ & ? & _); assumption. }
    rewrite E1, E2. cbn [negb andb].
    unfold InsertRootFields.
    change ([MetricName metric; Namespace metric; statistic; join (map Name (d0 :: ds));
             join (map Value (d0 :: ds))] !! namespaceIdx) with (Some (Namespace metric)).
    cbn [mbind option_bind].
    assert (Efn5 : GenerateFieldName (Namespace metric)
              [MetricName metric; Namespace metric; statistic; join (map Name (d0 :: ds));
               join (map Value (d0 :: ds))] = Some fn) by (rewrite <- Efn; reflexivity).
    rewrite Efn5.
    cbn [mbind option_bind lookup list_lookup identifierNameIdx identifierValueIdx length Nat.eqb].
    rewrite S1, S2. fold event0.
    pose proof (insert_dimensions_loop_zip (d0 :: ds) []) as HZ. simpl app in HZ. simpl length in HZ.
    rewrite HZ.
    assert (Hpre : forall n, has_char "." n = false ->
                   Split "." ("aws.dimensions." +:+ n) = ["aws"; "dimensions"; n])
      by (intros n Hn'; exact (Split_aws "dimensions" n eq_refl Hn')).
    assert (Hf : Forall (fun d => has_char "." (Name d) = false /\ wf_val (VStr (Value d)))
                   (d0 :: ds)).
    { eapply Forall_impl; [exact Hdims|]. intros d (_ & _ & _ & _ & _ & _ & ?).
      split; [assumption | constructor]. }
    destruct (fold_puts_under "aws.dimensions." "aws" "dimensions" Name
                (fun d => VStr (Value d)) (d0 :: ds) event0 Hpre Hf Hw0 Ha0 Hd0)
      as (Hw' & _ & _ & Hframe & Hlast).
    cbv beta in Hw', Hframe, Hlast.
    eexists. split_and!; [reflexivity | | |].
    + rewrite (GetValue_path _ _ "aws" ["cloudwatch"; "namespace"] Hw') by reflexivity.
      rewrite Hframe; [exact Hns0|].
      intros d _. split; intros [r Hr]; simpl in Hr; congruence.
    + intros d Hin. destruct (Hlast d Hin) as (d' & Hin' & En & Hv).
      rewrite (NoDup_map_In_eq Name (d0 :: ds) d' d Hnodup Hin' Hin En) in Hv.
      rewrite (GetValue_path _ _ "aws" ["dimensions"; Name d] Hw'); [exact Hv|].
      apply Hpre. rewrite Forall_forall in Hf. apply Hf, list_elem_of_In, Hin.
    + rewrite (fold_puts_Timestamp (fun d => "aws.dimensions." +:+ Name d)
                 (fun d => VStr (Value d))). exact Hts0.
Qed.

Lemma ConstructTagsFilters_fold (nds : list NamespaceDetail) (m : gmap string (list Tag))
    (rt : string) :
  rt <> "" ->
  fold_left (fun rttf configPerNamespace =>
      let rt := ResourceTypeFilter configPerNamespace in
      if String.eqb rt "" then rttf
      else match rttf !! rt with
           | Some tags => <[rt := (tags ++ Tags configPerNamespace)%list]> rttf
           | None => <[rt := Tags configPerNamespace]> rttf
           end) nds m !! rt
  = match List.filter (fun nd => String.eqb (ResourceTypeFilter nd) rt) nds with
    | [] => m !! rt
    | sel => Some (default [] (m !! rt) ++ concat (map Tags sel))%list
    end.
Proof.
  intros Hrt. revert m. induction nds as [|nd nds IH]; intros m; [reflexivity|].
  cbn [fold_left List.filter].
  destruct (String.eqb (ResourceTypeFilter nd) "") eqn:E0.
  - apply String.eqb_eq in E0.
    assert (Ert : String.eqb (ResourceTypeFilter nd) rt = false)
      by (apply String.eqb_neq; rewrite E0; congruence).
    rewrite Ert. apply IH.
  - destruct (String.eqb (ResourceTypeFilter nd) rt) eqn:E1.
    + apply String.eqb_eq in E1. rewrite E1.
      set (m' := <[rt := (default [] (m !! rt) ++ Tags nd)%list]> m).
      assert (Hm : match m !! rt with
                   | Some tags => <[rt := (tags ++ Tags nd)%list]> m
                   | None => <[rt := Tags nd]> m
                   end = m') by (unfold m'; destruct (m !! rt); reflexivity).
      rewrite Hm, IH. unfold m'. rewrite lookup_insert_eq. simpl default.
      destruct (List.filter _ nds); simpl; [rewrite app_nil_r; reflexivity|].
      rewrite <- !app_assoc. reflexivity.
    + apply String.eqb_neq in E1. rewrite IH.
      destruct (m !! ResourceTypeFilter nd); rewrite lookup_insert_ne by congruence;
        reflexivity.
Qed.

(** [ConstructTagsFilters] keys the result by resource type: an empty
    resource type never appears as a key; a non-empty one maps to the
    concatenation, in order, of the [Tags] of every namespace detail with that
    resource type, and is absent when no detail has it. *)
Theorem ConstructTagsFilters_lookup (namespaceDetails : list NamespaceDetail) (rt : string) :
  ConstructTagsFilters namespaceDetails !! rt =
  if String.eqb rt "" then None
  else match List.filter (fun nd => String.eqb (ResourceTypeFilter nd) rt) namespaceDetails with
       | [] => None
       | sel => Some (concat (map Tags sel))
       end.
Proof.
  destruct (String.eqb rt "") eqn:E.
  - apply String.eqb_eq in E. subst rt. unfold ConstructTagsFilters.
    assert (Hgen : forall m : gmap string (list Tag), m !! "" = None ->
      fold_left (fun rttf configPerNamespace =>
        let rt := ResourceTypeFilter configPerNamespace in
        if String.eqb rt "" then rttf
        else match rttf !! rt with
             | Some tags => <[rt := (tags ++ Tags configPerNamespace)%list]> rttf
             | None => <[rt := Tags configPerNamespace]> rttf
             end) namespaceDetails m !! "" = None).
    { induction namespaceDetails as [|nd nds IH]; intros m Hm; [exact Hm|].
      cbn [fold_left]. apply IH.
      destruct (String.eqb (ResourceTypeFilter nd) "") eqn:E0; [exact Hm|].
      apply String.eqb_neq in E0.
      destruct (m !! ResourceTypeFilter nd); rewrite lookup_insert_ne by congruence;
        exact Hm. }
    apply Hgen. apply lookup_empty.
  - apply String.eqb_neq in E. unfold ConstructTagsFilters.
    rewrite ConstructTagsFilters_fold by exact E. rewrite lookup_empty.
    destruct (List.filter _ _); reflexivity.
Qed.

Lemma StringInSlice_In (s : string) (l : list string) :
  StringInSlice s l = true <-> In s l.
Proof.
  unfold StringInSlice. rewrite existsb_exists. split.
  - intros (x & Hx & E). apply String.eqb_eq in E. subst x. exact Hx.
  - intros H. exists s. split; [exact H | apply String.eqb_refl].
Qed.

Lemma filter_one_In (m : Metric) (nd : NamespaceDetail) (mws : MetricsWithStatistics) :
  In mws (filter_one m nd) <->
  mws = mkMWS m (Statistics nd) /\
  (forall names, Names nd = Some names -> In (MetricName m) names) /\
  (forall dims, nd_Dimensions nd = Some dims -> CompareAWSDimensions (Dimensions m) dims = true).
Proof.
  unfold filter_one.
  destruct (Names nd) as [names|], (nd_Dimensions nd) as [dims|].
  - destruct (StringInSlice (MetricName m) names) eqn:Es;
      [destruct (CompareAWSDimensions (Dimensions m) dims) eqn:Ec|].
    + simpl. split.
      * intros [<-|[]]. split_and!; [reflexivity | |].
        -- intros n' E. injection E as <-. apply StringInSlice_In. exact Es.
        -- intros d' E. injection E as <-. exact Ec.
      * intros (-> & _ & _). left. reflexivity.
    + simpl. split; [intros []|]. intros (_ & _ & Hd). rewrite (Hd dims eq_refl) in Ec.
      discriminate.
    + simpl. split; [intros []|]. intros (_ & Hn & _). specialize (Hn names eq_refl). apply StringInSlice_In in Hn.
      rewrite Hn in Es. discriminate.
  - destruct (StringInSlice (MetricName m) names) eqn:Es; simpl.
    + split.
      * intros [<-|[]]. split_and!; [reflexivity | | discriminate].
        intros n' E. injection E as <-. apply StringInSlice_In. exact Es.
      * intros (-> & _ & _). left. reflexivity.
    + split; [intros []|]. intros (_ & Hn & _). specialize (Hn names eq_refl). apply StringInSlice_In in Hn.
      rewrite Hn in Es. discriminate.
  - destruct (CompareAWSDimensions (Dimensions m) dims) eqn:Ec; simpl.
    + split.
      * intros [<-|[]]. split_and!; [reflexivity | discriminate |].
        intros d' E. injection E as <-. exact Ec.
      * intros (-> & _ & _). left. reflexivity.
    + split; [intros []|]. intros (_ & _ & Hd). rewrite (Hd dims eq_refl) in Ec.
      discriminate.
  - simpl. split.
    + intros [<-|[]]. split_and!; [reflexivity | discriminate | discriminate].
    + intros (-> & _ & _). left. reflexivity.
Qed.

(** [FilterListMetricsOutput] keeps exactly the pairs of a listed metric and
    a namespace detail whose name list (when given) contains the metric's
    name and whose dimensions (when given) match the metric's under
    [CompareAWSDimensions]; each kept entry carries the detail's statistics. *)
Theorem FilterListMetricsOutput_In (listMetricsOutput : list Metric)
    (namespaceDetails : list NamespaceDetail) (mws : MetricsWithStatistics) :
  In mws (FilterListMetricsOutput listMetricsOutput namespaceDetails) <->
  exists m nd, In m listMetricsOutput /\ In nd namespaceDetails /\
    mws = mkMWS m (Statistics nd) /\
    (forall names, Names nd = Some names -> In (MetricName m) names) /\
    (forall dims, nd_Dimensions nd = Some dims ->
                  CompareAWSDimensions (Dimensions m) dims = true).
Proof.
  unfold FilterListMetricsOutput. rewrite in_concat. split.
  - intros (l & Hl & Hin). apply in_map_iff in Hl as (m & <- & Hm).
    apply in_concat in Hin as (l' & Hl' & Hin). apply in_map_iff in Hl' as (nd & <- & Hnd).
    apply filter_one_In in Hin as (? & ? & ?).
    exists m, nd. split_and!; assumption.
  - intros (m & nd & Hm & Hnd & Hrest).
    exists (concat (map (filter_one m) namespaceDetails)). split.
    + apply in_map_iff. exists m. split; [reflexivity | exact Hm].
    + apply in_concat. exists (filter_one m nd). split.
      * apply in_map_iff. exists nd. split; [reflexivity | exact Hnd].
      * apply filter_one_In. exact Hrest.
Qed.

Lemma find_first {A} (f : A -> bool) (l : list A) (x : A) :
  List.find f l = Some x ->
  f x = true /\ exists pre post, l = (pre ++ x :: post)%list /\ Forall (fun y => f y = false) pre.
Proof.
  induction l as [|a l IH]; simpl; [discriminate|].
  destruct (f a) eqn:Ea.
  - intros E. injection E as <-. split; [exact Ea|]. exists [], l. split; [reflexivity | constructor].
  - intros E. destruct (IH E) as (Hx & pre & post & -> & Hpre). split; [exact Hx|].
    exists (a :: pre), post. split; [reflexivity | constructor; assumption].
Qed.

(** [checkStatistics] returns no error exactly when every statistic listed
    by every configuration is one [StatisticLookup] accepts (configurations
    without a statistic list are not checked); otherwise its error names the
    first rejected statistic, in configuration order. *)
Theorem checkStatistics_result (configs : list Config) :
  (checkStatistics configs = None <->
   forall c, In c configs -> forall stat, In stat (default [] (cfg_Statistic c)) ->
     snd (StatisticLookup stat) = true) /\
  (forall e, checkStatistics configs = Some e ->
   exists stat pre post,
     e = "statistic method specified is not valid: " +:+ stat /\
     snd (StatisticLookup stat) = false /\
     concat (map (fun c => default [] (cfg_Statistic c)) configs) = (pre ++ stat :: post)%list /\
     Forall (fun s => snd (StatisticLookup s) = true) pre).
Proof.
  unfold checkStatistics. split.
  - destruct (List.find _ _) as [stat|] eqn:Ef; split.
    + discriminate.
    + intros Hall. apply find_some in Ef as (Hin & Hf).
      apply in_concat in Hin as (l & Hl & Hin). apply in_map_iff in Hl as (c & <- & Hc).
      rewrite (Hall c Hc stat Hin) in Hf. discriminate.
    + intros _ c Hc stat Hin. eapply find_none in Ef.
      * apply negb_false_iff in Ef. exact Ef.
      * apply in_concat. exists (default [] (cfg_Statistic c)). split; [|exact Hin].
        apply in_map_iff. exists c. split; [reflexivity | exact Hc].
    + reflexivity.
  - intros e. destruct (List.find _ _) as [stat|] eqn:Ef; [|discriminate].
    intros E. injection E as <-.
    apply find_first in Ef as (Hf & pre & post & Heq & Hpre).
    exists stat, pre, post. split_and!; [reflexivity | | exact Heq |].
    + apply negb_true_iff in Hf. exact Hf.
    + eapply Forall_impl; [exact Hpre|]. intros s Hs. apply negb_false_iff in Hs. exact Hs.
Qed.

Lemma cmdq_inner_pairs (p : Z) (i j : nat) (m : Metric) (stats : list string) :
  map (fun q => (QMetric q, Stat q)) (cmdq_inner p i j m stats) = map (fun s => (m, s)) stats /\
  Forall (fun q => Period q = p /\ Label q = ConstructLabel (QMetric q) (Stat q))
    (cmdq_inner p i j m stats).
Proof.
  revert j. induction stats as [|s stats IH]; intros j; simpl; [split; [reflexivity | constructor]|].
  destruct (IH (S j)) as [H1 H2]. split; [rewrite H1; reflexivity|].
  constructor; [split; reflexivity | exact H2].
Qed.

(** [CreateMetricDataQueries] issues one query per (metric, statistic) pair,
    metrics in order and each metric's statistics in order; every query has
    the given period and the label [ConstructLabel] builds from its own
    metric and statistic; so no query at all exactly when every entry has an
    empty statistics list. *)
Theorem CreateMetricDataQueries_pairs (listMetricsTotal : list MetricsWithStatistics)
    (p : Z) :
  map (fun q => (QMetric q, Stat q)) (CreateMetricDataQueries listMetricsTotal p)
  = concat (map (fun mws => map (fun s => (CloudwatchMetric mws, s)) (Statistic mws))
              listMetricsTotal) /\
  Forall (fun q => Period q = p /\ Label q = ConstructLabel (QMetric q) (Stat q))
    (CreateMetricDataQueries listMetricsTotal p) /\
  (CreateMetricDataQueries listMetricsTotal p = [] <->
   Forall (fun mws => Statistic mws = []) listMetricsTotal).
Proof.
  unfold CreateMetricDataQueries. generalize 0%nat as i.
  induction listMetricsTotal as [|mws l IH]; intros i; simpl.
  - split_and!; [reflexivity | constructor | split; intros _; [constructor | reflexivity]].
  - destruct (IH (S i)) as (H1 & H2 & H3).
    destruct (cmdq_inner_pairs p i 0 (CloudwatchMetric mws) (Statistic mws)) as [I1 I2].
    split_and!.
    + rewrite map_app, H1, I1. reflexivity.
    + apply Forall_app. split; assumption.
    + split.
      * intros E. apply app_eq_nil in E as [E1 E2]. constructor; [|apply H3, E2].
        apply (f_equal (map (fun q => (QMetric q, Stat q)))) in E1. rewrite I1 in E1.
        destruct (Statistic mws); [reflexivity | discriminate].
      * intros Hf. inversion Hf as [|? ? Hs Hl]; subst. rewrite Hs. simpl. apply H3, Hl.
Qed.

(** [createEvents] for metrics that all have an empty statistics list builds
    no query, so it returns an empty event map without calling
    [GetMetricDataResults]. *)
Theorem createEvents_without_queries
    (getMetricData : list MetricDataQuery -> list MetricDataResult + string)
    (getResourcesTags : string -> gmap string (list Tag) * option string)
    (listMetricWithStatsTotal : list MetricsWithStatistics)
    (resourceTypeTagFilters : gmap string (list Tag)) (regionName : string)
    (Hempty : Forall (fun mws => Statistic mws = []) listMetricWithStatsTotal) :
  createEvents getMetricData getResourcesTags listMetricWithStatsTotal resourceTypeTagFilters
    regionName = Ok ∅.
Proof.
  unfold createEvents.
  assert (E : CreateMetricDataQueries listMetricWithStatsTotal periodInSec = []).
  { unfold CreateMetricDataQueries. generalize 0%nat as i.
    induction Hempty as [|mws l Hs _ IH]; intros i; [reflexivity|].
    simpl. rewrite Hs. apply IH. }
  rewrite E. reflexivity.
Qed.

(** [Fetch] with no region reports no event: its result is just the outcome
    of [checkStatistics]. *)
Theorem Fetch_no_regions (remote : Remote) (tagsFilter : list Tag) (configs : list Config) :
  Fetch remote [] tagsFilter configs =
  ([], match checkStatistics configs with
       | Some e => Err ("checkStatistics failed: " +:+ e)
       | None => Ok tt
       end).
Proof.
  unfold Fetch. destruct (checkStatistics configs); [reflexivity|].
  destruct (readCloudwatchConfig tagsFilter configs) as [lmd nsd].
  destruct (negb _); reflexivity.
Qed.

(** When some configuration lists a statistic [StatisticLookup] rejects,
    [Fetch] reports no event and fails with the [checkStatistics] error for a
    rejected statistic, whatever the regions and remote answers are. *)
Theorem Fetch_invalid_statistic (remote : Remote) (regions : list string)
    (tagsFilter : list Tag) (configs : list Config) (c : Config) (stat : string)
    (Hc : In c configs) (Hs : In stat (default [] (cfg_Statistic c)))
    (Hbad : snd (StatisticLookup stat) = false) :
  exists stat', snd (StatisticLookup stat') = false /\
    Fetch remote regions tagsFilter configs =
    ([], Err ("checkStatistics failed: " +:+
              ("statistic method specified is not valid: " +:+ stat'))).
Proof.
  unfold Fetch, checkStatistics.
  destruct (List.find _ _) as [s|] eqn:Ef.
  - apply find_some in Ef as [_ Hf]. apply negb_true_iff in Hf.
    exists s. split; [exact Hf | reflexivity].
  - exfalso. eapply find_none in Ef.
    + rewrite Hbad in Ef. discriminate.
    + apply in_concat. exists (default [] (cfg_Statistic c)). split; [|exact Hs].
      apply in_map_iff. exists c. split; [reflexivity | exact Hc].
Qed.

Lemma go_fold_skip {A B} (body : B -> A -> GoResult B) (keep : A -> bool)
    (xs : list A) (acc : B) :
  (forall acc x, keep x = false -> body acc x = Ok acc) ->
  go_fold body xs acc = go_fold body (List.filter keep xs) acc.
Proof.
  intros Hskip. revert acc. induction xs as [|x xs IH]; intros acc; [reflexivity|].
  simpl. destruct (keep x) eqn:Ek.
  - simpl. destruct (body acc x); [apply IH | reflexivity | reflexivity].
  - rewrite (Hskip acc x Ek). apply IH.
Qed.

(** In [createEvents], a query result with no value, or whose values have
    no point at the chosen timestamp, leaves the events untouched: both the
    loop without filters and each resource-type pass give the same outcome
    on the results with these removed. *)
Theorem createEvents_skips_results (regionName : string) (timestamp : Z)
    (metricDataResults : list MetricDataResult)
    (getResourcesTags : string -> gmap string (list Tag) * option string)
    (events : gmap string Event) (rt_filter : string * list Tag) :
  let keep := fun r => negb (Nat.eqb (length (Values r)) 0) &&
                       fst (CheckTimestampInArray timestamp (Timestamps r)) in
  go_fold (step_nofilter regionName timestamp) metricDataResults events
  = go_fold (step_nofilter regionName timestamp) (List.filter keep metricDataResults) events /\
  tags_pass regionName timestamp metricDataResults getResourcesTags events rt_filter
  = tags_pass regionName timestamp (List.filter keep metricDataResults) getResourcesTags
      events rt_filter.
Proof.
  intros keep. split.
  - apply go_fold_skip. intros acc r Hk. unfold keep in Hk. unfold step_nofilter.
    destruct (Nat.eqb (length (Values r)) 0); [reflexivity|].
    destruct (CheckTimestampInArray timestamp (Timestamps r)) as [[|] idx];
      [discriminate | reflexivity].
  - destruct rt_filter as [rt tf]. unfold tags_pass.
    destruct (getResourcesTags rt) as [rtm err].
    destruct (negb _ && _); [reflexivity|].
    apply go_fold_skip. intros acc r Hk. unfold keep in Hk. unfold step_tags.
    destruct (Nat.eqb (length (Values r)) 0); [reflexivity|].
    destruct (CheckTimestampInArray timestamp (Timestamps r)) as [[|] idx];
      [discriminate | reflexivity].
Qed.

(** The identities one query result can create or update in [createEvents]:
    its label's identifier value when the label has 5 fields, otherwise the
    fallback identity built from the region and the label's namespace. *)
Definition result_identity (regionName : string) (r : MetricDataResult) (k : string) : Prop :=
  let labels := Split labelSeparator (ResultLabel r) in
  (length labels = 5%nat /\ labels !! identifierValueIdx = Some k) \/
  (length labels <> 5%nat /\
   exists ns, labels !! namespaceIdx = Some ns /\ k = fallback_identifier regionName ns).

Lemma Put_ready (key : string) (v : FVal) (e : Event) :
  fields_ready (RootFields e) -> wf_val v -> (3 <= length (Split "." key))%nat ->
  fields_ready (RootFields (Put key v e)).
Proof.
  intros (Hw & Ha & Hc) Hv Hlen. split_and!.
  - apply Put_wf; assumption.
  - apply Put_no_leaf; [exact Hw | simpl; lia | exact Ha].
  - apply Put_no_leaf; [exact Hw | simpl; lia | exact Hc].
Qed.

(** A [Put] of a path of at least three segments keeps a string at
    [aws.cloudwatch.namespace], unless it writes that very path with a
    value other than a string. *)
Lemma Put_has_namespace (key : string) (v : FVal) (e : Event) :
  has_namespace (RootFields e) -> wf_val v -> (3 <= length (Split "." key))%nat ->
  (Split "." key = ["aws"; "cloudwatch"; "namespace"] -> exists s, v = VStr s) ->
  has_namespace (RootFields (Put key v e)).
Proof.
  intros [Hr [ns Hns]] Hv Hlen Hsame. split; [apply Put_ready; assumption|].
  destruct Hr as (Hw & _ & _).
  destruct (Split "." key) as [|k ks] eqn:Es; [exfalso; exact (Split_nonempty _ _ Es)|].
  rewrite (Put_path _ _ _ _ _ Hw Es).
  destruct (put_path _ k ks v) as [m|] eqn:Em; [|exists ns; exact Hns].
  destruct (decide ((k :: ks) `prefix_of` ["aws"; "cloudwatch"; "namespace"])) as [H1|H1].
  - apply prefix_same_length in H1; [|apply prefix_length in H1; simpl in *; lia].
    destruct (Hsame H1) as [s ->]. exists s. injection H1 as -> ->.
    exact (get_put_path_same _ _ _ _ _ Em).
  - destruct (decide (["aws"; "cloudwatch"; "namespace"] `prefix_of` (k :: ks))) as [H2|H2].
    + exfalso. destruct H2 as [r Hr]. simpl in Hr. injection Hr as -> ->.
      destruct r as [|r0 rs]; [apply H1; reflexivity|].
      rewrite (put_path_blocked _ "aws" ("cloudwatch" :: "namespace" :: r0 :: rs) v 2 (VStr ns))
        in Em; [discriminate | simpl; lia | exact Hns | reflexivity].
    + exists ns. cbn [RootFields]. rewrite (get_put_path_other _ _ _ _ _ _ _ Em H1 H2). exact Hns.
Qed.

Lemma Split_dotted_prefix (pre n : string) :
  (2 <= count_char "." pre)%nat -> (3 <= length (Split "." (pre +:+ n)))%nat.
Proof. intros H. rewrite Split_length, count_char_app. lia. Qed.

Lemma insert_dimensions_loop_namespace (names : list string) (i : nat) (values : list string)
    (ev ev' : Event) :
  insert_dimensions_loop names i values ev = Some ev' ->
  has_namespace (RootFields ev) -> has_namespace (RootFields ev').
Proof.
  revert i ev. induction names as [|n names IH]; intros i ev H Hns; simpl in H.
  - injection H as <-. exact Hns.
  - destruct (values !! i) as [v|]; simpl in H; [|discriminate].
    apply (IH _ _ H). apply Put_has_namespace; [exact Hns | constructor | |].
    + apply (Split_dotted_prefix "aws.dimensions." n). simpl. lia.
    + intros _. eauto.
Qed.

Lemma InsertRootFields_namespace (event ev' : Event) (metricValue : Z) (labels : list string) :
  fields_ready (RootFields event) ->
  InsertRootFields event metricValue labels = Some ev' ->
  has_namespace (RootFields ev').
Proof.
  intros Hr. unfold InsertRootFields.
  destruct (labels !! namespaceIdx) as [ns|]; simpl; [|discriminate].
  destruct (GenerateFieldName ns labels) as [fn|] eqn:Efn; simpl; [|discriminate].
  pose proof (GenerateFieldName_segments _ _ _ Efn) as Hfn.
  assert (H0 : has_namespace (RootFields (Put "aws.cloudwatch.namespace" (VStr ns)
                                            (Put fn (VNum metricValue) event)))).
  { destruct Hr as (Hw & Ha & Hc). split.
    - apply Put_ready; [apply Put_ready; [split_and!; assumption | constructor | lia] |
                        constructor | reflexivity].
    - exists ns. exact (InsertRootFields_head_namespace event fn metricValue ns Hfn Hw Ha Hc). }
  intros H. destruct (Nat.eqb (length labels) 3).
  - injection H as <-. exact H0.
  - destruct (labels !! identifierNameIdx) as [nm|]; simpl in H; [|discriminate].
    destruct (labels !! identifierValueIdx) as [vl|]; simpl in H; [|discriminate].
    exact (insert_dimensions_loop_namespace _ _ _ _ _ H H0).
Qed.

Section WithInitEvent.

(** [aws.InitEvent] gives fields with dot-free keys and no [aws] entry. *)
Hypothesis HInit : forall regionName accountName accountID timestamp,
  wf_map (RootFields (InitEvent regionName accountName accountID timestamp)) /\
  RootFields (InitEvent regionName accountName accountID timestamp) !! "aws" = None.

Lemma InitEvent_ready regionName accountName accountID timestamp :
  fields_ready (RootFields (InitEvent regionName accountName accountID timestamp)).
Proof.
  destruct (HInit regionName accountName accountID timestamp) as [Hw Ha].
  split_and!; [exact Hw | |]; intros x Hx; simpl in Hx; rewrite Ha in Hx; discriminate.
Qed.

Lemma upsert_event_Ok (regionName : string) (timestamp : Z) (identifier : string)
    (value : Z) (labels : list string) (events events' : gmap string Event) :
  map_Forall (fun _ ev => has_namespace (RootFields ev)) events ->
  upsert_event regionName timestamp identifier value labels events = Ok events' ->
  exists ev', events' = <[identifier := ev']> events /\ has_namespace (RootFields ev').
Proof.
  intros Hall. unfold upsert_event.
  assert (Hr : fields_ready (RootFields (match events !! identifier with
                                         | Some ev => ev
                                         | None => InitEvent regionName AccountName AccountID timestamp
                                         end))).
  { destruct (events !! identifier) as [ev|] eqn:Ev.
    - exact (proj1 (Hall _ _ Ev)).
    - apply InitEvent_ready. }
  destruct (InsertRootFields _ value labels) as [ev'|] eqn:E; simpl; [|discriminate].
  intros H. injection H as <-. exists ev'. split; [reflexivity|].
  exact (InsertRootFields_namespace _ _ _ _ Hr E).
Qed.

Lemma step_nofilter_Ok (regionName : string) (timestamp : Z) (events events' : gmap string Event)
    (r : MetricDataResult) :
  map_Forall (fun _ ev => has_namespace (RootFields ev)) events ->
  step_nofilter regionName timestamp events r = Ok events' ->
  events' = events \/
  (Values r <> [] /\ fst (CheckTimestampInArray timestamp (Timestamps r)) = true /\
   exists k ev', result_identity regionName r k /\ events' = <[k := ev']> events /\
   has_namespace (RootFields ev')).
Proof.
  intros Hall. unfold step_nofilter.
  destruct (Nat.eqb (length (Values r)) 0) eqn:Ev.
  { intros H. injection H as <-. left. reflexivity. }
  destruct (CheckTimestampInArray timestamp (Timestamps r)) as [[|] idx] eqn:Ec;
    [|intros H; injection H as <-; left; reflexivity].
  cbv zeta. cbn [negb].
  assert (Hv : Values r <> []) by (intros E; rewrite E in Ev; discriminate).
  destruct (Nat.eqb (length (Split labelSeparator (ResultLabel r))) 5) eqn:E5; cbn [negb].
  - destruct (Split labelSeparator (ResultLabel r) !! identifierValueIdx) as [k|] eqn:Ek;
      [|discriminate].
    destruct (Values r !! idx) as [v|]; [|discriminate].
    intros H. apply upsert_event_Ok in H as (ev' & -> & Hns); [|exact Hall].
    right. split_and!; [exact Hv | reflexivity |].
    exists k, ev'. split_and!; [|reflexivity | exact Hns].
    left. split; [apply Nat.eqb_eq; exact E5 | exact Ek].
  - destruct (Split labelSeparator (ResultLabel r) !! namespaceIdx) as [ns|] eqn:Ens;
      [|discriminate].
    destruct (Values r !! idx) as [v|]; [|discriminate].
    intros H. apply upsert_event_Ok in H as (ev' & -> & Hns); [|exact Hall].
    right. split_and!; [exact Hv | reflexivity |].
    exists (fallback_identifier regionName ns), ev'. split_and!; [|reflexivity | exact Hns].
    right. split; [apply Nat.eqb_neq; exact E5|]. exists ns. split; [exact Ens | reflexivity].
Qed.

Lemma InsertTags_present (events : gmap string Event) (identifier : string)
    (resourceTagMap : gmap string (list Tag)) (ev : Event) :
  events !! identifier = Some ev -> has_namespace (RootFields ev) ->
  exists ev', InsertTags events identifier resourceTagMap = Some (<[identifier := ev']> events) /\
    has_namespace (RootFields ev').
Proof.
  intros He Hns. unfold InsertTags.
  rewrite (insert_tags_loop_some _ _ _ _ _ He).
  eexists. split; [reflexivity|].
  generalize (concat (map (sub_identifier_tags resourceTagMap)
                        (Split dimensionSeparator identifier))) as found.
  intros found. clear He. revert ev Hns. induction found as [|tag found IH]; intros ev Hns;
    cbn [fold_left]; [exact Hns|].
  apply IH. apply Put_has_namespace; [exact Hns | constructor | |].
  - apply Split_dotted_prefix. simpl. lia.
  - intros _. eauto.
Qed.

Lemma step_tags_Ok (regionName : string) (timestamp : Z) (tagsFilter : list Tag)
    (resourceTagMap : gmap string (list Tag)) (events events' : gmap string Event)
    (r : MetricDataResult) :
  map_Forall (fun _ ev => has_namespace (RootFields ev)) events ->
  step_tags regionName timestamp tagsFilter resourceTagMap events r = Ok events' ->
  events' = events \/
  (Values r <> [] /\ fst (CheckTimestampInArray timestamp (Timestamps r)) = true /\
   exists k ev', result_identity regionName r k /\ events' = <[k := ev']> events /\
   has_namespace (RootFields ev')).
Proof.
  intros Hall. unfold step_tags.
  destruct (Nat.eqb (length (Values r)) 0) eqn:Ev.
  { intros H. injection H as <-. left. reflexivity. }
  destruct (CheckTimestampInArray timestamp (Timestamps r)) as [[|] idx] eqn:Ec;
    [|intros H; injection H as <-; left; reflexivity].
  cbv zeta. cbn [negb].
  assert (Hv : Values r <> []) by (intros E; rewrite E in Ev; discriminate).
  destruct (Nat.eqb (length (Split labelSeparator (ResultLabel r))) 5) eqn:E5; cbn [negb].
  - destruct (Split labelSeparator (ResultLabel r) !! identifierValueIdx) as [k|] eqn:Ek;
      [|discriminate]. cbn [mbind GoResult_bind index].
    destruct (_ && _ && _); [intros H; injection H as <-; left; reflexivity|].
    destruct (Values r !! idx) as [v|]; [|discriminate]. cbn [mbind GoResult_bind index].
    destruct (upsert_event regionName timestamp k v _ events) as [e1| |] eqn:Eu;
      [|discriminate|discriminate].
    apply upsert_event_Ok in Eu as (ev1 & -> & Hns1); [|exact Hall].
    destruct (InsertTags_present (<[k := ev1]> events) k resourceTagMap ev1
                (lookup_insert_eq _ _ _) Hns1) as (ev2 & Ht & Hns2).
    cbn [mbind GoResult_bind]. rewrite Ht. intros H. injection H as <-.
    right. split_and!; [exact Hv | reflexivity |].
    exists k, ev2. split_and!.
    + left. split; [apply Nat.eqb_eq; exact E5 | exact Ek].
    + rewrite insert_insert_eq. reflexivity.
    + exact Hns2.
  - destruct (negb (Nat.eqb (length tagsFilter) 0));
      [intros H; injection H as <-; left; reflexivity|].
    destruct (Split labelSeparator (ResultLabel r) !! namespaceIdx) as [ns|] eqn:Ens;
      [|discriminate].
    destruct (Values r !! idx) as [v|]; [|discriminate].
    intros H. apply upsert_event_Ok in H as (ev' & -> & Hns); [|exact Hall].
    right. split_and!; [exact Hv | reflexivity |].
    exists (fallback_identifier regionName ns), ev'. split_and!; [|reflexivity | exact Hns].
    right. split; [apply Nat.eqb_neq; exact E5|]. exists ns. split; [exact Ens | reflexivity].
Qed.

End WithInitEvent.

Lemma go_fold_inv {A B} (P : B -> Prop) (body : B -> A -> GoResult B) (xs : list A)
    (acc res : B) :
  (forall acc x acc', In x xs -> P acc -> body acc x = Ok acc' -> P acc') ->
  P acc -> go_fold body xs acc = Ok res -> P res.
Proof.
  revert acc. induction xs as [|x xs IH]; intros acc Hstep Hacc; simpl.
  - intros H. injection H as <-. exact Hacc.
  - destruct (body acc x) as [acc'| |] eqn:E; simpl; [|discriminate|discriminate].
    apply IH.
    + intros a y a' Hy. apply Hstep. right. exact Hy.
    + apply (Hstep acc x acc'); [left; reflexivity | exact Hacc | exact E].
Qed.

(** Every event [createEvents] returns is keyed by the identity of one of
    the query results [GetMetricDataResults] returned: a result with at
    least one value and a point at the chosen timestamp, whose label gives
    that identity (see [result_identity]); and every such event carries the
    [aws.cloudwatch.namespace] field, read through the nested fields, as
    long as [aws.InitEvent] gives fields with dot-free keys and no [aws]
    entry. *)
Theorem createEvents_identities
    (getMetricData : list MetricDataQuery -> list MetricDataResult + string)
    (getResourcesTags : string -> gmap string (list Tag) * option string)
    (listMetricWithStatsTotal : list MetricsWithStatistics)
    (resourceTypeTagFilters : gmap string (list Tag)) (regionName : string)
    (events : gmap string Event)
    (HInit : forall regionName accountName accountID timestamp,
       wf_map (RootFields (InitEvent regionName accountName accountID timestamp)) /\
       RootFields (InitEvent regionName accountName accountID timestamp) !! "aws" = None)
    (Hok : createEvents getMetricData getResourcesTags listMetricWithStatsTotal
             resourceTypeTagFilters regionName = Ok events) :
  map_Forall (fun k ev =>
    exists metricDataResults r,
      getMetricData (CreateMetricDataQueries listMetricWithStatsTotal periodInSec)
        = inl metricDataResults /\
      In r metricDataResults /\ Values r <> [] /\
      fst (CheckTimestampInArray (FindTimestamp metricDataResults) (Timestamps r)) = true /\
      result_identity regionName r k /\
      exists ns, GetValue (RootFields ev) "aws.cloudwatch.namespace" = Some (VStr ns)) events.
Proof.
  revert Hok. unfold createEvents.
  destruct (Nat.eqb (length (CreateMetricDataQueries listMetricWithStatsTotal periodInSec)) 0).
  { intros H. injection H as <-. apply map_Forall_empty. }
  destruct (getMetricData (CreateMetricDataQueries listMetricWithStatsTotal periodInSec))
    as [rs|e] eqn:Eg; [|discriminate].
  set (ts := FindTimestamp rs).
  set (P := fun evs : gmap string Event => map_Forall (fun k ev =>
      (exists r, In r rs /\ Values r <> [] /\
         fst (CheckTimestampInArray ts (Timestamps r)) = true /\
         result_identity regionName r k) /\
      has_namespace (RootFields ev)) evs).
  assert (HP : P events -> map_Forall (fun k ev =>
    exists metricDataResults r,
      @inl _ string rs = inl metricDataResults /\
      In r metricDataResults /\ Values r <> [] /\
      fst (CheckTimestampInArray (FindTimestamp metricDataResults) (Timestamps r)) = true /\
      result_identity regionName r k /\
      exists ns, GetValue (RootFields ev) "aws.cloudwatch.namespace" = Some (VStr ns)) events).
  { intros Hp k ev Hk. destruct (Hp k ev Hk) as ((r & Hr & Hv & Ht & Hi) & ((Hw & _) & ns & Hns)).
    exists rs, r. split_and!; [reflexivity | exact Hr | exact Hv | exact Ht | exact Hi |].
    exists ns. rewrite (GetValue_path _ "aws.cloudwatch.namespace" "aws" ["cloudwatch"; "namespace"] Hw
                         eq_refl). exact Hns. }
  assert (Hins : forall evs r k ev', P evs -> In r rs -> Values r <> [] ->
            fst (CheckTimestampInArray ts (Timestamps r)) = true ->
            result_identity regionName r k ->
            has_namespace (RootFields ev') ->
            P (<[k := ev']> evs)).
  { intros evs r k ev' Hp Hr Hv Ht Hi Hns. apply map_Forall_insert_2; [|exact Hp].
    split; [exists r; split_and!; assumption | exact Hns]. }
  assert (Hnf : forall evs r evs', In r rs -> P evs ->
            step_nofilter regionName ts evs r = Ok evs' -> P evs').
  { intros evs r evs' Hr Hp Hs. apply (step_nofilter_Ok HInit _ _ _ _ _ (fun k0 e0 He0 => proj2 (Hp k0 e0 He0))) in Hs
      as [->|(Hv & Ht & k & ev' & Hi & -> & Hns)]; [exact Hp|].
    exact (Hins evs r k ev' Hp Hr Hv Ht Hi Hns). }
  assert (Htg : forall tf rtm evs r evs', In r rs -> P evs ->
            step_tags regionName ts tf rtm evs r = Ok evs' -> P evs').
  { intros tf rtm evs r evs' Hr Hp Hs. apply (step_tags_Ok HInit _ _ _ _ _ _ _ (fun k0 e0 He0 => proj2 (Hp k0 e0 He0))) in Hs
      as [->|(Hv & Ht & k & ev' & Hi & -> & Hns)]; [exact Hp|].
    exact (Hins evs r k ev' Hp Hr Hv Ht Hi Hns). }
  assert (HP0 : P ∅) by apply map_Forall_empty.
  destruct (Z.eqb ts 0).
  { intros H. injection H as <-. apply map_Forall_empty. }
  destruct (Nat.eqb (size resourceTypeTagFilters) 0); intros H; apply HP.
  - exact (go_fold_inv P _ _ _ _ (fun a x a' Hx Ha Hs => Hnf a x a' Hx Ha Hs) HP0 H).
  - refine (go_fold_inv P _ _ _ _ _ HP0 H).
    intros evs [rt tf] evs' _ Hp. unfold tags_pass.
    destruct (getResourcesTags rt) as [rtm err].
    destruct (negb _ && _); [intros E; injection E as <-; exact Hp|].
    apply go_fold_inv; [|exact Hp].
    intros a x a' Hx Ha Hs. exact (Htg _ _ a x a' Hx Ha Hs).
Qed.

Lemma rcc_fold_mws (tagsFilter : list Tag) (configs : list Config) (st : RccState) :
  metricsWithStatsTotal (fold_left (rcc_step tagsFilter) configs st) =
  (metricsWithStatsTotal st ++
   concat (map (fun c => map (fun name =>
       mkMWS (mkMetric (cfg_Namespace c) name (default [] (cloudwatchDimensions_of (cfg_Dimensions c))))
             (statistic_with_default (cfg_Statistic c)))
       (default [] (cfg_MetricName c))) (List.filter is_exact_mode configs)))%list.
Proof.
  revert st. induction configs as [|c configs IH]; intros st; simpl.
  - rewrite app_nil_r. reflexivity.
  - rewrite IH. unfold rcc_step. destruct (is_exact_mode c); simpl.
    + rewrite app_assoc. reflexivity.
    + reflexivity.
Qed.

Lemma rcc_fold_nsd (tagsFilter : list Tag) (configs : list Config) (st : RccState) (ns : string) :
  namespaceDetailTotal (fold_left (rcc_step tagsFilter) configs st) !! ns =
  match map (fun c => mkNamespaceDetail (cfg_ResourceType c) (cfg_MetricName c) tagsFilter
                        (statistic_with_default (cfg_Statistic c))
                        (cloudwatchDimensions_of (cfg_Dimensions c)))
          (List.filter (fun c => negb (is_exact_mode c) && String.eqb (cfg_Namespace c) ns)
             configs) with
  | [] => namespaceDetailTotal st !! ns
  | details => Some (default [] (namespaceDetailTotal st !! ns) ++ details)%list
  end.
Proof.
  revert st. induction configs as [|c configs IH]; intros st; [reflexivity|].
  cbn [fold_left List.filter]. rewrite IH. unfold rcc_step.
  destruct (is_exact_mode c); cbn [negb andb]; [reflexivity|].
  cbn [namespaceDetailTotal].
  destruct (String.eqb (cfg_Namespace c) ns) eqn:E.
  - apply String.eqb_eq in E. subst ns. rewrite lookup_insert_eq. cbn [map default].
    unfold id. destruct (map _ _); [reflexivity|]. rewrite <- app_assoc. reflexivity.
  - apply String.eqb_neq in E. rewrite lookup_insert_ne by exact E. reflexivity.
Qed.

Lemma rcc_fold_rtt (tagsFilter : list Tag) (configs : list Config) (st : RccState) (rt : string) :
  resourceTypesWithTags (fold_left (rcc_step tagsFilter) configs st) !! rt =
  if existsb (fun c => is_exact_mode c && negb (String.eqb rt "")
                       && String.eqb (cfg_ResourceType c) rt) configs
  then Some tagsFilter else resourceTypesWithTags st !! rt.
Proof.
  revert st. induction configs as [|c configs IH]; intros st; [reflexivity|].
  cbn [fold_left existsb]. rewrite IH. unfold rcc_step.
  destruct (is_exact_mode c); cbn [andb orb]; [|destruct (existsb _ _); reflexivity].
  cbn [resourceTypesWithTags].
  destruct (existsb _ configs); [destruct (_ && _); reflexivity|].
  rewrite orb_false_r.
  destruct (String.eqb (cfg_ResourceType c) "") eqn:E0.
  - apply String.eqb_eq in E0. rewrite E0.
    destruct (String.eqb rt "") eqn:Er; [reflexivity|].
    cbn [negb andb]. rewrite String.eqb_sym, Er. reflexivity.
  - destruct (String.eqb (cfg_ResourceType c) rt) eqn:E1.
    + apply String.eqb_eq in E1. subst rt. rewrite E0. cbn [negb andb].
      apply lookup_insert_eq.
    + apply String.eqb_neq in E1. rewrite andb_false_r.
      apply lookup_insert_ne. exact E1.
Qed.

(** Over the whole configuration list, [readCloudwatchConfig] collects, in
    configuration order: one metric entry per metric name of each
    exact-mode configuration; for each namespace, one detail per other
    configuration of that namespace (no key for a namespace without one);
    and, for a resource type, the tags filter exactly when some exact-mode
    configuration names that non-empty resource type. *)
Theorem readCloudwatchConfig_collects (tagsFilter : list Tag) (configs : list Config) :
  MetricsWithStats (fst (readCloudwatchConfig tagsFilter configs)) =
  concat (map (fun c => map (fun name =>
      mkMWS (mkMetric (cfg_Namespace c) name (default [] (cloudwatchDimensions_of (cfg_Dimensions c))))
            (statistic_with_default (cfg_Statistic c)))
      (default [] (cfg_MetricName c))) (List.filter is_exact_mode configs)) /\
  (forall ns, snd (readCloudwatchConfig tagsFilter configs) !! ns =
   match map (fun c => mkNamespaceDetail (cfg_ResourceType c) (cfg_MetricName c) tagsFilter
                         (statistic_with_default (cfg_Statistic c))
                         (cloudwatchDimensions_of (cfg_Dimensions c)))
           (List.filter (fun c => negb (is_exact_mode c) && String.eqb (cfg_Namespace c) ns)
              configs) with
   | [] => None
   | details => Some details
   end) /\
  (forall rt, ResourceTypeFilters (fst (readCloudwatchConfig tagsFilter configs)) !! rt =
   if existsb (fun c => is_exact_mode c && negb (String.eqb rt "")
                        && String.eqb (cfg_ResourceType c) rt) configs
   then Some tagsFilter else None).
Proof.
  unfold readCloudwatchConfig. cbn [fst snd MetricsWithStats ResourceTypeFilters].
  split_and!.
  - rewrite rcc_fold_mws. reflexivity.
  - intros ns. rewrite rcc_fold_nsd. cbn [namespaceDetailTotal].
    rewrite lookup_empty. destruct (map _ _); reflexivity.
  - intros rt. rewrite rcc_fold_rtt. cbn [resourceTypesWithTags].
    rewrite lookup_empty. reflexivity.
Qed.

Lemma last_value_In (d : list Dimension) (k v : string) :
  NoDup (map Name d) -> last_value d k = Some v <-> In (mkDimension k v) d.
Proof.
  revert v. induction d as [|x d IH]; intros v Hnd; cbn [last_value In];
    [split; [discriminate | intros []]|].
  rewrite map_cons in Hnd. apply NoDup_cons in Hnd as [Hx Hnd].
  destruct (last_value d k) as [v'|] eqn:E.
  - assert (Hin : In (mkDimension k v') d) by (apply IH; [exact Hnd | reflexivity]).
    split.
    + intros H. injection H as <-. right. exact Hin.
    + intros [->|H].
      * exfalso. apply Hx. apply list_elem_of_In, in_map_iff.
        exists (mkDimension k v'). split; [reflexivity|]. exact Hin.
      * apply IH in H; [|exact Hnd]. congruence.
  - destruct (String.eqb (Name x) k) eqn:Ek.
    + apply String.eqb_eq in Ek. split.
      * intros H. injection H as <-. left. destruct x; simpl in *; subst; reflexivity.
      * intros [->|H]; [reflexivity|]. apply IH in H; [congruence | exact Hnd].
    + apply String.eqb_neq in Ek. split; [discriminate|].
      intros [->|H]; [simpl in Ek; congruence|]. apply IH in H; [congruence | exact Hnd].
Qed.

Lemma last_value_perm (d d' : list Dimension) (k : string) :
  NoDup (map Name d) -> Permutation d d' -> last_value d k = last_value d' k.
Proof.
  intros Hnd Hp.
  assert (Hnd' : NoDup (map Name d')).
  { assert (Hm : map Name d ≡ₚ map Name d') by (apply Permutation_map; exact Hp).
    rewrite <- Hm. exact Hnd. }
  assert (Hiff : forall v, last_value d k = Some v <-> last_value d' k = Some v).
  { intros v. rewrite (last_value_In d k v Hnd), (last_value_In d' k v Hnd').
    split; apply Permutation_in; [exact Hp | symmetry; exact Hp]. }
  destruct (last_value d k) as [v|] eqn:E.
  - symmetry. apply Hiff. reflexivity.
  - destruct (last_value d' k) as [v'|] eqn:E'; [|reflexivity].
    pose proof (proj2 (Hiff v') eq_refl) as Hc. discriminate.
Qed.

(** [CompareAWSDimensions] accepts a dimension list against itself, and
    against the same names in the same order with every value the wildcard
    ["*"]. *)
Theorem CompareAWSDimensions_refl_wildcard (dims : list Dimension) :
  CompareAWSDimensions dims dims = true /\
  CompareAWSDimensions dims (map (fun d => mkDimension (Name d) dimensionValueWildcard) dims)
  = true.
Proof.
  split; apply CompareAWSDimensions_iff; unfold spec_dimensions_match.
  - split; [reflexivity|]. intros k. unfold resolve_lookup.
    destruct (last_value dims k) as [v|]; [|reflexivity].
    destruct (String.eqb v dimensionValueWildcard); reflexivity.
  - rewrite length_map. split; [reflexivity|]. intros k.
    assert (H : last_value (map (fun d => mkDimension (Name d) dimensionValueWildcard) dims) k
                = option_map (fun _ => dimensionValueWildcard) (last_value dims k)).
    { induction dims as [|x dims IH]; [reflexivity|]. simpl. rewrite IH.
      destruct (last_value dims k); [reflexivity|]. cbn.
      destruct (String.eqb (Name x) k); reflexivity. }
    rewrite H. unfold resolve_lookup.
    destruct (last_value dims k) as [v|]; reflexivity.
Qed.

(** With distinct names on each side, [CompareAWSDimensions] does not
    depend on the order of either dimension list. *)
Theorem CompareAWSDimensions_permutation (dim1 dim1' dim2 dim2' : list Dimension)
    (Hnd1 : NoDup (map Name dim1)) (Hnd2 : NoDup (map Name dim2))
    (Hp1 : Permutation dim1 dim1') (Hp2 : Permutation dim2 dim2') :
  CompareAWSDimensions dim1 dim2 = CompareAWSDimensions dim1' dim2'.
Proof.
  apply Bool.eq_iff_eq_true. rewrite !CompareAWSDimensions_iff.
  unfold spec_dimensions_match.
  rewrite (Permutation_length Hp1), (Permutation_length Hp2).
  assert (E1 : forall k, last_value dim1 k = last_value dim1' k)
    by (intros k; apply last_value_perm; assumption).
  assert (E2 : forall k, last_value dim2 k = last_value dim2' k)
    by (intros k; apply last_value_perm; assumption).
  split; intros [Hl H]; split; [exact Hl | | exact Hl |]; intros k; specialize (H k).
  - rewrite <- E1, <- E2. exact H.
  - rewrite E1, E2. exact H.
Qed.

(** [InsertTags] for an identifier with no event: when no sub-identifier
    has tags it leaves the events unchanged, and as soon as one has, writing
    into the missing event's nil [RootFields] panics. *)
Theorem InsertTags_missing_event (events : gmap string Event) (identifier : string)
    (resourceTagMap : gmap string (list Tag))
    (Hmissing : events !! identifier = None) :
  InsertTags events identifier resourceTagMap =
  if forallb (fun v => Nat.eqb (length (sub_identifier_tags resourceTagMap v)) 0)
       (Split dimensionSeparator identifier)
  then Some events else None.
Proof.
  unfold InsertTags. induction (Split dimensionSeparator identifier) as [|v subs IH];
    [reflexivity|].
  cbn [insert_tags_loop forallb].
  destruct (sub_identifier_tags resourceTagMap v) as [|tag tags] eqn:Et; cbn [length Nat.eqb negb andb].
  - exact IH.
  - simpl. unfold put_event. rewrite Hmissing. reflexivity.
Qed.

End Metricset.

Example ConstructLabel_ec2 :
  Split labelSeparator
    (ConstructLabel (mkMetric "AWS/EC2" "CPUUtilization" [mkDimension "InstanceId" "i-1"]) "avg")
  = ["CPUUtilization"; "AWS/EC2"; "avg"; "InstanceId"; "i-1"].
Proof. reflexivity. Qed.

Example ConstructLabel_two :
  ConstructLabel (mkMetric "AWS/S3" "M" [mkDimension "A" "x"; mkDimension "B" "y"]) "Sum"
  = "M|AWS/S3|Sum|A,B|x,y".
Proof. reflexivity. Qed.

Example Itoa_12 : Itoa 120 = "120".
Proof. reflexivity. Qed.

(** ** Counterexamples and witnesses *)

(** C1: a [GetMetricData] failure in us-east-1 ends [Fetch] with an error
    before eu-west-1 is queried, although eu-west-1 alone yields an event. *)
Lemma Fetch_failure_handling_counterexample :
  Fetch sample_InitEvent sample_FindTimestamp sample_CheckTimestampInArray
    sample_CheckTagFiltersExist sample_FindShortIdentifierFromARN sample_DeDot
    sample_addMetadata "111" "acct" 300 sample_remote ["us-east-1"; "eu-west-1"] []
    sample_configs
  = ([], Err "createEvents failed for region us-east-1: getMetricDataResults failed: throttled") /\
  length (fst (Fetch sample_InitEvent sample_FindTimestamp sample_CheckTimestampInArray
    sample_CheckTagFiltersExist sample_FindShortIdentifierFromARN sample_DeDot
    sample_addMetadata "111" "acct" 300 sample_remote ["eu-west-1"] [] sample_configs)) = 1%nat.
Proof. split; vm_compute; reflexivity. Qed.

(** C2: a metric without dimensions whose name contains ['|'] gives a label
    of 4 fields, not 3. *)
Lemma ConstructLabel_roundtrip_counterexample :
  ~ (forall (metric : Metric) (statistic : string), Dimensions metric = [] ->
     length (Split labelSeparator (ConstructLabel metric statistic)) = 3%nat).
Proof.
  intros H. specialize (H (mkMetric "AWS/EC2" "CPU|Utilization" []) "Average" eq_refl).
  vm_compute in H. discriminate.
Qed.

Lemma ConstructLabel_roundtrip_witness :
  has_char labelSeparator "CPUUtilization" = false /\
  has_char labelSeparator "AWS/EC2" = false /\
  has_char labelSeparator "avg" = false /\
  Split labelSeparator
    (ConstructLabel (mkMetric "AWS/EC2" "CPUUtilization" [mkDimension "InstanceId" "i-1"]) "avg")
  = ["CPUUtilization"; "AWS/EC2"; "avg"; "InstanceId"; "i-1"].
Proof.
  split_and!; [reflexivity | reflexivity | reflexivity |].
  refine (proj2 (proj2 (ConstructLabel_roundtrip
            (mkMetric "AWS/EC2" "CPUUtilization" [mkDimension "InstanceId" "i-1"]) "avg"
            eq_refl eq_refl eq_refl _)) _ _ _).
  - repeat constructor.
  - discriminate.
  - vm_compute. discriminate.
  - vm_compute. discriminate.
Defined.

Lemma createEvents_fallback_identity_witness :
  length (Split labelSeparator "EstimatedCharges|AWS/Billing|Maximum") = 3%nat /\
  fallback_identifier "111" "us-east-1" "AWS/Billing" = "us-east-1111AWS/Billing" /\
  step_tags sample_InitEvent sample_CheckTimestampInArray sample_FindShortIdentifierFromARN
    sample_DeDot "111" "acct" "us-east-1" 100 [mkTag "env" "prod"] ∅ ∅
    (mkMetricDataResult "EstimatedCharges|AWS/Billing|Maximum" [100%Z] [42%Z]) = Ok ∅.
Proof.
  pose proof (createEvents_fallback_identity sample_InitEvent sample_CheckTimestampInArray
    sample_FindShortIdentifierFromARN sample_DeDot "111" "acct" "us-east-1" 100 ∅
    (mkMetricDataResult "EstimatedCharges|AWS/Billing|Maximum" [100%Z] [42%Z])
    (ltac:(vm_compute; reflexivity))) as H.
  cbv zeta in H. destruct H as (H1 & _ & H3 & _).
  split_and!; [vm_compute; reflexivity | exact H1 | apply H3; discriminate].
Defined.

(** C5: an entry with an empty (non-nil) metric-name list and dimensions is
    routed to exact mode and contributes neither a metric request nor a
    [NamespaceDetail]. *)
Lemma readCloudwatchConfig_routing_counterexample :
  readCloudwatchConfig []
    [mkConfig "AWS/EC2" (Some []) (Some [mkDimension "InstanceId" "i-1"]) "" None]
  = (mkListMetricWithDetail [] ∅, ∅).
Proof. vm_compute. reflexivity. Qed.

(** C7: an entry with an empty (non-nil) statistics list keeps it, and its
    metric contributes no query at all. *)
Lemma readCloudwatchConfig_default_statistics_counterexample :
  let lmd := fst (readCloudwatchConfig []
    [mkConfig "AWS/EC2" (Some ["CPUUtilization"]) (Some [mkDimension "InstanceId" "i-1"]) ""
       (Some [])]) in
  length (MetricsWithStats lmd) = 1%nat /\ CreateMetricDataQueries (MetricsWithStats lmd) 300 = [].
Proof. vm_compute. split; reflexivity. Qed.

Lemma readCloudwatchConfig_default_statistics_witness :
  let config := mkConfig "AWS/EC2" (Some ["CPUUtilization"])
                  (Some [mkDimension "InstanceId" "i-1"]) "" None in
  cfg_Statistic config = None /\
  Forall (fun mws => Statistic mws = defaultStatistics /\
                     map Stat (CreateMetricDataQueries [mws] 300) = defaultStatistics)
    (drop 0 (metricsWithStatsTotal (rcc_step [] (mkRccState [] ∅ ∅) config))).
Proof.
  cbv zeta. split; [reflexivity|].
  exact (proj1 (readCloudwatchConfig_default_statistics [] (mkRccState [] ∅ ∅)
    (mkConfig "AWS/EC2" (Some ["CPUUtilization"]) (Some [mkDimension "InstanceId" "i-1"]) "" None)
    300 eq_refl)).
Defined.

(** [sample_InitEvent] gives fields with dot-free keys and no [aws] entry. *)
Lemma sample_InitEvent_ready (regionName accountName accountID : string) (timestamp : Z) :
  wf_map (RootFields (sample_InitEvent regionName accountName accountID timestamp)) /\
  RootFields (sample_InitEvent regionName accountName accountID timestamp) !! "aws" = None.
Proof.
  split; [|vm_compute; reflexivity].
  unfold sample_InitEvent. repeat (apply Put_wf; [|constructor]). exact wf_map_empty.
Qed.



(** C10: a statistic carrying ['|'] and [','] gives a dimension-less metric
    a 5-field label whose names part splits into 2 parts and its values
    part into 1, and [InsertRootFields] panics on it. *)
Lemma InsertRootFields_in_range_counterexample :
  let labels := Split labelSeparator (ConstructLabel (mkMetric "b|c" "a" []) "px,y|z") in
  labels = ["a"; "b"; "c"; "px,y"; "z"] /\
  length (Split ","%char (labels !!! identifierNameIdx)) = 2%nat /\
  length (Split ","%char (labels !!! identifierValueIdx)) = 1%nat /\
  InsertRootFields sample_DeDot (mkEvent ∅ 0) 1 labels = None.
Proof. vm_compute. split_and!; reflexivity. Qed.

(** ** Witnesses of the further properties *)

Lemma StripNamespace_last_segment_witness :
  has_char "/" "EC2" = false /\ StripNamespace "AWS/EC2" = "ec2".
Proof.
  split; [reflexivity|].
  pose proof (StripNamespace_last_segment "AWS" "EC2" ltac:(reflexivity)) as H.
  exact (proj1 H).
Defined.

Lemma GenerateFieldName_ConstructLabel_witness :
  GenerateFieldName sample_DeDot "AWS/EC2"
    (Split labelSeparator
       (ConstructLabel (mkMetric "AWS/EC2" "CPUUtilization" [mkDimension "InstanceId" "i-1"])
          "Average"))
  = Some "aws.ec2.metrics.CPUUtilization.avg".
Proof.
  pose proof (GenerateFieldName_ConstructLabel sample_DeDot
    (mkMetric "AWS/EC2" "CPUUtilization" [mkDimension "InstanceId" "i-1"]) "Average"
    ltac:(reflexivity) ltac:(reflexivity) ltac:(reflexivity)
    ltac:(vm_compute; repeat constructor)) as H.
  destruct H as [H _]. etransitivity; [exact H|]. vm_compute. reflexivity.
Defined.

Lemma InsertRootFields_ConstructLabel_witness :
  exists event',
    InsertRootFields sample_DeDot (sample_InitEvent "eu-west-1" "acct" "111" 100) 42
      (Split labelSeparator
         (ConstructLabel (mkMetric "AWS/EC2" "CPUUtilization" [mkDimension "InstanceId" "i-1"])
            "Average")) = Some event' /\
    GetValue (RootFields event') "aws.dimensions.InstanceId" = Some (VStr "i-1").
Proof.
  destruct (InsertRootFields_ConstructLabel sample_DeDot
    (sample_InitEvent "eu-west-1" "acct" "111" 100) 42
    (mkMetric "AWS/EC2" "CPUUtilization" [mkDimension "InstanceId" "i-1"]) "Average"
    ltac:(reflexivity) ltac:(reflexivity) ltac:(reflexivity)
    ltac:(constructor; [split_and!; first [reflexivity | discriminate] | constructor])
    ltac:(apply (bool_decide_unpack _); vm_compute; exact I)
    (proj1 (sample_InitEvent_ready "eu-west-1" "acct" "111" 100))
    ltac:(intros x Hx; vm_compute in Hx; discriminate Hx)
    ltac:(intros x Hx; vm_compute in Hx; discriminate Hx)
    ltac:(intros x Hx; vm_compute in Hx; discriminate Hx))
    as (ev' & H1 & _ & H3 & _).
  exists ev'. split; [exact H1|]. apply (H3 (mkDimension "InstanceId" "i-1")). left. reflexivity.
Defined.

Lemma createEvents_without_queries_witness :
  createEvents sample_InitEvent sample_FindTimestamp sample_CheckTimestampInArray
    sample_CheckTagFiltersExist sample_FindShortIdentifierFromARN sample_DeDot "111" "acct" 300
    (getMetricData sample_remote "us-east-1") (getResourcesTags sample_remote "us-east-1")
    [mkMWS (mkMetric "AWS/EC2" "CPUUtilization" []) []] ∅ "us-east-1" = Ok ∅.
Proof.
  apply (createEvents_without_queries sample_InitEvent sample_FindTimestamp
    sample_CheckTimestampInArray sample_CheckTagFiltersExist sample_FindShortIdentifierFromARN
    sample_DeDot "111" "acct" 300).
  repeat constructor.
Defined.

Lemma Fetch_invalid_statistic_witness :
  exists stat', snd (StatisticLookup stat') = false /\
    Fetch sample_InitEvent sample_FindTimestamp sample_CheckTimestampInArray
      sample_CheckTagFiltersExist sample_FindShortIdentifierFromARN sample_DeDot
      sample_addMetadata "111" "acct" 300 sample_remote ["eu-west-1"] []
      [mkConfig "AWS/EC2" (Some ["CPUUtilization"]) None "" (Some ["Median"])] =
    ([], Err ("checkStatistics failed: " +:+
              ("statistic method specified is not valid: " +:+ stat'))).
Proof.
  apply (Fetch_invalid_statistic sample_InitEvent sample_FindTimestamp
    sample_CheckTimestampInArray sample_CheckTagFiltersExist sample_FindShortIdentifierFromARN
    sample_DeDot sample_addMetadata "111" "acct" 300 sample_remote ["eu-west-1"] []
    [mkConfig "AWS/EC2" (Some ["CPUUtilization"]) None "" (Some ["Median"])]
    (mkConfig "AWS/EC2" (Some ["CPUUtilization"]) None "" (Some ["Median"])) "Median").
  - simpl. left. reflexivity.
  - simpl. left. reflexivity.
  - vm_compute. reflexivity.
Defined.

Lemma createEvents_identities_witness :
  exists events,
    createEvents sample_InitEvent sample_FindTimestamp sample_CheckTimestampInArray
      sample_CheckTagFiltersExist sample_FindShortIdentifierFromARN sample_DeDot "111" "acct" 300
      (getMetricData sample_remote "eu-west-1") (getResourcesTags sample_remote "eu-west-1")
      [mkMWS (mkMetric "AWS/EC2" "CPUUtilization" [mkDimension "InstanceId" "i-1"]) ["Average"]]
      ∅ "eu-west-1" = Ok events /\
    (exists ev, events !! "i-1" = Some ev) /\
    exists metricDataResults r,
      getMetricData sample_remote "eu-west-1"
        (CreateMetricDataQueries
           [mkMWS (mkMetric "AWS/EC2" "CPUUtilization" [mkDimension "InstanceId" "i-1"])
              ["Average"]] 300) = inl metricDataResults /\
      In r metricDataResults /\
      result_identity "111" "eu-west-1" r "i-1".
Proof.
  match goal with
  | |- exists e, ?lhs = Ok e /\ _ =>
      let v := eval vm_compute in lhs in
      match v with
      | Ok ?evs => assert (E : lhs = Ok evs) by (vm_compute; reflexivity); exists evs
      end
  end.
  split; [exact E|].
  pose proof (createEvents_identities sample_InitEvent sample_FindTimestamp
    sample_CheckTimestampInArray sample_CheckTagFiltersExist sample_FindShortIdentifierFromARN
    sample_DeDot "111" "acct" 300 _ _ _ _ _ _ sample_InitEvent_ready E) as H.
  match type of E with
  | _ = Ok ?evs =>
      destruct (evs !! "i-1") as [e1|] eqn:Ek; [|vm_compute in Ek; discriminate Ek];
      split; [exists e1; first [exact Ek | reflexivity]|];
      destruct (H "i-1" e1 Ek) as (rs & r & Hg & Hr & _ & _ & Hi & _)
  end.
  exists rs, r. split_and!; [exact Hg | exact Hr | exact Hi].
Defined.

Lemma CompareAWSDimensions_permutation_witness :
  CompareAWSDimensions [mkDimension "A" "x"; mkDimension "B" "y"]
    [mkDimension "A" "*"; mkDimension "B" "y"] =
  CompareAWSDimensions [mkDimension "B" "y"; mkDimension "A" "x"]
    [mkDimension "B" "y"; mkDimension "A" "*"].
Proof.
  apply CompareAWSDimensions_permutation.
  - apply (bool_decide_unpack _). vm_compute. exact I.
  - apply (bool_decide_unpack _). vm_compute. exact I.
  - apply (bool_decide_unpack _). vm_compute. exact I.
  - apply (bool_decide_unpack _). vm_compute. exact I.
Defined.

Lemma InsertTags_missing_event_witness :
  InsertTags sample_FindShortIdentifierFromARN sample_DeDot ∅ "a,b"
    {["b" := [mkTag "env" "prod"]]} = None.
Proof.
  pose proof (InsertTags_missing_event sample_FindShortIdentifierFromARN sample_DeDot ∅ "a,b"
    {["b" := [mkTag "env" "prod"]]}) as H.
  rewrite H by (vm_compute; reflexivity). vm_compute. reflexivity.
Defined.
